(** * The audit pipeline of the GitHub developer profiler

    A shallow embedding of [internal/services/github_service.go] and of
    the records of [internal/dto] it fills, followed by the properties
    of the audit pipeline: the file classifier, the heuristic scorers,
    the file sampler and [PerformFullAudit].

    Go strings are byte sequences and are modelled by [string] (one
    [ascii] per byte).  Go's [int] is modelled by [Z]; the only
    arithmetic that can leave the 64-bit range is the star total, whose
    wrap-around is written out.  A [time.Time] is modelled by the
    instant it denotes, an integer count of nanoseconds since Go's zero
    time. *)

From Stdlib Require Import ZArith String Ascii List PrimFloat Uint63 Lia.
From Stdlib Require Import Permutation Sorted.
From stdpp Require Import base list strings gmap sorting.

Set Warnings "-inexact-float".

Open Scope string_scope.
Open Scope Z_scope.

(** ** Errors and results *)

(** A Go [error].  [Errorf prefix cause] is the value built by
    [fmt.Errorf(prefix + ": %w", cause)]. *)
Inductive error : Type :=
| ApiError (msg : string)
| Errorf (prefix : string) (cause : error).

Fixpoint Error (e : error) : string :=
  match e with
  | ApiError msg => msg
  | Errorf prefix cause => prefix ++ ": " ++ Error cause
  end.

(** The [(value, error)] pair a Go function returns. *)
Inductive result (A : Type) : Type :=
| Ok (a : A)
| Err (e : error).
Arguments Ok {A} a.
Arguments Err {A} e.

Definition Time : Type := Z.

(** [t.After(u)] *)
Definition After (t u : Time) : bool := u <? t.

(** The zero value of [time.Time]. *)
Definition zeroTime : Time := 0.

(** ** The platform: parts of Go's standard library taken as parameters

    The Unicode tables behind [strings.ToLower] and [strings.TrimSpace]
    (used only on strings with a byte outside ASCII), base64 decoding,
    calendar arithmetic, the order in which [range] visits a map,
    [sort.Slice] and the generator of [math/rand] are not part of the
    repository.  [rand_Seed s] is the state of the global generator
    after [rand.Seed(s)], and [rand_Intn n g] is one draw from [0, n). *)
Class Platform : Type := {
  unicode_ToLower : string -> string;
  unicode_TrimSpace : string -> string;
  base64_DecodeString : string -> result string;
  time_AddDate : Time -> Z -> Z -> Z -> Time;
  range_keys : gmap string Z -> list string;
  sort_Slice : forall A : Type, (A -> A -> bool) -> list A -> list A;
  Rng : Type;
  rand_Seed : Z -> Rng;
  rand_Intn : Z -> Rng -> Z * Rng
}.
Arguments sort_Slice {_ A} less l.

(** ** Package [strings] and [path/filepath] *)

Definition LF : string := String (ascii_of_nat 10) "".

Definition len (s : string) : Z := Z.of_nat (String.length s).

Definition isASCIIByte (c : ascii) : bool := (N_of_ascii c <? 128)%N.

Fixpoint isASCII (s : string) : bool :=
  match s with
  | EmptyString => true
  | String c rest => isASCIIByte c && isASCII rest
  end.

Definition lowerByte (c : ascii) : ascii :=
  let n := N_of_ascii c in
  if ((65 <=? n) && (n <=? 90))%N then ascii_of_N (n + 32) else c.

Fixpoint mapBytes (f : ascii -> ascii) (s : string) : string :=
  match s with
  | EmptyString => EmptyString
  | String c rest => String (f c) (mapBytes f rest)
  end.

(** [strings.ToLower]: byte-wise on ASCII-only strings, Unicode-aware
    otherwise. *)
Definition ToLower `{Platform} (s : string) : string :=
  if isASCII s then mapBytes lowerByte s else unicode_ToLower s.

(** [strings.HasPrefix] *)
Definition HasPrefix (s pre : string) : bool := String.prefix pre s.

(** [strings.Split] for a non-empty separator (both call sites pass a
    one-byte separator).  [skip] counts the bytes of a separator that
    has just been matched and is still to be stepped over; [cur] is the
    piece collected so far. *)
Fixpoint Split_from (sep s : string) (skip : nat) (cur : string) : list string :=
  match s with
  | EmptyString => [cur]
  | String c rest =>
      match skip with
      | S k => Split_from sep rest k cur
      | O =>
          if HasPrefix s sep
          then cur :: Split_from sep rest (String.length sep - 1) ""
          else Split_from sep rest 0 (cur ++ String c "")
      end
  end.

Definition Split (s sep : string) : list string := Split_from sep s 0 "".

(** [strings.Count] for a non-empty substring: the number of
    non-overlapping occurrences. *)
Fixpoint Count_from (substr s : string) (skip : nat) : Z :=
  match s with
  | EmptyString => 0
  | String c rest =>
      match skip with
      | S k => Count_from substr rest k
      | O =>
          if HasPrefix s substr
          then 1 + Count_from substr rest (String.length substr - 1)
          else Count_from substr rest 0
      end
  end.

Definition Count (s substr : string) : Z := Count_from substr s 0.

(** [strings.Contains] *)
Fixpoint Contains (s substr : string) : bool :=
  HasPrefix s substr ||
  match s with
  | EmptyString => false
  | String _ rest => Contains rest substr
  end.

Definition isSpaceByte (c : ascii) : bool :=
  match N_of_ascii c with
  | 9 | 10 | 11 | 12 | 13 | 32 => true
  | _ => false
  end%N.

Fixpoint trimLeftSpace (s : string) : string :=
  match s with
  | EmptyString => EmptyString
  | String c rest => if isSpaceByte c then trimLeftSpace rest else s
  end.

Fixpoint trimRightSpace (s : string) : string :=
  match s with
  | EmptyString => EmptyString
  | String c rest =>
      let rest' := trimRightSpace rest in
      if isSpaceByte c && String.eqb rest' "" then "" else String c rest'
  end.

(** [strings.TrimSpace] *)
Definition TrimSpace `{Platform} (s : string) : string :=
  if isASCII s then trimRightSpace (trimLeftSpace s) else unicode_TrimSpace s.

(** The loop of [filepath.Ext], which walks the path from its last byte
    towards the first and stops at a path separator: [before] holds the
    bytes not yet visited, last byte first, and [suffix] the bytes
    already passed. *)
Fixpoint Ext_loop (before : list ascii) (suffix : list ascii) : string :=
  match before with
  | [] => ""
  | c :: before' =>
      if Ascii.eqb c "/" then ""
      else if Ascii.eqb c "." then string_of_list_ascii (c :: suffix)
      else Ext_loop before' (c :: suffix)
  end.

(** [filepath.Ext] *)
Definition Ext (path : string) : string :=
  Ext_loop (rev (list_ascii_of_string path)) [].

(** [float64(n)] for a non-negative [int]. *)
Definition float64 (n : Z) : float := PrimFloat.of_uint63 (Uint63.of_Z n).

(** ** File classifier *)

Definition codeExtensions : gmap string bool :=
  list_to_map
    [ (".go", true); (".py", true); (".js", true); (".ts", true);
      (".java", true); (".cpp", true); (".c", true); (".cs", true);
      (".rb", true); (".php", true); (".rs", true); (".kt", true);
      (".swift", true); (".scala", true); (".r", true); (".m", true);
      (".h", true); (".hpp", true); (".cc", true); (".cxx", true) ].

(** [isCodeFile]: indexing a Go map with an absent key gives the zero
    value, [false]. *)
Definition isCodeFile `{Platform} (path : string) : bool :=
  let parts := Split path "." in
  if Z.of_nat (length parts) <? 2 then false
  else
    let ext := "." ++ ToLower (List.last parts "") in
    default false (codeExtensions !! ext).

Definition languages : gmap string string :=
  list_to_map
    [ (".go", "Go"); (".py", "Python"); (".js", "JavaScript");
      (".ts", "TypeScript"); (".java", "Java"); (".cpp", "C++");
      (".c", "C"); (".cs", "C#"); (".rb", "Ruby"); (".php", "PHP");
      (".rs", "Rust"); (".kt", "Kotlin"); (".swift", "Swift");
      (".scala", "Scala"); (".r", "R"); (".m", "Objective-C");
      (".h", "C/C++ Header"); (".hpp", "C++ Header") ].

Definition detectLanguage `{Platform} (path : string) : string :=
  let ext := ToLower (Ext path) in
  match languages !! ext with
  | Some lang => lang
  | None => "Unknown"
  end.

(** ** Heuristic scorers *)

Definition testIndicators : list string :=
  [ "test"; "Test"; "TEST"; "assert"; "Assert"; "expect"; "Expect";
    "should"; "Should"; "describe"; "it("; "@Test"; "unittest";
    "testing.T"; "t.Run" ].

Definition hasTestIndicators `{Platform} (content : string) : bool :=
  let contentLower := ToLower content in
  existsb (fun indicator => Contains contentLower (ToLower indicator))
          testIndicators.

(** The counters of [assessCodeQuality]'s loop. *)
Record lineCounts : Type := {
  commentLines : Z;
  emptyLines : Z;
  longLines : Z
}.

Definition countLine `{Platform} (acc : lineCounts) (line : string) : lineCounts :=
  let trimmed := TrimSpace line in
  let acc1 :=
    if String.eqb trimmed "" then
      {| commentLines := commentLines acc;
         emptyLines := emptyLines acc + 1;
         longLines := longLines acc |}
    else if HasPrefix trimmed "//" || HasPrefix trimmed "#" || HasPrefix trimmed "/*" then
      {| commentLines := commentLines acc + 1;
         emptyLines := emptyLines acc;
         longLines := longLines acc |}
    else acc in
  if 120 <? len line then
    {| commentLines := commentLines acc1;
       emptyLines := emptyLines acc1;
       longLines := longLines acc1 + 1 |}
  else acc1.

Definition assessCodeQuality `{Platform} (content : string) : string :=
  let lines := Split content LF in
  let counts :=
    fold_left countLine lines
              {| commentLines := 0; emptyLines := 0; longLines := 0 |} in
  let totalLines := Z.of_nat (length lines) in
  if totalLines =? 0 then "Unknown"
  else
    let commentRatio := (float64 (commentLines counts) / float64 totalLines)%float in
    let longLineRatio := (float64 (longLines counts) / float64 totalLines)%float in
    if PrimFloat.ltb 0.2 commentRatio && PrimFloat.ltb longLineRatio 0.1 then "Good"
    else if PrimFloat.ltb 0.1 commentRatio && PrimFloat.ltb longLineRatio 0.2 then "Fair"
    else "Needs Improvement".

Definition complexityKeywords : list string :=
  [ "if"; "else"; "for"; "while"; "switch"; "case";
    "try"; "catch"; "finally"; "throw" ].

Definition assessComplexity `{Platform} (content : string) : string :=
  let contentLower := ToLower content in
  let complexityCount :=
    fold_left (fun acc keyword => acc + Count contentLower keyword)
              complexityKeywords 0 in
  let lines := Z.of_nat (length (Split content LF)) in
  if lines =? 0 then "Unknown"
  else
    let complexityRatio := (float64 complexityCount / float64 lines)%float in
    if PrimFloat.ltb 0.1 complexityRatio then "High"
    else if PrimFloat.ltb 0.05 complexityRatio then "Medium"
    else "Low".

(** ** 64-bit integers and slices *)

(** The value an [int] holds after an addition whose exact result is
    [z] (two's complement, 64 bits). *)
Definition wrap64 (z : Z) : Z := (z + 2 ^ 63) mod 2 ^ 64 - 2 ^ 63.

(** [xs[j]] for an [int] index: [None] stands for the run-time panic
    "index out of range". *)
Definition index {A : Type} (xs : list A) (j : Z) : option A :=
  if j <? 0 then None else xs !! Z.to_nat j.

(** [xs[:k]]: [None] stands for the run-time panic "slice bounds out
    of range".  Every slice cut this way has its capacity equal to its
    length or is cut below its length. *)
Definition slicePrefix {A : Type} (xs : list A) (k : Z) : option (list A) :=
  if (k <? 0) || (Z.of_nat (length xs) <? k) then None
  else Some (take (Z.to_nat k) xs).

(** [xs[i], xs[j] = xs[j], xs[i]] *)
Definition swap {A : Type} (xs : list A) (i j : Z) : option (list A) :=
  match index xs i, index xs j with
  | Some a, Some b => Some (<[Z.to_nat i := b]> (<[Z.to_nat j := a]> xs))
  | _, _ => None
  end.

(** ** The records of package [dto] *)

Record GitHubConfig : Type := {
  Token : string;
  SampledRepoCount : Z;
  CommitsPerRepo : Z;
  SampleFileCount : Z;
  AnalysisYears : Z;
  IncludePrivateRepo : bool;
  RandomSeed : Z;
  SaveDebugJSON : bool
}.

Record UserInfo : Type := {
  Username : string;
  UserInfo_Name : string;
  Company : string;
  Location : string;
  Email : string;
  UserInfo_CreatedAt : Time;
  PublicRepos : Z;
  PublicGists : Z;
  Followers : Z;
  Following : Z;
  SubscriptionPlan : string;
  UserInfo_UpdatedAt : Time
}.

Record Repository : Type := {
  Name : string;
  Description : string;
  CreatedAt : Time;
  UpdatedAt : Time;
  Stars : Z;
  Fork : bool;
  ForkSource : string;
  UserCommits : Z;
  LanguagesUsed : list string;
  FileCount : Z;
  CommitCount : Z;
  IncludeAnalysis : bool;
  IsSignificant : bool
}.

Record RepoStatistics : Type := {
  TotalRepos : Z;
  OriginalRepos : Z;
  ForkedRepos : Z;
  SignificantForks : Z;
  TotalStars : Z;
  AnalysisRepos : Z
}.

Record CommitDetail : Type := {
  CommitDetail_Repo : string;
  SHA : string;
  Message : string;
  Date : Time;
  Author : string;
  FilesChanged : list string
}.

Record FileAnalysis : Type := {
  Repo : string;
  Path : string;
  Language : string;
  Size : Z;
  Lines : Z;
  HasTests : bool;
  Content : string
}.

(** The two lists hold pointers in Go; here they hold the records the
    pointers lead to when the audit returns. *)
Record RepoStats : Type := {
  Statistics : RepoStatistics;
  RepoStats_OriginalRepos : list Repository;
  RepoStats_ForkedRepos : list Repository
}.

Record AnalysisSummary : Type := {
  ReposAnalyzedForCode : list string;
  ReposWithErrors : list string;
  ReposWithoutUserCommits : list string;
  TotalReposAttempted : Z;
  SuccessfulAnalysisCount : Z
}.

Record AuditResult : Type := {
  AuditResult_UserInfo : UserInfo;
  AuditResult_RepoStats : RepoStats;
  AuditResult_FileAnalysis : list FileAnalysis;
  CommitDetails : list CommitDetail;
  AuditParameters : GitHubConfig;
  AuditResult_AnalysisSummary : AnalysisSummary
}.

(** In-place updates of a repository record, one per field the
    pipeline assigns. *)
Definition set_LanguagesUsed (v : list string) (r : Repository) : Repository :=
  {| Name := Name r; Description := Description r; CreatedAt := CreatedAt r;
     UpdatedAt := UpdatedAt r; Stars := Stars r; Fork := Fork r;
     ForkSource := ForkSource r; UserCommits := UserCommits r;
     LanguagesUsed := v; FileCount := FileCount r;
     CommitCount := CommitCount r; IncludeAnalysis := IncludeAnalysis r;
     IsSignificant := IsSignificant r |}.

Definition set_CommitCount (v : Z) (r : Repository) : Repository :=
  {| Name := Name r; Description := Description r; CreatedAt := CreatedAt r;
     UpdatedAt := UpdatedAt r; Stars := Stars r; Fork := Fork r;
     ForkSource := ForkSource r; UserCommits := UserCommits r;
     LanguagesUsed := LanguagesUsed r; FileCount := FileCount r;
     CommitCount := v; IncludeAnalysis := IncludeAnalysis r;
     IsSignificant := IsSignificant r |}.

Definition set_FileCount (v : Z) (r : Repository) : Repository :=
  {| Name := Name r; Description := Description r; CreatedAt := CreatedAt r;
     UpdatedAt := UpdatedAt r; Stars := Stars r; Fork := Fork r;
     ForkSource := ForkSource r; UserCommits := UserCommits r;
     LanguagesUsed := LanguagesUsed r; FileCount := v;
     CommitCount := CommitCount r; IncludeAnalysis := IncludeAnalysis r;
     IsSignificant := IsSignificant r |}.

Definition set_IncludeAnalysis (v : bool) (r : Repository) : Repository :=
  {| Name := Name r; Description := Description r; CreatedAt := CreatedAt r;
     UpdatedAt := UpdatedAt r; Stars := Stars r; Fork := Fork r;
     ForkSource := ForkSource r; UserCommits := UserCommits r;
     LanguagesUsed := LanguagesUsed r; FileCount := FileCount r;
     CommitCount := CommitCount r; IncludeAnalysis := v;
     IsSignificant := IsSignificant r |}.

Definition set_IsSignificant (v : bool) (r : Repository) : Repository :=
  {| Name := Name r; Description := Description r; CreatedAt := CreatedAt r;
     UpdatedAt := UpdatedAt r; Stars := Stars r; Fork := Fork r;
     ForkSource := ForkSource r; UserCommits := UserCommits r;
     LanguagesUsed := LanguagesUsed r; FileCount := FileCount r;
     CommitCount := CommitCount r; IncludeAnalysis := IncludeAnalysis r;
     IsSignificant := v |}.

(** The zero value [dto.Repository{}]. *)
Definition zeroRepository : Repository :=
  {| Name := ""; Description := ""; CreatedAt := zeroTime;
     UpdatedAt := zeroTime; Stars := 0; Fork := false; ForkSource := "";
     UserCommits := 0; LanguagesUsed := []; FileCount := 0;
     CommitCount := 0; IncludeAnalysis := false; IsSignificant := false |}.

(** ** What the go-github client hands back

    Fields read through a nil-safe getter hold the getter's value;
    fields the service tests against [nil] are options. *)
Module github.

Record User : Type := {
  Login : string;
  User_Name : string;
  Company : string;
  Location : string;
  Email : string;
  PublicRepos : Z;
  PublicGists : Z;
  Followers : Z;
  Following : Z;
  User_CreatedAt : option Time;
  User_UpdatedAt : option Time;
  Plan : option string
}.

(** [Parent] holds the parent's full name. *)
Record Repository : Type := {
  Name : string;
  Description : string;
  StargazersCount : Z;
  Fork : bool;
  CreatedAt : option Time;
  UpdatedAt : option Time;
  Parent : option string
}.

Record RepositoryCommit : Type := {
  SHA : string;
  Message : string;
  AuthorName : string;
  AuthorDate : option Time
}.

Record TreeEntry : Type := {
  Type_ : string;
  Path : string
}.

Record RepositoryContent : Type := {
  Content : option string
}.

End github.

(** ** The environment: the clock and the GitHub REST API

    Every call takes the state of the world outside the process and
    returns the next one, so that the same request may be answered
    differently at different moments.  [Repositories_List] is called
    with the page number, the other list options being fixed, and
    answers with a page and the number of the next one;
    [Repositories_GetCommit] answers with the names of the files the
    commit changed; [Repositories_GetContents] answers with [None] when
    the path is not a file. *)
Class Environment (R : Type) : Type := {
  time_Now : R -> Time;
  Users_Get : string -> R -> result github.User * R;
  Repositories_List :
    string -> Z -> R -> result (list github.Repository * Z) * R;
  Repositories_ListLanguages :
    string -> string -> R -> result (gmap string Z) * R;
  Repositories_ListCommits :
    string -> string -> string -> Z -> R ->
    result (list github.RepositoryCommit) * R;
  Repositories_GetCommit :
    string -> string -> string -> R -> result (list string) * R;
  Git_GetTree :
    string -> string -> string -> bool -> R ->
    result (list github.TreeEntry) * R;
  Repositories_GetContents :
    string -> string -> string -> R ->
    result (option github.RepositoryContent) * R
}.

(** ** Running Go code

    A call either returns a value in a new state, panics, or has not
    returned when the fuel given to an unbounded loop is used up. *)
Inductive exec (S A : Type) : Type :=
| Done (a : A) (s : S)
| Panic
| OutOfFuel.
Arguments Done {S A} a s.
Arguments Panic {S A}.
Arguments OutOfFuel {S A}.

Definition M (S A : Type) : Type := S -> exec S A.

Definition ret {S A : Type} (a : A) : M S A := fun s => Done a s.

Definition bind {S A B : Type} (m : M S A) (k : A -> M S B) : M S B :=
  fun s =>
    match m s with
    | Done a s' => k a s'
    | Panic => Panic
    | OutOfFuel => OutOfFuel
    end.

Definition panic {S A : Type} : M S A := fun _ => Panic.

Definition fromOption {S A : Type} (o : option A) : M S A :=
  match o with
  | Some a => ret a
  | None => panic
  end.

Declare Scope go_scope.
Delimit Scope go_scope with go.
Notation "x <- m ;; k" := (bind m (fun x => k))
  (at level 100, m at next level, right associativity) : go_scope.

(** A [for _, x := range l] loop that updates the variables [b]. *)
Fixpoint forRange {S A B : Type} (f : B -> A -> M S B) (l : list A) (b : B) : M S B :=
  match l with
  | [] => ret b
  | x :: l' => bind (f b x) (forRange f l')
  end.

(** ** The service *)

(** The state Go code runs in: the world outside the process and the
    global generator of [math/rand]. *)
Record World (R G : Type) : Type := {
  remote : R;
  rng : G
}.
Arguments remote {R G} w.
Arguments rng {R G} w.

Section Service.

Context `{Platform} {R : Type} `{Environment R}.

(** The state the service runs in. *)
Abbreviation World := (World R Rng).

Local Open Scope go_scope.

(** A call through the client. *)
Definition call {A : Type} (f : R -> A * R) : M World A :=
  fun w =>
    let (a, r') := f (remote w) in
    Done a {| remote := r'; rng := rng w |}.

(** [time.Now()] *)
Definition Now : M World Time :=
  fun w => Done (time_Now (remote w)) w.

(** The service's configuration, [s.config]. *)
Variable config : GitHubConfig.

Definition toUserInfo (user : github.User) : UserInfo :=
  {| Username := github.Login user;
     UserInfo_Name := github.User_Name user;
     Company := github.Company user;
     Location := github.Location user;
     Email := github.Email user;
     UserInfo_CreatedAt :=
       match github.User_CreatedAt user with
       | Some t => t
       | None => zeroTime
       end;
     PublicRepos := github.PublicRepos user;
     PublicGists := github.PublicGists user;
     Followers := github.Followers user;
     Following := github.Following user;
     SubscriptionPlan :=
       match github.Plan user with
       | Some name => name
       | None => ""
       end;
     UserInfo_UpdatedAt :=
       match github.User_UpdatedAt user with
       | Some t => t
       | None => zeroTime
       end |}.

Definition GetUser (username : string) : M World (result UserInfo) :=
  r <- call (Users_Get username) ;;
  match r with
  | Err err => ret (Err (Errorf ("failed to get user " ++ username) err))
  | Ok user => ret (Ok (toUserInfo user))
  end.

(** The paging loop of [ListRepositories]; one unit of fuel per page
    request. *)
Fixpoint listPages (fuel : nat) (username : string) (page : Z)
         (allRepos : list github.Repository)
  : M World (result (list github.Repository)) :=
  match fuel with
  | O => fun _ => OutOfFuel
  | S fuel' =>
      r <- call (Repositories_List username page) ;;
      match r with
      | Err err => ret (Err (Errorf "failed to list repositories" err))
      | Ok (repos, nextPage) =>
          let allRepos := (allRepos ++ repos)%list in
          if nextPage =? 0 then ret (Ok allRepos)
          else listPages fuel' username nextPage allRepos
      end
  end.

Definition toRepository (repo : github.Repository) : Repository :=
  {| Name := github.Name repo;
     Description := github.Description repo;
     CreatedAt :=
       match github.CreatedAt repo with
       | Some t => t
       | None => zeroTime
       end;
     UpdatedAt :=
       match github.UpdatedAt repo with
       | Some t => t
       | None => zeroTime
       end;
     Stars := github.StargazersCount repo;
     Fork := github.Fork repo;
     ForkSource :=
       match github.Fork repo, github.Parent repo with
       | true, Some fullName => fullName
       | _, _ => ""
       end;
     UserCommits := 0;
     LanguagesUsed := [];
     FileCount := 0;
     CommitCount := 0;
     IncludeAnalysis := false;
     IsSignificant := false |}.

(** [ListRepositories] returns pointers to freshly allocated records;
    here it returns the records, in order, and the caller's store
    gives each its address. *)
Definition ListRepositories (fuel : nat) (username : string)
  : M World (result (list Repository)) :=
  r <- listPages fuel username 0 [] ;;
  match r with
  | Err err => ret (Err err)
  | Ok allRepos => ret (Ok (map toRepository allRepos))
  end.

Definition GetRepositoryLanguages (username repoName : string)
  : M World (result (list string)) :=
  r <- call (Repositories_ListLanguages username repoName) ;;
  match r with
  | Err err =>
      ret (Err (Errorf ("failed to get languages for " ++ username ++ "/" ++ repoName) err))
  | Ok languages =>
      let langs := range_keys languages in
      let bytes lang := default 0 (languages !! lang) in
      ret (Ok (sort_Slice (fun a b => bytes b <? bytes a) langs))
  end.

(** The body of the loop over the listed commits. *)
Definition commitDetail (username repoName : string)
           (commitDetails : list CommitDetail) (commit : github.RepositoryCommit)
  : M World (list CommitDetail) :=
  r <- call (Repositories_GetCommit username repoName (github.SHA commit)) ;;
  let detail :=
    {| CommitDetail_Repo := repoName;
       SHA := github.SHA commit;
       Message := github.Message commit;
       Date :=
         match github.AuthorDate commit with
         | Some t => t
         | None => zeroTime
         end;
       Author := github.AuthorName commit;
       FilesChanged :=
         match r with
         | Ok files => files
         | Err _ => []
         end |} in
  ret (commitDetails ++ [detail])%list.

Definition GetRepositoryCommits (username repoName : string) (count : Z)
  : M World (result (list CommitDetail)) :=
  r <- call (Repositories_ListCommits username repoName username count) ;;
  match r with
  | Err err =>
      ret (Err (Errorf ("failed to get commits for " ++ username ++ "/" ++ repoName) err))
  | Ok commits =>
      commitDetails <- forRange (commitDetail username repoName) commits [] ;;
      ret (Ok commitDetails)
  end.

(** The loop of [rand.Shuffle], [for i := n - 1; i > 0; i--], with
    the caller's swap on [codeFiles] as its body. *)
Fixpoint Shuffle_from {A : Type} (i : nat) (xs : list A) (g : Rng)
  : option (list A * Rng) :=
  match i with
  | O => Some (xs, g)
  | S i' =>
      let (j, g') := rand_Intn (Z.of_nat i + 1) g in
      match swap xs (Z.of_nat i) j with
      | Some xs' => Shuffle_from i' xs' g'
      | None => None
      end
  end.

Definition Shuffle {A : Type} (xs : list A) (g : Rng) : option (list A * Rng) :=
  Shuffle_from (length xs - 1) xs g.

(** "Sample files if there are too many": seed the global generator,
    shuffle, and keep the first [SampleFileCount] files. *)
Definition sampleCodeFiles (codeFiles : list github.TreeEntry)
  : M World (list github.TreeEntry) :=
  fun w =>
    if SampleFileCount config <? Z.of_nat (length codeFiles) then
      match Shuffle codeFiles (rand_Seed (RandomSeed config)) with
      | Some (shuffled, g') =>
          match slicePrefix shuffled (SampleFileCount config) with
          | Some sampled => Done sampled {| remote := remote w; rng := g' |}
          | None => Panic
          end
      | None => Panic
      end
    else Done codeFiles w.

(** [analyzeFile]; [None] is the [nil] it returns for a file it
    gives up on.  A reply without a file makes the read of
    [content.Content] panic. *)
Definition analyzeFile (username repoName : string) (file : github.TreeEntry)
  : M World (option FileAnalysis) :=
  r <- call (Repositories_GetContents username repoName (github.Path file)) ;;
  match r with
  | Err _ => ret None
  | Ok None => panic
  | Ok (Some content) =>
      match github.Content content with
      | None => ret None
      | Some encoded =>
          match base64_DecodeString encoded with
          | Err _ => ret None
          | Ok decoded =>
              let fileContent := decoded in
              let lines := Split fileContent LF in
              ret (Some {| Repo := repoName;
                           Path := github.Path file;
                           Language := detectLanguage (github.Path file);
                           Size := len decoded;
                           Lines := Z.of_nat (length lines);
                           HasTests := hasTestIndicators fileContent;
                           Content := fileContent |})
          end
      end
  end.

Definition isCodeBlob (entry : github.TreeEntry) : bool :=
  String.eqb (github.Type_ entry) "blob" && isCodeFile (github.Path entry).

(** The body of the loop over the sampled files. *)
Definition analyzeInto (username repoName : string)
           (fileAnalyses : list FileAnalysis) (file : github.TreeEntry)
  : M World (list FileAnalysis) :=
  analysis <- analyzeFile username repoName file ;;
  match analysis with
  | Some a => ret (fileAnalyses ++ [a])%list
  | None => ret fileAnalyses
  end.

Definition GetRepositoryContents (username repoName : string)
  : M World (result (list FileAnalysis)) :=
  r <- call (Git_GetTree username repoName "HEAD" true) ;;
  match r with
  | Err err => ret (Err (Errorf "failed to get repository tree" err))
  | Ok entries =>
      let codeFiles := List.filter isCodeBlob entries in
      codeFiles <- sampleCodeFiles codeFiles ;;
      fileAnalyses <- forRange (analyzeInto username repoName) codeFiles [] ;;
      ret (Ok fileAnalyses)
  end.

(** *** [PerformFullAudit]

    The records [ListRepositories] allocated live in a store, a list
    of records; a [*dto.Repository] is a position in it, and the
    slice [repositories] is [0, 1, ..., n-1]. *)

Definition deref (store : list Repository) (p : nat) : Repository :=
  default zeroRepository (store !! p).

(** The three slices filled by the first loop. *)
Record partition : Type := {
  analysisRepos : list nat;
  originalRepos : list nat;
  forkedRepos : list nat
}.

Definition classify (store : list Repository) (cutoffDate : Time)
           (acc : partition) (p : nat) : partition :=
  let repo := deref store p in
  let acc1 :=
    if Fork repo then
      {| analysisRepos := analysisRepos acc;
         originalRepos := originalRepos acc;
         forkedRepos := (forkedRepos acc ++ [p])%list |}
    else
      {| analysisRepos := analysisRepos acc;
         originalRepos := (originalRepos acc ++ [p])%list;
         forkedRepos := forkedRepos acc |} in
  if After (UpdatedAt repo) cutoffDate then
    {| analysisRepos := (analysisRepos acc1 ++ [p])%list;
       originalRepos := originalRepos acc1;
       forkedRepos := forkedRepos acc1 |}
  else acc1.

Definition partitionRepos (store : list Repository) (cutoffDate : Time)
           (repositories : list nat) : partition :=
  fold_left (classify store cutoffDate) repositories
            {| analysisRepos := []; originalRepos := []; forkedRepos := [] |}.

(** The comparison handed to [sort.Slice]. *)
Definition moreRecent (store : list Repository) (p q : nat) : bool :=
  After (UpdatedAt (deref store p)) (UpdatedAt (deref store q)).

(** "Sample repositories for detailed analysis - select N most
    recently updated". *)
Definition selectRecent (store : list Repository) (analysisRepos : list nat)
  : option (list nat) :=
  if SampledRepoCount config <? Z.of_nat (length analysisRepos) then
    slicePrefix (sort_Slice (moreRecent store) analysisRepos)
                (SampledRepoCount config)
  else Some analysisRepos.

(** The variables the analysis loop updates. *)
Record auditState : Type := {
  store : list Repository;
  allCommits : list CommitDetail;
  allFileAnalyses : list FileAnalysis;
  analyzedRepos : list string;
  reposWithErrors : list string
}.

Definition initialState (records : list Repository) : auditState :=
  {| store := records; allCommits := []; allFileAnalyses := [];
     analyzedRepos := []; reposWithErrors := [] |}.

(** The body of the analysis loop, for the repository at [p]. *)
Definition auditRepo (username : string) (st : auditState) (p : nat)
  : M World auditState :=
  let name := Name (deref (store st) p) in
  languages <- GetRepositoryLanguages username name ;;
  let store1 :=
    match languages with
    | Ok ls => alter (set_LanguagesUsed ls) p (store st)
    | Err _ => store st
    end in
  commits <- GetRepositoryCommits username name (CommitsPerRepo config) ;;
  match commits with
  | Err _ =>
      ret {| store := store1;
             allCommits := allCommits st;
             allFileAnalyses := allFileAnalyses st;
             analyzedRepos := analyzedRepos st;
             reposWithErrors := (reposWithErrors st ++ [name])%list |}
  | Ok commits =>
      if Z.of_nat (length commits) =? 0 then
        ret {| store := store1;
               allCommits := allCommits st;
               allFileAnalyses := allFileAnalyses st;
               analyzedRepos := analyzedRepos st;
               reposWithErrors := reposWithErrors st |}
      else
        let allCommits1 := (allCommits st ++ commits)%list in
        let store2 := alter (set_CommitCount (Z.of_nat (length commits))) p store1 in
        files <- GetRepositoryContents username name ;;
        match files with
        | Err _ =>
            ret {| store := store2;
                   allCommits := allCommits1;
                   allFileAnalyses := allFileAnalyses st;
                   analyzedRepos := analyzedRepos st;
                   reposWithErrors := (reposWithErrors st ++ [name])%list |}
        | Ok fileAnalyses =>
            let store3 :=
              alter (set_FileCount (Z.of_nat (length fileAnalyses))) p store2 in
            ret {| store := alter (set_IncludeAnalysis true) p store3;
                   allCommits := allCommits1;
                   allFileAnalyses := (allFileAnalyses st ++ fileAnalyses)%list;
                   analyzedRepos := (analyzedRepos st ++ [name])%list;
                   reposWithErrors := reposWithErrors st |}
        end
  end.

(** The variables of the statistics loop.  [significantForks] counts
    repositories and cannot leave the range of [int]. *)
Record tally : Type := {
  tally_store : list Repository;
  totalStars : Z;
  significantForks : Z
}.

Definition countRepo (acc : tally) (p : nat) : tally :=
  let repo := deref (tally_store acc) p in
  let totalStars := wrap64 (totalStars acc + Stars repo) in
  if Fork repo && (10 <? UserCommits repo) then
    {| tally_store := alter (set_IsSignificant true) p (tally_store acc);
       totalStars := totalStars;
       significantForks := significantForks acc + 1 |}
  else
    {| tally_store := tally_store acc;
       totalStars := totalStars;
       significantForks := significantForks acc |}.

Definition getSanitizedConfig : GitHubConfig :=
  {| Token := "[REDACTED]";
     SampledRepoCount := SampledRepoCount config;
     CommitsPerRepo := CommitsPerRepo config;
     SampleFileCount := SampleFileCount config;
     AnalysisYears := AnalysisYears config;
     IncludePrivateRepo := IncludePrivateRepo config;
     RandomSeed := RandomSeed config;
     SaveDebugJSON := SaveDebugJSON config |}.

(** "Build result" *)
Definition buildResult (userInfo : UserInfo) (repositories : list nat)
           (parts : partition) (selected : list nat) (st : auditState)
           (totals : tally) : AuditResult :=
  {| AuditResult_UserInfo := userInfo;
     AuditResult_RepoStats :=
       {| Statistics :=
            {| TotalRepos := Z.of_nat (length repositories);
               OriginalRepos := Z.of_nat (length (originalRepos parts));
               ForkedRepos := Z.of_nat (length (forkedRepos parts));
               SignificantForks := significantForks totals;
               TotalStars := totalStars totals;
               AnalysisRepos := Z.of_nat (length selected) |};
          RepoStats_OriginalRepos :=
            map (deref (tally_store totals)) (originalRepos parts);
          RepoStats_ForkedRepos :=
            map (deref (tally_store totals)) (forkedRepos parts) |};
     AuditResult_FileAnalysis := allFileAnalyses st;
     CommitDetails := allCommits st;
     AuditParameters := getSanitizedConfig;
     AuditResult_AnalysisSummary :=
       {| ReposAnalyzedForCode := analyzedRepos st;
          ReposWithErrors := reposWithErrors st;
          ReposWithoutUserCommits := [];
          TotalReposAttempted := Z.of_nat (length selected);
          SuccessfulAnalysisCount := Z.of_nat (length (analyzedRepos st)) |} |}.

(** Everything after the two fatal fetches. *)
Definition auditRepositories (username : string) (userInfo : UserInfo)
           (records : list Repository) : M World AuditResult :=
  now <- Now ;;
  let cutoffDate := time_AddDate now (wrap64 (- AnalysisYears config)) 0 0 in
  let repositories := seq 0 (length records) in
  let parts := partitionRepos records cutoffDate repositories in
  selected <- fromOption (selectRecent records (analysisRepos parts)) ;;
  st <- forRange (auditRepo username) selected (initialState records) ;;
  let totals :=
    fold_left countRepo repositories
              {| tally_store := store st; totalStars := 0; significantForks := 0 |} in
  ret (buildResult userInfo repositories parts selected st totals).

Definition PerformFullAudit (fuel : nat) (username : string)
  : M World (result AuditResult) :=
  r <- GetUser username ;;
  match r with
  | Err err => ret (Err (Errorf "failed to get user info" err))
  | Ok userInfo =>
      r <- ListRepositories fuel username ;;
      match r with
      | Err err => ret (Err (Errorf "failed to get repositories" err))
      | Ok records =>
          result <- auditRepositories username userInfo records ;;
          ret (Ok result)
      end
  end.

End Service.

(** ** What the platform is trusted to do

    [sort.Slice] rearranges the slice and, when the comparison is a
    strict weak ordering, leaves it sorted; a draw from [0, n) lies in
    that range. *)
Definition strictWeakOrder {A : Type} (less : A -> A -> bool) : Prop :=
  (forall a b, less a b = true -> less b a = false) /\
  (forall a b c, less a b = false -> less b c = false -> less a c = false).

Class LawfulPlatform `{Platform} : Prop := {
  sort_Slice_perm :
    forall (A : Type) (less : A -> A -> bool) (l : list A),
      Permutation (sort_Slice less l) l;
  sort_Slice_sorted :
    forall (A : Type) (less : A -> A -> bool) (l : list A),
      strictWeakOrder less ->
      StronglySorted (fun a b => less b a = false) (sort_Slice less l);
  rand_Intn_range :
    forall (n : Z) (g : Rng), 0 < n -> 0 <= fst (rand_Intn n g) < n
}.

(** The value a run returns, if it returns. *)
Definition value {S A : Type} (e : exec S A) : option A :=
  match e with
  | Done a _ => Some a
  | _ => None
  end.

(** A configuration that differs in its seed only. *)
Definition withRandomSeed (seed : Z) (config : GitHubConfig) : GitHubConfig :=
  {| Token := Token config;
     SampledRepoCount := SampledRepoCount config;
     CommitsPerRepo := CommitsPerRepo config;
     SampleFileCount := SampleFileCount config;
     AnalysisYears := AnalysisYears config;
     IncludePrivateRepo := IncludePrivateRepo config;
     RandomSeed := seed;
     SaveDebugJSON := SaveDebugJSON config |}.

Section Iterations.

Context `{Platform} {R : Type} `{Environment R}.
Variable config : GitHubConfig.
Abbreviation World := (World R Rng).

(** The cut-off date computed in world [w]. *)
Definition cutoffAt (w : World) : Time :=
  time_AddDate (time_Now (remote w)) (wrap64 (- AnalysisYears config)) 0 0.

(** The repositories the audit of [username], started in [w], selects
    for analysis are [pre ++ p :: post], and the analysis loop is
    about to process [p], with its variables at [st], in world [w1]. *)
Definition reaches (fuel : nat) (username : string) (w : World)
           (records : list Repository) (pre : list nat) (p : nat)
           (post : list nat) (st : auditState) (w1 : World) : Prop :=
  exists userInfo wa wb,
    GetUser username w = Done (Ok userInfo) wa /\
    ListRepositories fuel username wa = Done (Ok records) wb /\
    selectRecent config records
      (analysisRepos
         (partitionRepos records (cutoffAt wb) (seq 0 (length records))))
    = Some (pre ++ p :: post)%list /\
    forRange (auditRepo config username) pre (initialState records) wb
    = Done st w1.

(** In world [w1] the language fetch for [name] is followed by a
    commit fetch that answers [commits] and leaves world [w3]. *)
Definition commitFetch (username name : string) (w1 : World)
           (commits : result (list CommitDetail)) (w3 : World) : Prop :=
  exists langs w2,
    GetRepositoryLanguages username name w1 = Done langs w2 /\
    GetRepositoryCommits username name (CommitsPerRepo config) w2
    = Done commits w3.

End Iterations.

(** ** A reference platform and scripted environments

    One platform and a family of environments on which the service can
    be run.  The reference platform handles ASCII text only, has a
    calendar of 365-day years and 30-day months, visits a map in key
    order of its listing, sorts by insertion and draws from a linear
    congruential generator. *)

Definition b64value (c : ascii) : option N :=
  let n := N_of_ascii c in
  if ((65 <=? n) && (n <=? 90))%N then Some (n - 65)%N
  else if ((97 <=? n) && (n <=? 122))%N then Some (n - 71)%N
  else if ((48 <=? n) && (n <=? 57))%N then Some (n + 4)%N
  else if (n =? 43)%N then Some 62%N
  else if (n =? 47)%N then Some 63%N
  else None.

Definition isPad (c : ascii) : bool := Ascii.eqb c "=".

Fixpoint b64quads (l : list ascii) : option (list ascii) :=
  match l with
  | [] => Some []
  | a :: b :: c :: d :: rest =>
      match b64value a, b64value b with
      | Some x, Some y =>
          let b1 := ascii_of_N (x * 4 + y / 16) in
          if isPad c then
            match isPad d, rest with
            | true, [] => Some [b1]
            | _, _ => None
            end
          else
            match b64value c with
            | Some z =>
                let b2 := ascii_of_N ((y mod 16) * 16 + z / 4) in
                if isPad d then
                  match rest with
                  | [] => Some [b1; b2]
                  | _ => None
                  end
                else
                  match b64value d, b64quads rest with
                  | Some t, Some bytes =>
                      Some (b1 :: b2 :: ascii_of_N ((z mod 4) * 64 + t) :: bytes)
                  | _, _ => None
                  end
            | None => None
            end
      | _, _ => None
      end
  | _ => None
  end.

Definition isNewline (c : ascii) : bool :=
  (N_of_ascii c =? 10)%N || (N_of_ascii c =? 13)%N.

(** Standard base64 with padding; line breaks are skipped. *)
Definition b64decode (s : string) : result string :=
  match b64quads (List.filter (fun c => negb (isNewline c)) (list_ascii_of_string s)) with
  | Some bytes => Ok (string_of_list_ascii bytes)
  | None => Err (ApiError "illegal base64 data")
  end.

Fixpoint insertBy {A : Type} (less : A -> A -> bool) (x : A) (l : list A) : list A :=
  match l with
  | [] => [x]
  | y :: l' => if less x y then x :: l else y :: insertBy less x l'
  end.

Definition insertionSort {A : Type} (less : A -> A -> bool) (l : list A) : list A :=
  fold_right (insertBy less) [] l.

Definition nanosPerDay : Z := 86400 * 1000000000.

Definition lcgNext (g : Z) : Z := (g * 1103515245 + 12345) mod 2 ^ 31.

#[export] Instance refPlatform : Platform := {|
  unicode_ToLower := fun s => s;
  unicode_TrimSpace := fun s => s;
  base64_DecodeString := b64decode;
  time_AddDate := fun t years months days =>
    t + (years * 365 + months * 30 + days) * nanosPerDay;
  range_keys := fun m => map fst (map_to_list m);
  sort_Slice := @insertionSort;
  Rng := Z;
  rand_Seed := fun seed => seed mod 2 ^ 31;
  rand_Intn := fun n g => (lcgNext g mod n, lcgNext g)
|}.

(** A scripted environment.  Its state is the number of requests made
    so far, and the answers to the commit and tree requests may depend
    on it. *)
Record Scenario : Type := {
  sc_now : Time;
  sc_user : result github.User;
  sc_page : Z -> result (list github.Repository * Z);
  sc_languages : string -> result (gmap string Z);
  sc_commits : nat -> string -> result (list github.RepositoryCommit);
  sc_commitFiles : string -> result (list string);
  sc_tree : nat -> string -> result (list github.TreeEntry);
  sc_contents : string -> string -> result (option github.RepositoryContent)
}.

Definition scripted (sc : Scenario) : Environment nat := {|
  time_Now := fun _ => sc_now sc;
  Users_Get := fun _ n => (sc_user sc, S n);
  Repositories_List := fun _ page n => (sc_page sc page, S n);
  Repositories_ListLanguages := fun _ repo n => (sc_languages sc repo, S n);
  Repositories_ListCommits := fun _ repo _ _ n => (sc_commits sc n repo, S n);
  Repositories_GetCommit := fun _ _ sha n => (sc_commitFiles sc sha, S n);
  Git_GetTree := fun _ repo _ _ n => (sc_tree sc n repo, S n);
  Repositories_GetContents := fun _ repo path n => (sc_contents sc repo path, S n)
|}.

(** *** Scripts *)

Definition demoConfig : GitHubConfig :=
  {| Token := "";
     SampledRepoCount := 10;
     CommitsPerRepo := 50;
     SampleFileCount := 3;
     AnalysisYears := 5;
     IncludePrivateRepo := false;
     RandomSeed := 42;
     SaveDebugJSON := false |}.

Definition demoNow : Time := 2025 * 365 * nanosPerDay.

Definition daysAgo (d : Z) : Time := demoNow - d * nanosPerDay.

Definition demoUser : github.User :=
  {| github.Login := "octo";
     github.User_Name := "Octo Cat";
     github.Company := "";
     github.Location := "";
     github.Email := "";
     github.PublicRepos := 5;
     github.PublicGists := 0;
     github.Followers := 1;
     github.Following := 0;
     github.User_CreatedAt := Some (daysAgo 4000);
     github.User_UpdatedAt := Some (daysAgo 1);
     github.Plan := None |}.

Definition demoRepo (name : string) (updated : Time) (fork : bool) : github.Repository :=
  {| github.Name := name;
     github.Description := "";
     github.StargazersCount := 1;
     github.Fork := fork;
     github.CreatedAt := Some (daysAgo 5000);
     github.UpdatedAt := Some updated;
     github.Parent := if fork then Some ("upstream/" ++ name) else None |}.

Definition demoCommit (sha : string) : github.RepositoryCommit :=
  {| github.SHA := sha;
     github.Message := "update";
     github.AuthorName := "Octo Cat";
     github.AuthorDate := Some (daysAgo 3) |}.

Definition blob (path : string) : github.TreeEntry :=
  {| github.Type_ := "blob"; github.Path := path |}.

Definition fileWith (encoded : string) : result (option github.RepositoryContent) :=
  Ok (Some {| github.Content := Some encoded |}).

(** "package main" followed by a line feed, in base64. *)
Definition encodedMain : string := "cGFja2FnZSBtYWluCg==".

(** One recently updated repository in which the user has no commit. *)
Definition quietScript : Scenario :=
  {| sc_now := demoNow;
     sc_user := Ok demoUser;
     sc_page := fun _ => Ok ([demoRepo "empty" (daysAgo 2) false], 0);
     sc_languages := fun _ => Ok ∅;
     sc_commits := fun _ _ => Ok [];
     sc_commitFiles := fun _ => Ok [];
     sc_tree := fun _ _ => Ok [];
     sc_contents := fun _ _ => Err (ApiError "404 Not Found") |}.

(** Five repositories: the commit fetch fails for [api], the tree
    fetch fails for [web], [lib] is analysed although one of its two
    code files cannot be fetched, the user has no commit in [empty],
    and [old] was last updated ten years ago. *)
Definition mixedScript : Scenario :=
  {| sc_now := demoNow;
     sc_user := Ok demoUser;
     sc_page := fun _ =>
       Ok ([ demoRepo "api" (daysAgo 2) false;
             demoRepo "web" (daysAgo 3) true;
             demoRepo "lib" (daysAgo 4) false;
             demoRepo "empty" (daysAgo 5) false;
             demoRepo "old" (daysAgo 3650) true ], 0);
     sc_languages := fun _ => Ok {[ "Go" := 1200; "Python" := 300 ]};
     sc_commits := fun _ repo =>
       if String.eqb repo "api" then Err (ApiError "409 Git Repository is empty")
       else if String.eqb repo "empty" then Ok []
       else Ok [demoCommit (repo ++ "-1"); demoCommit (repo ++ "-2")];
     sc_commitFiles := fun _ => Ok ["main.go"];
     sc_tree := fun _ repo =>
       if String.eqb repo "web" then Err (ApiError "404 Not Found")
       else Ok [blob "main.go"; blob "README.md"; blob "tool.py"];
     sc_contents := fun _ path =>
       if String.eqb path "main.go" then fileWith encodedMain
       else Err (ApiError "403 rate limit exceeded") |}.

(** Two repositories of one name, the user's own and one the user is a
    member of; the first tree request is refused, later ones are
    answered. *)
Definition twinScript : Scenario :=
  {| sc_now := demoNow;
     sc_user := Ok demoUser;
     sc_page := fun _ =>
       Ok ([ demoRepo "dotfiles" (daysAgo 2) false;
             demoRepo "dotfiles" (daysAgo 3) false ], 0);
     sc_languages := fun _ => Ok ∅;
     sc_commits := fun _ repo => Ok [demoCommit (repo ++ "-1")];
     sc_commitFiles := fun _ => Ok ["main.go"];
     sc_tree := fun n _ =>
       if (n <? 6)%nat then Err (ApiError "502 Bad Gateway")
       else Ok [blob "main.go"];
     sc_contents := fun _ _ => fileWith encodedMain |}.

(** Five records in listing order, none of them in update order. *)
Definition fiveRecords : list Repository :=
  map (fun '(name, days, stars) =>
         {| Name := name; Description := ""; CreatedAt := daysAgo 900;
            UpdatedAt := daysAgo days; Stars := stars; Fork := false;
            ForkSource := ""; UserCommits := 0; LanguagesUsed := [];
            FileCount := 0; CommitCount := 0; IncludeAnalysis := false;
            IsSignificant := false |})
      [ ("zeta", 40, 900); ("alpha", 7, 0); ("mu", 300, 12);
        ("beta", 2, 1); ("omega", 90, 45) ].

Definition withSampledRepoCount (count : Z) (config : GitHubConfig) : GitHubConfig :=
  {| Token := Token config;
     SampledRepoCount := count;
     CommitsPerRepo := CommitsPerRepo config;
     SampleFileCount := SampleFileCount config;
     AnalysisYears := AnalysisYears config;
     IncludePrivateRepo := IncludePrivateRepo config;
     RandomSeed := RandomSeed config;
     SaveDebugJSON := SaveDebugJSON config |}.

Definition fiveFiles : list github.TreeEntry :=
  [ blob "a.go"; blob "b.py"; blob "c.rs"; blob "d.c"; blob "e.rb" ].

(** The world an audit on a scripted environment starts in. *)
Definition startWorld : World nat Z :=
  {| remote := 0%nat; rng := 0 |}.

(** The audit of user [octo] on a script. *)
Definition runAudit (sc : Scenario) (config : GitHubConfig)
  : exec (World nat Z) (result AuditResult) :=
  @PerformFullAudit refPlatform nat (scripted sc) config 10 "octo" startWorld.

(** ** How the store may change during the analysis loop

    The loop assigns the language list, the two counts and the
    analysis flag of a record, and nothing else. *)
Definition evolves (r r' : Repository) : Prop :=
  Name r' = Name r /\
  UserCommits r' = UserCommits r /\
  Fork r' = Fork r /\
  Stars r' = Stars r /\
  UpdatedAt r' = UpdatedAt r /\
  IsSignificant r' = IsSignificant r /\
  (IncludeAnalysis r = true -> IncludeAnalysis r' = true).

Definition storeEvolves (s s' : list Repository) : Prop :=
  length s' = length s /\
  forall q, evolves (deref s q) (deref s' q).

(** The store after the language fetch. *)
Definition withLanguages (languages : result (list string)) (p : nat)
           (s : list Repository) : list Repository :=
  match languages with
  | Ok ls => alter (set_LanguagesUsed ls) p s
  | Err _ => s
  end.

(** The environment answers a content request for a file of the tree
    with a file or with an error. *)
Definition answersFiles {R : Type} `{Environment R} : Prop :=
  forall (owner repo path : string) (r : R),
    fst (Repositories_GetContents owner repo path r) <> Ok None.

(** A reply to a content request from which [analyzeFile] builds no
    analysis: an error, a file without content, or content that is not
    base64. *)
Definition fileFails `{Platform} (reply : result (option github.RepositoryContent)) : Prop :=
  match reply with
  | Err _ => True
  | Ok None => False
  | Ok (Some content) =>
      match github.Content content with
      | None => True
      | Some encoded => exists e, base64_DecodeString encoded = Err e
      end
  end.

(** Two runs end the same way, return the same value and leave the
    world outside the process in the same state; the generator may be
    left in different states. *)
Definition sameOutcome {R G A : Type} (e1 e2 : exec (World R G) A) : Prop :=
  match e1, e2 with
  | Done a w1, Done b w2 => a = b /\ remote w1 = remote w2
  | Panic, Panic => True
  | OutOfFuel, OutOfFuel => True
  | _, _ => False
  end.

(** ** Where the entries of a result come from *)

(** Every analysis collected so far names a repository recorded as
    analysed, every commit one recorded as analysed or in error, and a
    record marked for inclusion has its name among the analysed. *)
Definition attributed (st : auditState) : Prop :=
  Forall (fun a => In (Repo a) (analyzedRepos st)) (allFileAnalyses st) /\
  Forall (fun c => In (CommitDetail_Repo c) (analyzedRepos st ++ reposWithErrors st))
         (allCommits st) /\
  forall q,
    IncludeAnalysis (deref (store st) q) = true ->
    In (Name (deref (store st) q)) (analyzedRepos st).

(** The stars of a list of records, added up without wrap-around. *)
Definition sumStars (l : list Repository) : Z :=
  foldr (fun repo acc => Stars repo + acc) 0 l.

(** The counters of a record agree with its analysis flag: a marked
    record has commits, and a record with files is marked. *)
Definition consistent (repo : Repository) : Prop :=
  0 <= CommitCount repo /\
  0 <= FileCount repo /\
  (IncludeAnalysis repo = true -> 0 < CommitCount repo) /\
  (FileCount repo <> 0 -> IncludeAnalysis repo = true).

(** Every name recorded as analysed is the name of a record of the
    store that is marked for inclusion. *)
Definition marked (st : auditState) : Prop :=
  forall n,
    In n (analyzedRepos st) ->
    exists q,
      (q < length (store st))%nat /\
      Name (deref (store st) q) = n /\
      IncludeAnalysis (deref (store st) q) = true.

Section Accounting.

Context `{Platform} {R : Type} `{Environment R}.
Variable config : GitHubConfig.
Abbreviation World := (World R Rng).

(** The turn of [p], started in [w] with the loop's variables at [st],
    takes the [continue] for a repository without commits: its commit
    fetch returns an empty list. *)
Definition quietTurn (username : string) (st : auditState) (p : nat) (w : World) : bool :=
  let name := Name (deref (store st) p) in
  match GetRepositoryLanguages username name w with
  | Done _ w2 =>
      match GetRepositoryCommits username name (CommitsPerRepo config) w2 with
      | Done (Ok commits) _ => Z.of_nat (length commits) =? 0
      | _ => false
      end
  | _ => false
  end.

(** The number of such turns in a run of the analysis loop over [l]. *)
Fixpoint quietTurns (username : string) (l : list nat) (st : auditState) (w : World)
  : nat :=
  match l with
  | [] => 0
  | p :: l' =>
      match auditRepo config username st p w with
      | Done st1 w1 =>
          ((if quietTurn username st p w then 1 else 0)
           + quietTurns username l' st1 w1)%nat
      | _ => 0%nat
      end
  end.

End Accounting.

(** ** Bytes of a path *)

(** The byte [b] occurs in [s]. *)
Fixpoint hasByte (b : ascii) (s : string) : bool :=
  match s with
  | EmptyString => false
  | String c rest => Ascii.eqb c b || hasByte b rest
  end.

(** ** More scripts *)

(** An account whose listing never ends: every page names a next
    one. *)
Definition endlessScript : Scenario :=
  {| sc_now := demoNow;
     sc_user := Ok demoUser;
     sc_page := fun page => Ok ([demoRepo "more" (daysAgo 1) false], 2);
     sc_languages := fun _ => Ok ∅;
     sc_commits := fun _ _ => Ok [];
     sc_commitFiles := fun _ => Ok [];
     sc_tree := fun _ _ => Ok [];
     sc_contents := fun _ _ => Err (ApiError "404 Not Found") |}.

Definition withSampleFileCount (count : Z) (config : GitHubConfig) : GitHubConfig :=
  {| Token := Token config;
     SampledRepoCount := SampledRepoCount config;
     CommitsPerRepo := CommitsPerRepo config;
     SampleFileCount := count;
     AnalysisYears := AnalysisYears config;
     IncludePrivateRepo := IncludePrivateRepo config;
     RandomSeed := RandomSeed config;
     SaveDebugJSON := SaveDebugJSON config |}.

(** ** What an analysis says about its file *)

(** The analysis is of a path [isCodeFile] accepts, and its language,
    size, line count and test flag are those of the path and the
    content it carries. *)
Definition describesItsFile `{Platform} (a : FileAnalysis) : Prop :=
  isCodeFile (Path a) = true /\
  Language a = detectLanguage (Path a) /\
  Size a = len (Content a) /\
  Lines a = 1 + Count (Content a) LF /\
  HasTests a = hasTestIndicators (Content a).

Create HintDb store.

(** * Properties *)

(** ** The classifier and the scorers *)

Lemma Split_from_nonempty (sep s : string) (skip : nat) (cur : string) :
  Split_from sep s skip cur <> [].
Proof.
  revert skip cur.
  induction s as [|c rest IH]; intros skip cur; cbn [Split_from]; [discriminate|].
  destruct skip as [|k]; [|apply IH].
  destruct (HasPrefix (String c rest) sep); [discriminate|apply IH].
Qed.

Lemma Split_length_pos (s sep : string) :
  (Z.of_nat (length (Split s sep)) =? 0) = false.
Proof.
  unfold Split.
  pose proof (Split_from_nonempty sep s 0 "") as Hne.
  destruct (Split_from sep s 0 "") as [|x l]; [congruence|].
  apply Z.eqb_neq. simpl length. lia.
Qed.

(** Cases of the repository's tests [TestIsCodeFile],
    [TestDetectLanguage], [TestHasTestIndicators],
    [TestAssessCodeQuality] and [TestAssessComplexity]. *)

Example isCodeFile_cases `{Platform} :
  map isCodeFile
      [ "main.go"; "utils.cc"; "main.cxx"; "README.md"; "LICENSE"; ".gitignore";
        "component.tsx"; ""; ".hidden_file"; "path/to/main.go" ]
  = [ true; true; true; false; false; false; false; false; false; true ].
Proof. vm_compute. reflexivity. Qed.

Example detectLanguage_cases `{Platform} :
  map detectLanguage
      [ "main.go"; "utils.cpp"; "header.h"; "app.cs"; "main.m";
        "component.tsx"; "Dockerfile"; "" ]
  = [ "Go"; "C++"; "C/C++ Header"; "C#"; "Objective-C";
      "Unknown"; "Unknown"; "Unknown" ].
Proof. vm_compute. reflexivity. Qed.

Example hasTestIndicators_cases `{Platform} :
  map hasTestIndicators
      [ "func TestSomething(t *testing.T) {}"; "package main"; "" ]
  = [ true; false; false ].
Proof. vm_compute. reflexivity. Qed.

Example assessCodeQuality_low `{Platform} :
  assessCodeQuality
    ("func f(x,y int)int{return x+y}" ++ LF ++ "func g(){}" ++ LF ++ "func h(){}")
  = "Needs Improvement".
Proof. vm_compute. reflexivity. Qed.

Example assessCodeQuality_fair `{Platform} :
  assessCodeQuality
    ("func calculate(a, b int) int {" ++ LF ++ "    return a + b" ++ LF ++ "}" ++ LF
     ++ LF ++ "// some processing" ++ LF ++ "func process() {" ++ LF
     ++ "    doSomething()" ++ LF ++ "}")
  = "Fair".
Proof. vm_compute. reflexivity. Qed.

Example assessComplexity_low `{Platform} :
  assessComplexity
    ("function add(a, b) {" ++ LF ++ "    return a + b;" ++ LF ++ "}" ++ LF ++ LF
     ++ "function greet(name) {" ++ LF ++ "    return 'Hello ' + name;" ++ LF ++ "}")
  = "Low".
Proof. vm_compute. reflexivity. Qed.

(** C2.  [isCodeFile] accepts the extensions [.cc] and [.cxx], which the
    table of [detectLanguage] lacks: [main.cc] and [main.cxx] are code
    files whose language is ["Unknown"], whatever the platform. *)
Theorem cc_and_cxx_have_no_language `{Platform} :
  isCodeFile "main.cc" = true /\ detectLanguage "main.cc" = "Unknown" /\
  isCodeFile "main.cxx" = true /\ detectLanguage "main.cxx" = "Unknown".
Proof. vm_compute. repeat split; reflexivity. Qed.

(** C3.  On the empty string [strings.Split] returns one empty line, so
    the line count is 1 and the guards [totalLines == 0] and
    [lines == 0] are not taken: [assessCodeQuality] answers
    ["Needs Improvement"] and [assessComplexity] answers ["Low"].  No
    content at all makes either scorer answer ["Unknown"]. *)
Theorem empty_content_is_scored `{Platform} :
  assessCodeQuality "" = "Needs Improvement" /\
  assessComplexity "" = "Low" /\
  (forall content, assessCodeQuality content <> "Unknown") /\
  (forall content, assessComplexity content <> "Unknown").
Proof.
  split; [vm_compute; reflexivity|].
  split; [vm_compute; reflexivity|].
  split; intros content.
  - unfold assessCodeQuality. rewrite Split_length_pos.
    repeat match goal with |- context [if ?b then _ else _] => destruct b end;
      discriminate.
  - unfold assessComplexity. rewrite Split_length_pos.
    repeat match goal with |- context [if ?b then _ else _] => destruct b end;
      discriminate.
Qed.

(** ** Running the service *)

Section Pipeline.

Context `{Platform} {R : Type} `{Environment R}.
Variable config : GitHubConfig.
Abbreviation World := (World R Rng).

Lemma bind_Done {S A B : Type} (m : M S A) (k : A -> M S B) (s : S) (b : B) (s' : S) :
  bind m k s = Done b s' ->
  exists a s1, m s = Done a s1 /\ k a s1 = Done b s'.
Proof.
  unfold bind. destruct (m s) as [a s1| |]; [eauto|discriminate..].
Qed.

Lemma forRange_app {S A B : Type} (f : B -> A -> M S B) (l1 l2 : list A) (b : B) (s : S) :
  forRange f (l1 ++ l2)%list b s =
  match forRange f l1 b s with
  | Done b1 s1 => forRange f l2 b1 s1
  | Panic => Panic
  | OutOfFuel => OutOfFuel
  end.
Proof.
  revert b s. induction l1 as [|x l1 IH]; intros b s; [reflexivity|].
  simpl. unfold bind. destruct (f b x s) as [b1 s1| |]; [apply IH|reflexivity..].
Qed.

Lemma GetUser_returns (username : string) (w : World) :
  exists r w', GetUser username w = Done r w'.
Proof.
  unfold GetUser, bind, call.
  destruct (Users_Get username (remote w)) as [[user|e] r']; simpl; eauto.
Qed.

Lemma GetRepositoryLanguages_returns (username name : string) (w : World) :
  exists r w', GetRepositoryLanguages username name w = Done r w'.
Proof.
  unfold GetRepositoryLanguages, bind, call.
  destruct (Repositories_ListLanguages username name (remote w)) as [[m|e] r'];
    simpl; eauto.
Qed.

Lemma commit_loop_returns (username name : string)
      (commits : list github.RepositoryCommit) (acc : list CommitDetail) (w : World) :
  exists details w',
    forRange (commitDetail username name) commits acc w = Done details w' /\
    length details = (length acc + length commits)%nat.
Proof.
  revert acc w. induction commits as [|c commits IH]; intros acc w; simpl.
  - exists acc, w. split; [reflexivity|lia].
  - unfold bind at 1. unfold commitDetail at 1. unfold bind, call.
    destruct (Repositories_GetCommit username name (github.SHA c) (remote w))
      as [files r']; simpl.
    match goal with |- context [forRange _ commits ?acc' ?w'] =>
      destruct (IH acc' w') as (details & w2 & Hrun & Hlen) end.
    exists details, w2. split; [exact Hrun|].
    rewrite Hlen, length_app. simpl. lia.
Qed.

Lemma GetRepositoryCommits_returns (username name : string) (count : Z) (w : World) :
  exists r w', GetRepositoryCommits username name count w = Done r w'.
Proof.
  unfold GetRepositoryCommits, bind at 1, call.
  destruct (Repositories_ListCommits username name username count (remote w))
    as [[commits|e] r']; simpl; [|eauto].
  unfold bind.
  match goal with |- context [forRange _ commits [] ?w'] =>
    destruct (commit_loop_returns username name commits [] w')
      as (details & w2 & Hrun & _) end.
  rewrite Hrun. eauto.
Qed.

(** [GetRepositoryContents] reports an error exactly when the tree
    request does. *)
Lemma GetRepositoryContents_Err (username name : string) (w w' : World) (e : error) :
  GetRepositoryContents config username name w = Done (Err e) w' <->
  exists e0,
    Git_GetTree username name "HEAD" true (remote w) = (Err e0, remote w') /\
    rng w' = rng w /\
    e = Errorf "failed to get repository tree" e0.
Proof.
  unfold GetRepositoryContents, bind, call.
  destruct (Git_GetTree username name "HEAD" true (remote w)) as [[entries|e0] r'];
    simpl.
  - split.
    + destruct (sampleCodeFiles _ _ _) as [files w1| |]; [|discriminate..].
      destruct (forRange _ _ _ _) as [fa w2| |]; discriminate.
    + intros (e1 & Habs & _). discriminate.
  - unfold ret. split.
    + intros Heq. injection Heq as <- <-. exists e0. simpl. auto.
    + intros (e1 & Htree & Hrng & ->). injection Htree as <- Hr.
      destruct w' as [r1 g1]. simpl in *. subst. reflexivity.
Qed.

(** *** The store *)

Lemma evolves_refl (r : Repository) : evolves r r.
Proof. unfold evolves. auto 10. Qed.

Lemma evolves_trans (r1 r2 r3 : Repository) :
  evolves r1 r2 -> evolves r2 r3 -> evolves r1 r3.
Proof.
  unfold evolves.
  intros (A1 & A2 & A3 & A4 & A5 & A6 & A7) (B1 & B2 & B3 & B4 & B5 & B6 & B7).
  repeat split; try congruence. auto.
Qed.

Lemma storeEvolves_refl (s : list Repository) : storeEvolves s s.
Proof. split; [reflexivity|]. intros q. apply evolves_refl. Qed.

Lemma storeEvolves_trans (s1 s2 s3 : list Repository) :
  storeEvolves s1 s2 -> storeEvolves s2 s3 -> storeEvolves s1 s3.
Proof.
  intros [L1 E1] [L2 E2]. split; [congruence|].
  intros q. eapply evolves_trans; [apply E1|apply E2].
Qed.

Lemma deref_alter (f : Repository -> Repository) (p q : nat) (s : list Repository) :
  deref (alter f p s) q =
  if decide (p = q) then
    match s !! q with
    | Some r => f r
    | None => zeroRepository
    end
  else deref s q.
Proof.
  unfold deref. destruct (decide (p = q)) as [->|Hne].
  - rewrite list_lookup_alter_eq. destruct (s !! q); reflexivity.
  - rewrite list_lookup_alter_ne by exact Hne. reflexivity.
Qed.

Lemma deref_alter_same (f : Repository -> Repository) (p : nat) (s : list Repository) :
  (p < length s)%nat -> deref (alter f p s) p = f (deref s p).
Proof.
  intros Hp. rewrite deref_alter. destruct (decide (p = p)); [|congruence].
  unfold deref. destruct (s !! p) eqn:E; [reflexivity|].
  apply lookup_ge_None in E. lia.
Qed.

Lemma storeEvolves_alter (f : Repository -> Repository) (p : nat) (s : list Repository) :
  (forall r, evolves r (f r)) -> storeEvolves s (alter f p s).
Proof.
  intros Hf. split; [apply length_alter|].
  intros q. rewrite deref_alter. destruct (decide (p = q)); [|apply evolves_refl].
  unfold deref. destruct (s !! q); simpl; [apply Hf|apply evolves_refl].
Qed.

Lemma evolves_set_LanguagesUsed (v : list string) (r : Repository) :
  evolves r (set_LanguagesUsed v r).
Proof. unfold evolves. simpl. auto 10. Qed.

Lemma evolves_set_CommitCount (v : Z) (r : Repository) :
  evolves r (set_CommitCount v r).
Proof. unfold evolves. simpl. auto 10. Qed.

Lemma evolves_set_FileCount (v : Z) (r : Repository) :
  evolves r (set_FileCount v r).
Proof. unfold evolves. simpl. auto 10. Qed.

Lemma evolves_set_IncludeAnalysis (r : Repository) :
  evolves r (set_IncludeAnalysis true r).
Proof. unfold evolves. simpl. auto 10. Qed.

#[local] Hint Resolve storeEvolves_refl storeEvolves_alter evolves_set_LanguagesUsed
  evolves_set_CommitCount evolves_set_FileCount evolves_set_IncludeAnalysis : store.

(** *** One turn of the analysis loop *)

Lemma storeEvolves_withLanguages languages p s :
  storeEvolves s (withLanguages languages p s).
Proof. destruct languages; simpl; auto with store. Qed.

Lemma auditRepo_unfold (username : string) (st : auditState) (p : nat) (w : World) :
  auditRepo config username st p w =
  let name := Name (deref (store st) p) in
  match GetRepositoryLanguages username name w with
  | Done languages w2 =>
      let store1 := withLanguages languages p (store st) in
      match GetRepositoryCommits username name (CommitsPerRepo config) w2 with
      | Done (Err _) w3 =>
          Done {| store := store1;
                  allCommits := allCommits st;
                  allFileAnalyses := allFileAnalyses st;
                  analyzedRepos := analyzedRepos st;
                  reposWithErrors := (reposWithErrors st ++ [name])%list |} w3
      | Done (Ok commits) w3 =>
          if Z.of_nat (length commits) =? 0 then
            Done {| store := store1;
                    allCommits := allCommits st;
                    allFileAnalyses := allFileAnalyses st;
                    analyzedRepos := analyzedRepos st;
                    reposWithErrors := reposWithErrors st |} w3
          else
            let store2 :=
              alter (set_CommitCount (Z.of_nat (length commits))) p store1 in
            match GetRepositoryContents config username name w3 with
            | Done (Err _) w4 =>
                Done {| store := store2;
                        allCommits := (allCommits st ++ commits)%list;
                        allFileAnalyses := allFileAnalyses st;
                        analyzedRepos := analyzedRepos st;
                        reposWithErrors := (reposWithErrors st ++ [name])%list |} w4
            | Done (Ok fileAnalyses) w4 =>
                Done {| store :=
                          alter (set_IncludeAnalysis true) p
                            (alter (set_FileCount (Z.of_nat (length fileAnalyses))) p
                               store2);
                        allCommits := (allCommits st ++ commits)%list;
                        allFileAnalyses := (allFileAnalyses st ++ fileAnalyses)%list;
                        analyzedRepos := (analyzedRepos st ++ [name])%list;
                        reposWithErrors := reposWithErrors st |} w4
            | Panic => Panic
            | OutOfFuel => OutOfFuel
            end
      | Panic => Panic
      | OutOfFuel => OutOfFuel
      end
  | Panic => Panic
  | OutOfFuel => OutOfFuel
  end.
Proof.
  unfold auditRepo, bind, withLanguages. cbv zeta.
  destruct (GetRepositoryLanguages _ _ w) as [languages w2| |]; [|reflexivity..].
  destruct (GetRepositoryCommits _ _ _ w2) as [[commits|e] w3| |]; try reflexivity.
  destruct (Z.of_nat (length commits) =? 0); [reflexivity|].
  destruct (GetRepositoryContents _ _ _ w3) as [[fa|e] w4| |]; reflexivity.
Qed.

(** What one turn adds to the four lists. *)
Lemma auditRepo_step (username : string) (st st' : auditState) (p : nat) (w w' : World) :
  auditRepo config username st p w = Done st' w' ->
  storeEvolves (store st) (store st') /\
  exists errs names commits files,
    reposWithErrors st' = (reposWithErrors st ++ errs)%list /\
    analyzedRepos st' = (analyzedRepos st ++ names)%list /\
    allCommits st' = (allCommits st ++ commits)%list /\
    allFileAnalyses st' = (allFileAnalyses st ++ files)%list /\
    (length errs + length names <= 1)%nat /\
    (forall n, In n names -> n = Name (deref (store st) p)).
Proof.
  rewrite auditRepo_unfold. cbv zeta.
  destruct (GetRepositoryLanguages _ _ w) as [languages w2| |]; [|discriminate..].
  destruct (GetRepositoryCommits _ _ _ w2) as [[commits|e] w3| |]; try discriminate.
  - destruct (Z.of_nat (length commits) =? 0).
    + intros Heq. injection Heq as <- <-. simpl.
      split; [apply storeEvolves_withLanguages|].
      exists [], [], [], []. rewrite !app_nil_r. simpl.
      repeat split; auto. intros n [].
    + destruct (GetRepositoryContents _ _ _ w3) as [[fa|e] w4| |]; try discriminate.
      * intros Heq. injection Heq as <- <-. simpl. split.
        { eapply storeEvolves_trans; [apply storeEvolves_withLanguages|].
          eapply storeEvolves_trans; [|apply storeEvolves_alter; auto with store].
          eapply storeEvolves_trans; [|apply storeEvolves_alter; auto with store].
          apply storeEvolves_alter. auto with store. }
        exists [], [Name (deref (store st) p)], commits, fa.
        rewrite !app_nil_r. simpl. repeat split; auto.
        intros n [<-|[]]. reflexivity.
      * intros Heq. injection Heq as <- <-. simpl. split.
        { eapply storeEvolves_trans; [apply storeEvolves_withLanguages|].
          apply storeEvolves_alter. auto with store. }
        exists [Name (deref (store st) p)], [], commits, [].
        rewrite !app_nil_r. simpl. repeat split; auto. intros n [].
  - intros Heq. injection Heq as <- <-. simpl.
    split; [apply storeEvolves_withLanguages|].
    exists [Name (deref (store st) p)], [], [], [].
    rewrite !app_nil_r. simpl. repeat split; auto. intros n [].
Qed.

(** What a run of the loop over [l] adds to the four lists. *)
Lemma analysis_loop_grows (username : string) (l : list nat)
      (st st' : auditState) (w w' : World) :
  forRange (auditRepo config username) l st w = Done st' w' ->
  storeEvolves (store st) (store st') /\
  exists errs names commits files,
    reposWithErrors st' = (reposWithErrors st ++ errs)%list /\
    analyzedRepos st' = (analyzedRepos st ++ names)%list /\
    allCommits st' = (allCommits st ++ commits)%list /\
    allFileAnalyses st' = (allFileAnalyses st ++ files)%list /\
    (length errs + length names <= length l)%nat /\
    (forall n, In n names -> exists q, In q l /\ n = Name (deref (store st) q)).
Proof.
  revert st w. induction l as [|p l IH]; intros st w Hrun.
  - injection Hrun as <- <-. split; [apply storeEvolves_refl|].
    exists [], [], [], []. rewrite !app_nil_r. simpl.
    repeat split; auto. intros n [].
  - simpl in Hrun. apply bind_Done in Hrun as (st1 & w1 & Hstep & Hrest).
    apply auditRepo_step in Hstep
      as (Hev1 & e1 & n1 & c1 & f1 & He1 & Hn1 & Hc1 & Hf1 & Hlen1 & Hin1).
    apply IH in Hrest
      as (Hev2 & e2 & n2 & c2 & f2 & He2 & Hn2 & Hc2 & Hf2 & Hlen2 & Hin2).
    split; [eapply storeEvolves_trans; eassumption|].
    exists (e1 ++ e2)%list, (n1 ++ n2)%list, (c1 ++ c2)%list, (f1 ++ f2)%list.
    rewrite He2, Hn2, Hc2, Hf2, He1, Hn1, Hc1, Hf1, <- !app_assoc.
    repeat split; auto.
    + rewrite !length_app. simpl. lia.
    + intros n Hn. apply in_app_or in Hn as [Hn|Hn].
      * exists p. split; [left; reflexivity|auto].
      * destruct (Hin2 n Hn) as (q & Hq & ->). exists q. split; [right; exact Hq|].
        destruct Hev1 as [_ Hev1]. destruct (Hev1 q) as (HN & _). exact HN.
Qed.

(** *** What an audit that returns a result went through *)

Lemma PerformFullAudit_Ok (fuel : nat) (username : string) (w w' : World) (r : AuditResult) :
  PerformFullAudit config fuel username w = Done (Ok r) w' ->
  exists userInfo wa records wb selected st,
    GetUser username w = Done (Ok userInfo) wa /\
    ListRepositories fuel username wa = Done (Ok records) wb /\
    selectRecent config records
      (analysisRepos
         (partitionRepos records (cutoffAt config wb) (seq 0 (length records))))
    = Some selected /\
    forRange (auditRepo config username) selected (initialState records) wb
    = Done st w' /\
    r = buildResult config userInfo (seq 0 (length records))
          (partitionRepos records (cutoffAt config wb) (seq 0 (length records)))
          selected st
          (fold_left countRepo (seq 0 (length records))
             {| tally_store := store st; totalStars := 0; significantForks := 0 |}).
Proof.
  unfold PerformFullAudit. intros Hrun.
  apply bind_Done in Hrun as ([userInfo|e] & wa & Huser & Hrun); [|discriminate].
  apply bind_Done in Hrun as ([records|e] & wb & Hlist & Hrun); [|discriminate].
  apply bind_Done in Hrun as (result & w2 & Haudit & Hret).
  injection Hret as <- <-.
  unfold auditRepositories in Haudit.
  apply bind_Done in Haudit as (now & w3 & Hnow & Haudit).
  unfold Now in Hnow. injection Hnow as <- <-.
  apply bind_Done in Haudit as (selected & w4 & Hsel & Haudit).
  fold (cutoffAt config wb) in Hsel, Haudit.
  destruct (selectRecent _ _ _) as [sel|] eqn:Esel; [|discriminate].
  injection Hsel as <- <-.
  apply bind_Done in Haudit as (st & w5 & Hloop & Hret).
  injection Hret as <- <-.
  exists userInfo, wa, records, wb, sel, st. auto 10.
Qed.

(** *** The three ways a turn of the loop can end with a record *)

Lemma nonempty_length {A : Type} (l : list A) :
  l <> [] -> (Z.of_nat (length l) =? 0) = false.
Proof.
  intros Hne. destruct l as [|x l]; [congruence|].
  apply Z.eqb_neq. simpl length. lia.
Qed.

Lemma auditRepo_commit_error (username : string) (st : auditState) (p : nat)
      (w w3 : World) (e : error) :
  commitFetch config username (Name (deref (store st) p)) w (Err e) w3 ->
  exists st1,
    auditRepo config username st p w = Done st1 w3 /\
    reposWithErrors st1 = (reposWithErrors st ++ [Name (deref (store st) p)])%list /\
    analyzedRepos st1 = analyzedRepos st /\
    allCommits st1 = allCommits st /\
    allFileAnalyses st1 = allFileAnalyses st.
Proof.
  intros (langs & w2 & Hlangs & Hcommits).
  rewrite auditRepo_unfold. cbv zeta. rewrite Hlangs, Hcommits.
  eexists. split; [reflexivity|]. simpl. auto.
Qed.

Lemma auditRepo_tree_error (username : string) (st : auditState) (p : nat)
      (w w3 w4 : World) (commits : list CommitDetail) (e : error) :
  commitFetch config username (Name (deref (store st) p)) w (Ok commits) w3 ->
  commits <> [] ->
  GetRepositoryContents config username (Name (deref (store st) p)) w3
  = Done (Err e) w4 ->
  exists st1,
    auditRepo config username st p w = Done st1 w4 /\
    reposWithErrors st1 = (reposWithErrors st ++ [Name (deref (store st) p)])%list /\
    analyzedRepos st1 = analyzedRepos st /\
    allCommits st1 = (allCommits st ++ commits)%list /\
    allFileAnalyses st1 = allFileAnalyses st.
Proof.
  intros (langs & w2 & Hlangs & Hcommits) Hne Htree.
  rewrite auditRepo_unfold. cbv zeta.
  rewrite Hlangs, Hcommits, (nonempty_length _ Hne), Htree.
  eexists. split; [reflexivity|]. simpl. auto.
Qed.

Lemma auditRepo_analysed (username : string) (st : auditState) (p : nat)
      (w w3 w4 : World) (commits : list CommitDetail) (files : list FileAnalysis) :
  commitFetch config username (Name (deref (store st) p)) w (Ok commits) w3 ->
  commits <> [] ->
  GetRepositoryContents config username (Name (deref (store st) p)) w3
  = Done (Ok files) w4 ->
  exists st1,
    auditRepo config username st p w = Done st1 w4 /\
    reposWithErrors st1 = reposWithErrors st /\
    analyzedRepos st1 = (analyzedRepos st ++ [Name (deref (store st) p)])%list /\
    allCommits st1 = (allCommits st ++ commits)%list /\
    allFileAnalyses st1 = (allFileAnalyses st ++ files)%list /\
    ((p < length (store st))%nat ->
     IncludeAnalysis (deref (store st1) p) = true /\
     FileCount (deref (store st1) p) = Z.of_nat (length files)).
Proof.
  intros (langs & w2 & Hlangs & Hcommits) Hne Hfiles.
  rewrite auditRepo_unfold. cbv zeta.
  rewrite Hlangs, Hcommits, (nonempty_length _ Hne), Hfiles.
  pose proof (storeEvolves_withLanguages langs p (store st)) as [Hlen _].
  eexists. split; [reflexivity|]. simpl. repeat split; auto.
  - rewrite deref_alter_same by (rewrite !length_alter, Hlen; assumption).
    reflexivity.
  - rewrite deref_alter_same by (rewrite !length_alter, Hlen; assumption).
    rewrite deref_alter_same by (rewrite !length_alter, Hlen; assumption).
    reflexivity.
Qed.

(** The audit has reached the turn of [p]: it returns no error, and
    its result is built from that turn and the turns after it. *)
Lemma reached_turn (fuel : nat) (username : string) (w w1 w' : World)
      (records : list Repository) (pre post : list nat) (p : nat)
      (st : auditState) (x : result AuditResult) :
  reaches config fuel username w records pre p post st w1 ->
  PerformFullAudit config fuel username w = Done x w' ->
  exists userInfo wa wb st1 w2 stf,
    GetUser username w = Done (Ok userInfo) wa /\
    ListRepositories fuel username wa = Done (Ok records) wb /\
    selectRecent config records
      (analysisRepos
         (partitionRepos records (cutoffAt config wb) (seq 0 (length records))))
    = Some (pre ++ p :: post)%list /\
    forRange (auditRepo config username) pre (initialState records) wb
    = Done st w1 /\
    auditRepo config username st p w1 = Done st1 w2 /\
    forRange (auditRepo config username) post st1 w2 = Done stf w' /\
    storeEvolves records (store st) /\
    x = Ok (buildResult config userInfo (seq 0 (length records))
              (partitionRepos records (cutoffAt config wb) (seq 0 (length records)))
              (pre ++ p :: post)%list stf
              (fold_left countRepo (seq 0 (length records))
                 {| tally_store := store stf; totalStars := 0;
                    significantForks := 0 |})).
Proof.
  intros (userInfo & wa & wb & Huser & Hlist & Hsel & Hpre) Hrun.
  destruct x as [r|e].
  - apply PerformFullAudit_Ok in Hrun
      as (userInfo' & wa' & records' & wb' & selected & stf & Hu & Hl & Hs & Hloop & ->).
    rewrite Huser in Hu. injection Hu as <- <-.
    rewrite Hlist in Hl. injection Hl as <- <-.
    rewrite Hsel in Hs. injection Hs as <-.
    rewrite forRange_app, Hpre in Hloop. simpl in Hloop.
    apply bind_Done in Hloop as (st1 & w2 & Hstep & Hpost).
    pose proof (analysis_loop_grows _ _ _ _ _ _ Hpre) as [Hev _].
    exists userInfo, wa, wb, st1, w2, stf. auto 10.
  - exfalso. unfold PerformFullAudit, bind in Hrun.
    rewrite Huser, Hlist in Hrun.
    destruct (auditRepositories _ _ _ _ _); discriminate.
Qed.

(** *** Runs that cannot panic *)

Section Lawful.

Context {lawful : LawfulPlatform}.

Lemma index_in_range {A : Type} (xs : list A) (j : Z) :
  0 <= j < Z.of_nat (length xs) -> exists a, index xs j = Some a.
Proof.
  intros Hj. unfold index.
  destruct (j <? 0) eqn:E; [apply Z.ltb_lt in E; lia|].
  destruct (xs !! Z.to_nat j) as [a|] eqn:El; [eauto|].
  apply lookup_ge_None in El. lia.
Qed.

Lemma swap_in_range {A : Type} (xs : list A) (i j : Z) :
  0 <= i < Z.of_nat (length xs) ->
  0 <= j < Z.of_nat (length xs) ->
  exists xs', swap xs i j = Some xs' /\ length xs' = length xs.
Proof.
  intros Hi Hj. unfold swap.
  destruct (index_in_range xs i Hi) as [a ->].
  destruct (index_in_range xs j Hj) as [b ->].
  eexists. split; [reflexivity|]. rewrite !length_insert. reflexivity.
Qed.

Lemma Shuffle_from_returns {A : Type} (i : nat) (xs : list A) (g : Rng) :
  (i = 0 \/ i < length xs)%nat ->
  exists xs' g', Shuffle_from i xs g = Some (xs', g') /\ length xs' = length xs.
Proof.
  revert xs g. induction i as [|i IH]; intros xs g Hi; simpl; [eauto|].
  destruct Hi as [Hi|Hi]; [discriminate|].
  pose proof (rand_Intn_range (Z.of_nat (S i) + 1) g ltac:(lia)) as Hj.
  destruct (rand_Intn (Z.of_nat (S i) + 1) g) as [j g1]. simpl in Hj.
  destruct (swap_in_range xs (Z.of_nat (S i)) j ltac:(lia) ltac:(lia))
    as (xs1 & -> & Hlen).
  destruct (IH xs1 g1 ltac:(right; lia)) as (xs' & g' & -> & Hlen').
  exists xs', g'. split; [reflexivity|congruence].
Qed.

Lemma slicePrefix_in_range {A : Type} (xs : list A) (k : Z) :
  0 <= k <= Z.of_nat (length xs) ->
  exists ys, slicePrefix xs k = Some ys /\ Z.of_nat (length ys) = k.
Proof.
  intros Hk. unfold slicePrefix.
  destruct (k <? 0) eqn:E1; [apply Z.ltb_lt in E1; lia|].
  destruct (Z.of_nat (length xs) <? k) eqn:E2; [apply Z.ltb_lt in E2; lia|].
  simpl. eexists. split; [reflexivity|]. rewrite length_take. lia.
Qed.

Lemma sampleCodeFiles_returns (codeFiles : list github.TreeEntry) (w : World) :
  0 <= SampleFileCount config ->
  exists sampled w',
    sampleCodeFiles config codeFiles w = Done sampled w' /\
    remote w' = remote w /\
    Z.of_nat (length sampled)
    = Z.min (Z.of_nat (length codeFiles)) (SampleFileCount config).
Proof.
  intros Hk. unfold sampleCodeFiles.
  destruct (SampleFileCount config <? Z.of_nat (length codeFiles)) eqn:E.
  - apply Z.ltb_lt in E. unfold Shuffle.
    destruct (Shuffle_from_returns (length codeFiles - 1) codeFiles
                (rand_Seed (RandomSeed config)) ltac:(lia))
      as (shuffled & g' & -> & Hlen).
    destruct (slicePrefix_in_range shuffled (SampleFileCount config) ltac:(lia))
      as (sampled & -> & Hlen').
    eexists _, _. split; [reflexivity|]. simpl. split; [reflexivity|lia].
  - apply Z.ltb_ge in E. exists codeFiles, w. repeat split. lia.
Qed.

Lemma analyzeFile_returns (username name : string) (file : github.TreeEntry) (w : World) :
  answersFiles ->
  exists a w', analyzeFile username name file w = Done a w'.
Proof.
  intros Hfiles. unfold analyzeFile, bind, call.
  pose proof (Hfiles username name (github.Path file) (remote w)) as Hf.
  destruct (Repositories_GetContents username name (github.Path file) (remote w))
    as [[[content|]|e] r']; simpl in *; [|congruence|eauto].
  destruct (github.Content content) as [encoded|]; [|eauto].
  destruct (base64_DecodeString encoded); eauto.
Qed.

Lemma file_loop_returns (username name : string) (files : list github.TreeEntry)
      (acc : list FileAnalysis) (w : World) :
  answersFiles ->
  exists analyses w',
    forRange (analyzeInto username name) files acc w = Done analyses w' /\
    (length analyses <= length acc + length files)%nat.
Proof.
  intros Hfiles. revert acc w.
  induction files as [|file files IH]; intros acc w; simpl.
  - exists acc, w. split; [reflexivity|lia].
  - unfold bind at 1. unfold analyzeInto at 1. unfold bind.
    destruct (analyzeFile_returns username name file w Hfiles) as (a & w1 & ->).
    destruct a as [a|]; unfold ret.
    + destruct (IH (acc ++ [a])%list w1) as (analyses & w' & -> & Hlen).
      exists analyses, w'. split; [reflexivity|].
      rewrite length_app in Hlen. simpl in Hlen. lia.
    + destruct (IH acc w1) as (analyses & w' & -> & Hlen).
      exists analyses, w'. split; [reflexivity|lia].
Qed.

Lemma GetRepositoryContents_returns (username name : string) (w : World) :
  0 <= SampleFileCount config ->
  answersFiles ->
  exists r w', GetRepositoryContents config username name w = Done r w'.
Proof.
  intros Hk Hfiles. unfold GetRepositoryContents, bind, call.
  destruct (Git_GetTree username name "HEAD" true (remote w)) as [[entries|e] r'];
    simpl; [|eauto].
  match goal with |- context [sampleCodeFiles config ?cs ?w0] =>
    destruct (sampleCodeFiles_returns cs w0 Hk) as (sampled & w1 & -> & _) end.
  destruct (file_loop_returns username name sampled [] w1 Hfiles)
    as (analyses & w2 & -> & _).
  eauto.
Qed.

Lemma auditRepo_returns (username : string) (st : auditState) (p : nat) (w : World) :
  0 <= SampleFileCount config ->
  answersFiles ->
  exists st' w', auditRepo config username st p w = Done st' w'.
Proof.
  intros Hk Hfiles. rewrite auditRepo_unfold. cbv zeta.
  destruct (GetRepositoryLanguages_returns username (Name (deref (store st) p)) w)
    as (langs & w2 & ->).
  destruct (GetRepositoryCommits_returns username (Name (deref (store st) p))
              (CommitsPerRepo config) w2) as ([commits|e] & w3 & ->); [|eauto].
  destruct (Z.of_nat (length commits) =? 0); [eauto|].
  destruct (GetRepositoryContents_returns username (Name (deref (store st) p)) w3
              Hk Hfiles) as ([files|e] & w4 & ->); eauto.
Qed.

Lemma analysis_loop_returns (username : string) (l : list nat) (st : auditState) (w : World) :
  0 <= SampleFileCount config ->
  answersFiles ->
  exists st' w', forRange (auditRepo config username) l st w = Done st' w'.
Proof.
  intros Hk Hfiles. revert st w.
  induction l as [|p l IH]; intros st w; simpl; [unfold ret; eauto|].
  unfold bind.
  destruct (auditRepo_returns username st p w Hk Hfiles) as (st1 & w1 & ->).
  apply IH.
Qed.

Lemma selectRecent_returns (records : list Repository) (candidates : list nat) :
  0 <= SampledRepoCount config ->
  exists selected,
    selectRecent config records candidates = Some selected /\
    Z.of_nat (length selected)
    = Z.min (Z.of_nat (length candidates)) (SampledRepoCount config).
Proof.
  intros Hk. unfold selectRecent.
  destruct (SampledRepoCount config <? Z.of_nat (length candidates)) eqn:E.
  - apply Z.ltb_lt in E.
    pose proof (Permutation_length
                  (sort_Slice_perm _ (moreRecent records) candidates)) as Hlen.
    destruct (slicePrefix_in_range (sort_Slice (moreRecent records) candidates)
                (SampledRepoCount config)) as (ys & -> & Hys); [lia|].
    exists ys. split; [reflexivity|lia].
  - apply Z.ltb_ge in E. exists candidates. split; [reflexivity|lia].
Qed.

Lemma PerformFullAudit_returns (fuel : nat) (username : string) (w wa wb : World)
      (userInfo : UserInfo) (records : list Repository) :
  0 <= SampledRepoCount config ->
  0 <= SampleFileCount config ->
  answersFiles ->
  GetUser username w = Done (Ok userInfo) wa ->
  ListRepositories fuel username wa = Done (Ok records) wb ->
  exists r w', PerformFullAudit config fuel username w = Done (Ok r) w'.
Proof.
  intros Hrepos Hk Hfiles Huser Hlist.
  unfold PerformFullAudit, bind. rewrite Huser, Hlist.
  unfold auditRepositories, bind, Now.
  match goal with |- context [selectRecent config records ?cs] =>
    destruct (selectRecent_returns records cs Hrepos) as (selected & -> & _) end.
  simpl.
  match goal with |- context [forRange _ selected ?st0 ?w0] =>
    destruct (analysis_loop_returns username selected st0 w0 Hk Hfiles)
      as (st & w' & ->) end.
  unfold ret. eauto.
Qed.

End Lawful.

(** *** Fuel

    A run of the paging loop that returns does so with any larger
    amount of fuel, and so does the audit. *)

Lemma listPages_more_fuel (fuel fuel' : nat) (username : string) (page : Z)
      (allRepos : list github.Repository) (w w' : World)
      (x : result (list github.Repository)) :
  (fuel <= fuel')%nat ->
  listPages fuel username page allRepos w = Done x w' ->
  listPages fuel' username page allRepos w = Done x w'.
Proof.
  revert fuel' page allRepos w.
  induction fuel as [|fuel IH]; intros fuel' page allRepos w Hle; simpl;
    [discriminate|].
  destruct fuel' as [|fuel']; [lia|]. simpl. unfold bind, call.
  destruct (Repositories_List username page (remote w)) as [[[repos next]|e] r'];
    simpl; [|auto].
  destruct (next =? 0); [auto|]. apply IH. lia.
Qed.

Lemma PerformFullAudit_more_fuel (fuel fuel' : nat) (username : string) (w w' : World)
      (x : result AuditResult) :
  (fuel <= fuel')%nat ->
  PerformFullAudit config fuel username w = Done x w' ->
  PerformFullAudit config fuel' username w = Done x w'.
Proof.
  intros Hle. unfold PerformFullAudit, ListRepositories, bind.
  destruct (GetUser username w) as [[userInfo|e] wa| |]; try (intros Heq; exact Heq).
  destruct (listPages fuel username 0 [] wa) as [pages wb| |] eqn:Hpages;
    try discriminate.
  rewrite (listPages_more_fuel _ _ _ _ _ _ _ _ Hle Hpages). auto.
Qed.

(** The repositories attempted are at least those recorded as analysed
    or in error. *)
Lemma attempted_bounds_recorded (fuel : nat) (username : string) (w w' : World)
      (r : AuditResult) :
  PerformFullAudit config fuel username w = Done (Ok r) w' ->
  Z.of_nat (length (ReposAnalyzedForCode (AuditResult_AnalysisSummary r))) +
  Z.of_nat (length (ReposWithErrors (AuditResult_AnalysisSummary r)))
  <= TotalReposAttempted (AuditResult_AnalysisSummary r).
Proof.
  intros Hrun.
  apply PerformFullAudit_Ok in Hrun
    as (userInfo & wa & records & wb & selected & st & _ & _ & _ & Hloop & ->).
  apply analysis_loop_grows in Hloop
    as (_ & errs & names & _ & _ & He & Hn & _ & _ & Hlen & _).
  simpl. rewrite He, Hn. simpl. lia.
Qed.

Lemma store_keeps_names (s s' : list Repository) :
  storeEvolves s s' -> forall q, Name (deref s' q) = Name (deref s q).
Proof. intros [_ Hev] q. destruct (Hev q) as (HN & _). exact HN. Qed.

(** ** Fatal failures and recorded failures *)

(** C4.  [PerformFullAudit] returns an error exactly when the profile
    fetch fails or, after it, the repository-list fetch fails, and the
    error names the stage.  When the commit fetch of a selected
    repository fails, or its tree fetch fails after a non-empty commit
    fetch, an audit that returns does not return an error, and the
    repository's name is in [ReposWithErrors].  With non-negative
    sample counts, a lawful platform and an environment that answers
    content requests with files, the audit does return once the two
    fatal fetches have succeeded. *)
Theorem fatal_fetches_and_recorded_failures (fuel : nat) (username : string) (w : World) :
  (forall e w',
      PerformFullAudit config fuel username w = Done (Err e) w' <->
      (exists e0,
          GetUser username w = Done (Err e0) w' /\
          e = Errorf "failed to get user info" e0) \/
      (exists userInfo wa e0,
          GetUser username w = Done (Ok userInfo) wa /\
          ListRepositories fuel username wa = Done (Err e0) w' /\
          e = Errorf "failed to get repositories" e0)) /\
  (forall records pre p post st w1 x w',
      reaches config fuel username w records pre p post st w1 ->
      (exists e w3,
          commitFetch config username (Name (deref records p)) w1 (Err e) w3) \/
      (exists commits w3 e w4,
          commitFetch config username (Name (deref records p)) w1 (Ok commits) w3 /\
          commits <> [] /\
          GetRepositoryContents config username (Name (deref records p)) w3
          = Done (Err e) w4) ->
      PerformFullAudit config fuel username w = Done x w' ->
      exists r,
        x = Ok r /\
        In (Name (deref records p))
           (ReposWithErrors (AuditResult_AnalysisSummary r))) /\
  (LawfulPlatform ->
   0 <= SampledRepoCount config ->
   0 <= SampleFileCount config ->
   answersFiles ->
   forall userInfo wa records wb,
     GetUser username w = Done (Ok userInfo) wa ->
     ListRepositories fuel username wa = Done (Ok records) wb ->
     exists r w', PerformFullAudit config fuel username w = Done (Ok r) w').
Proof.
  split; [|split].
  - intros e w'. unfold PerformFullAudit. split.
    + intros Hrun.
      apply bind_Done in Hrun as ([userInfo|e0] & wa & Huser & Hrun).
      * apply bind_Done in Hrun as ([records|e0] & wb & Hlist & Hrun).
        -- apply bind_Done in Hrun as (r & w2 & _ & Hret). discriminate.
        -- injection Hrun as <- <-. right. eauto 10.
      * injection Hrun as <- <-. left. eauto.
    + unfold bind.
      intros [(e0 & -> & ->)|(userInfo & wa & e0 & -> & -> & ->)]; reflexivity.
  - intros records pre p post st w1 x w' Hreach Hfail Hrun.
    destruct (reached_turn _ _ _ _ _ _ _ _ _ _ _ Hreach Hrun)
      as (userInfo & wa & wb & st1 & w2 & stf & _ & _ & _ & _ & Hstep & Hpost & Hev & ->).
    rewrite <- (store_keeps_names _ _ Hev p) in *.
    eexists. split; [reflexivity|]. simpl.
    apply analysis_loop_grows in Hpost as (_ & errs & _ & _ & _ & -> & _).
    apply in_or_app. left.
    destruct Hfail as [(e & w3 & Hfetch)|(commits & w3 & e & w4 & Hfetch & Hne & Htree)].
    + destruct (auditRepo_commit_error _ _ _ _ _ _ Hfetch) as (st1' & Hstep' & Herr & _).
      rewrite Hstep in Hstep'. injection Hstep' as <- _.
      rewrite Herr. apply in_or_app. right. left. reflexivity.
    + destruct (auditRepo_tree_error _ _ _ _ _ _ _ _ Hfetch Hne Htree)
        as (st1' & Hstep' & Herr & _).
      rewrite Hstep in Hstep'. injection Hstep' as <- _.
      rewrite Herr. apply in_or_app. right. left. reflexivity.
  - intros lawful Hrepos Hk Hfiles userInfo wa records wb.
    apply PerformFullAudit_returns; assumption.
Qed.

(** ** The partition of the repositories and the statistics *)

Lemma partition_fold (records : list Repository) (cutoffDate : Time)
      (l : list nat) (acc : partition) :
  fold_left (classify records cutoffDate) l acc =
  {| analysisRepos :=
       (analysisRepos acc ++
        List.filter (fun p => After (UpdatedAt (deref records p)) cutoffDate) l)%list;
     originalRepos :=
       (originalRepos acc ++
        List.filter (fun p => negb (Fork (deref records p))) l)%list;
     forkedRepos :=
       (forkedRepos acc ++ List.filter (fun p => Fork (deref records p)) l)%list |}.
Proof.
  revert acc. induction l as [|p l IH]; intros acc; simpl.
  - rewrite !app_nil_r. destruct acc; reflexivity.
  - rewrite IH. unfold classify.
    destruct (Fork (deref records p));
      destruct (After (UpdatedAt (deref records p)) cutoffDate);
      simpl; rewrite <- ?app_assoc; reflexivity.
Qed.

Lemma partitionRepos_spec (records : list Repository) (cutoffDate : Time) (l : list nat) :
  partitionRepos records cutoffDate l =
  {| analysisRepos :=
       List.filter (fun p => After (UpdatedAt (deref records p)) cutoffDate) l;
     originalRepos := List.filter (fun p => negb (Fork (deref records p))) l;
     forkedRepos := List.filter (fun p => Fork (deref records p)) l |}.
Proof. unfold partitionRepos. rewrite partition_fold. reflexivity. Qed.

Lemma filter_split_length {A : Type} (f : A -> bool) (l : list A) :
  (length (List.filter (fun x => negb (f x)) l) + length (List.filter f l)
   = length l)%nat.
Proof.
  induction l as [|x l IH]; simpl; [reflexivity|].
  destruct (f x); simpl; lia.
Qed.

Lemma filter_length_le {A : Type} (f : A -> bool) (l : list A) :
  (length (List.filter f l) <= length l)%nat.
Proof.
  induction l as [|x l IH]; simpl; [lia|]. destruct (f x); simpl; lia.
Qed.

Lemma map_deref_seq (records : list Repository) :
  map (deref records) (seq 0 (length records)) = records.
Proof.
  induction records as [|x records IH] using rev_ind; [reflexivity|].
  rewrite length_app. simpl length. rewrite seq_app, map_app. simpl.
  f_equal.
  - transitivity (map (deref records) (seq 0 (length records))); [|exact IH].
    apply map_ext_in. intros q Hq.
    apply in_seq in Hq. unfold deref. rewrite lookup_app_l by lia. reflexivity.
  - unfold deref. rewrite list_lookup_middle by reflexivity. reflexivity.
Qed.

Lemma filter_through_store (f : Repository -> bool) (records : list Repository) :
  length (List.filter (fun p => f (deref records p)) (seq 0 (length records)))
  = length (List.filter f records).
Proof.
  transitivity
    (length (List.filter f (map (deref records) (seq 0 (length records))))).
  - rewrite filter_map_swap, length_map. reflexivity.
  - rewrite map_deref_seq. reflexivity.
Qed.

Lemma deref_Forall (P : Repository -> Prop) (records : list Repository) (q : nat) :
  Forall P records -> P zeroRepository -> P (deref records q).
Proof.
  intros Hall Hzero. unfold deref.
  destruct (records !! q) as [r|] eqn:E; simpl; [|exact Hzero].
  eapply Forall_lookup_1; eassumption.
Qed.

(** The records [ListRepositories] allocates carry no commit count and
    are not marked significant. *)
Lemma ListRepositories_UserCommits (fuel : nat) (username : string) (w w' : World)
      (records : list Repository) :
  ListRepositories fuel username w = Done (Ok records) w' ->
  forall q,
    UserCommits (deref records q) = 0 /\ IsSignificant (deref records q) = false.
Proof.
  unfold ListRepositories. intros Hrun q.
  apply bind_Done in Hrun as ([allRepos|e] & w1 & _ & Hret); [|discriminate].
  injection Hret as <- _.
  apply (deref_Forall (fun r => UserCommits r = 0 /\ IsSignificant r = false));
    [|split; reflexivity].
  apply List.Forall_forall. intros r Hr. apply in_map_iff in Hr as (x & <- & _).
  split; reflexivity.
Qed.

Lemma tally_without_commit_counts (l : list nat) (s : list Repository) (t n : Z) :
  (forall q, UserCommits (deref s q) = 0) ->
  tally_store
    (fold_left countRepo l
       {| tally_store := s; totalStars := t; significantForks := n |}) = s /\
  significantForks
    (fold_left countRepo l
       {| tally_store := s; totalStars := t; significantForks := n |}) = n.
Proof.
  intros Hzero. revert t. induction l as [|p l IH]; intros t; simpl; [auto|].
  unfold countRepo at 2 4. simpl. rewrite Hzero. simpl.
  rewrite andb_false_r. apply IH.
Qed.

Lemma selectRecent_length (records : list Repository) (candidates selected : list nat) :
  selectRecent config records candidates = Some selected ->
  Z.of_nat (length selected)
  = Z.min (Z.of_nat (length candidates)) (SampledRepoCount config).
Proof.
  unfold selectRecent, slicePrefix.
  destruct (SampledRepoCount config <? Z.of_nat (length candidates)) eqn:E.
  - apply Z.ltb_lt in E.
    destruct (SampledRepoCount config <? 0) eqn:E1; [discriminate|].
    destruct (Z.of_nat (length (sort_Slice (moreRecent records) candidates))
              <? SampledRepoCount config) eqn:E2; [discriminate|].
    simpl. intros Heq. injection Heq as <-.
    apply Z.ltb_ge in E1, E2. rewrite length_take. lia.
  - apply Z.ltb_ge in E. intros Heq. injection Heq as <-. lia.
Qed.

(** C7.  In the result of an audit the counts of original and forked
    repositories add up to the total, and [AnalysisRepos] is the number
    of repositories left by the recency filter and the truncation to
    [SampledRepoCount]: the smaller of the number of recently updated
    repositories and [SampledRepoCount].  It is at most the total and
    at least the number of repositories analysed. *)
Theorem repository_counts (fuel : nat) (username : string) (w w' : World) (r : AuditResult) :
  PerformFullAudit config fuel username w = Done (Ok r) w' ->
  let stats := Statistics (AuditResult_RepoStats r) in
  OriginalRepos stats + ForkedRepos stats = TotalRepos stats /\
  AnalysisRepos stats <= TotalRepos stats /\
  Z.of_nat (length (ReposAnalyzedForCode (AuditResult_AnalysisSummary r)))
  <= AnalysisRepos stats /\
  exists userInfo wa records wb,
    GetUser username w = Done (Ok userInfo) wa /\
    ListRepositories fuel username wa = Done (Ok records) wb /\
    TotalRepos stats = Z.of_nat (length records) /\
    OriginalRepos stats
    = Z.of_nat (length (List.filter (fun repo => negb (Fork repo)) records)) /\
    ForkedRepos stats = Z.of_nat (length (List.filter Fork records)) /\
    AnalysisRepos stats
    = Z.min
        (Z.of_nat
           (length
              (List.filter (fun repo => After (UpdatedAt repo) (cutoffAt config wb))
                           records)))
        (SampledRepoCount config).
Proof.
  intros Hrun.
  apply PerformFullAudit_Ok in Hrun
    as (userInfo & wa & records & wb & selected & st & Hu & Hl & Hs & Hloop & ->).
  cbv zeta. simpl. rewrite partitionRepos_spec in *. simpl in *.
  apply selectRecent_length in Hs.
  pose proof (filter_split_length (fun p => Fork (deref records p))
                (seq 0 (length records))) as Hsplit.
  pose proof (filter_length_le
                (fun p => After (UpdatedAt (deref records p)) (cutoffAt config wb))
                (seq 0 (length records))) as Hle.
  rewrite length_seq in Hsplit, Hle |- *.
  apply analysis_loop_grows in Hloop as (_ & errs & names & _ & _ & _ & Hn & _ & _ & Hlen & _).
  rewrite Hn. simpl.
  rewrite (filter_through_store (fun repo => negb (Fork repo))).
  rewrite (filter_through_store Fork).
  rewrite (filter_through_store
             (fun repo => After (UpdatedAt repo) (cutoffAt config wb))) in Hs.
  rewrite (filter_through_store (fun repo => negb (Fork repo))) in Hsplit.
  rewrite (filter_through_store Fork) in Hsplit.
  rewrite (filter_through_store
             (fun repo => After (UpdatedAt repo) (cutoffAt config wb))) in Hle.
  repeat split; try lia.
  exists userInfo, wa, records, wb. repeat split; auto.
Qed.

(** C9.  In the result of an audit [SignificantForks] is 0, and no
    repository record of the result carries a commit count: the field
    [UserCommits] is zero when [ListRepositories] allocates the record
    and no step of the pipeline assigns it. *)
Theorem no_significant_forks (fuel : nat) (username : string) (w w' : World) (r : AuditResult) :
  PerformFullAudit config fuel username w = Done (Ok r) w' ->
  SignificantForks (Statistics (AuditResult_RepoStats r)) = 0 /\
  Forall (fun repo => UserCommits repo = 0 /\ IsSignificant repo = false)
         (RepoStats_OriginalRepos (AuditResult_RepoStats r) ++
          RepoStats_ForkedRepos (AuditResult_RepoStats r)).
Proof.
  intros Hrun.
  apply PerformFullAudit_Ok in Hrun
    as (userInfo & wa & records & wb & selected & st & Hu & Hl & Hs & Hloop & ->).
  pose proof (ListRepositories_UserCommits _ _ _ _ _ Hl) as Hzero.
  apply analysis_loop_grows in Hloop as ((_ & Hev) & _).
  assert (Hzero' : forall q,
             UserCommits (deref (store st) q) = 0 /\
             IsSignificant (deref (store st) q) = false).
  { intros q. destruct (Hev q) as (_ & HU & _ & _ & _ & HS & _). simpl in HU, HS.
    rewrite HU, HS. apply Hzero. }
  destruct (tally_without_commit_counts (seq 0 (length records)) (store st) 0 0)
    as [Hstore Hsig]; [intros q; apply Hzero'|].
  simpl. split; [exact Hsig|].
  rewrite Hstore, <- map_app. apply List.Forall_forall.
  intros repo Hrepo. apply in_map_iff in Hrepo as (q & <- & _).
  apply Hzero'.
Qed.

(** ** Partial failures *)

(** C8, as amended.  When the commit fetch of a selected repository
    returns at least one commit and the tree fetch that follows fails,
    the result of the audit has the repository's name in
    [ReposWithErrors] and the fetched commits, in order, in
    [CommitDetails].  Every entry of [ReposAnalyzedForCode] is recorded
    by the turn of another selected repository, so the name is absent
    from [ReposAnalyzedForCode] provided no other selected repository
    carries the same name. *)
Theorem tree_failure_keeps_commits (fuel : nat) (username : string) (w w1 w3 w4 w' : World)
        (records : list Repository) (pre post : list nat) (p : nat)
        (st : auditState) (commits : list CommitDetail) (e : error) (r : AuditResult) :
  reaches config fuel username w records pre p post st w1 ->
  commitFetch config username (Name (deref records p)) w1 (Ok commits) w3 ->
  commits <> [] ->
  GetRepositoryContents config username (Name (deref records p)) w3 = Done (Err e) w4 ->
  PerformFullAudit config fuel username w = Done (Ok r) w' ->
  In (Name (deref records p)) (ReposWithErrors (AuditResult_AnalysisSummary r)) /\
  (exists before after, CommitDetails r = (before ++ commits ++ after)%list) /\
  (exists earlier later,
      ReposAnalyzedForCode (AuditResult_AnalysisSummary r) = (earlier ++ later)%list /\
      (forall n, In n earlier -> exists q, In q pre /\ n = Name (deref records q)) /\
      (forall n, In n later -> exists q, In q post /\ n = Name (deref records q))) /\
  ((forall q, In q (pre ++ post)%list ->
              Name (deref records q) <> Name (deref records p)) ->
   ~ In (Name (deref records p))
        (ReposAnalyzedForCode (AuditResult_AnalysisSummary r))).
Proof.
  intros Hreach Hfetch Hne Htree Hrun.
  destruct (reached_turn _ _ _ _ _ _ _ _ _ _ _ Hreach Hrun)
    as (userInfo & wa & wb & st1 & w2 & stf & _ & _ & _ & Hpre & Hstep & Hpost & Hev & Hr).
  injection Hr as ->.
  rewrite <- (store_keeps_names _ _ Hev p) in Hfetch, Htree.
  destruct (auditRepo_tree_error _ _ _ _ _ _ _ _ Hfetch Hne Htree)
    as (st1' & Hstep' & Herr & Han & Hcom & _).
  rewrite Hstep in Hstep'. injection Hstep' as Hst _. subst st1'.
  pose proof (auditRepo_step _ _ _ _ _ _ Hstep) as [Hev1 _].
  apply analysis_loop_grows in Hpost
    as (_ & errs & names & commits' & _ & He2 & Hn2 & Hc2 & _ & _ & Hin2).
  apply analysis_loop_grows in Hpre
    as (_ & _ & names0 & _ & _ & _ & Hn0 & _ & _ & _ & Hin0).
  simpl in Hn0, Hin0 |- *.
  assert (Hlater : forall n, In n names ->
                             exists q, In q post /\ n = Name (deref records q)).
  { intros n Hn. destruct (Hin2 n Hn) as (q & Hq & ->). exists q. split; [exact Hq|].
    rewrite (store_keeps_names _ _ Hev1 q), (store_keeps_names _ _ Hev q).
    reflexivity. }
  split; [|split; [|split]].
  - rewrite He2, Herr, (store_keeps_names _ _ Hev p).
    apply in_or_app. left. apply in_or_app. right. left. reflexivity.
  - exists (allCommits st), commits'. rewrite Hc2, Hcom, <- app_assoc. reflexivity.
  - exists names0, names. rewrite Hn2, Han, Hn0. auto.
  - intros Hfresh Hin. rewrite Hn2, Han, Hn0 in Hin.
    apply in_app_or in Hin as [Hin|Hin].
    + destruct (Hin0 _ Hin) as (q & Hq & Hname).
      apply (Hfresh q); [apply in_or_app; left; exact Hq|]. congruence.
    + destruct (Hlater _ Hin) as (q & Hq & Hname).
      apply (Hfresh q); [apply in_or_app; right; exact Hq|]. congruence.
Qed.

Lemma selectRecent_subset {lawful : LawfulPlatform} (records : list Repository)
      (candidates selected : list nat) (q : nat) :
  selectRecent config records candidates = Some selected ->
  In q selected -> In q candidates.
Proof.
  unfold selectRecent, slicePrefix.
  destruct (SampledRepoCount config <? Z.of_nat (length candidates)).
  - destruct (_ || _); [discriminate|].
    intros Heq Hq. injection Heq as <-.
    apply list_elem_of_In in Hq. apply subseteq_take in Hq.
    apply list_elem_of_In in Hq.
    eapply Permutation_in; [apply sort_Slice_perm|exact Hq].
  - intros Heq. injection Heq as <-. auto.
Qed.

Lemma selected_is_listed {lawful : LawfulPlatform} (records : list Repository)
      (cutoffDate : Time) (selected : list nat) (q : nat) :
  selectRecent config records
    (analysisRepos (partitionRepos records cutoffDate (seq 0 (length records))))
  = Some selected ->
  In q selected ->
  (q < length records)%nat /\
  In q (originalRepos (partitionRepos records cutoffDate (seq 0 (length records))) ++
        forkedRepos (partitionRepos records cutoffDate (seq 0 (length records))))%list.
Proof.
  intros Hsel Hq. pose proof (selectRecent_subset _ _ _ _ Hsel Hq) as Hc.
  rewrite partitionRepos_spec in *. simpl in *.
  apply filter_In in Hc as [Hseq _].
  split; [apply in_seq in Hseq; lia|].
  apply in_or_app.
  destruct (Fork (deref records q)) eqn:E; [right|left];
    apply filter_In; rewrite E; auto.
Qed.

(** C10.  A file whose content cannot be fetched or decoded adds
    nothing to the list of analyses and raises no error:
    [GetRepositoryContents] reports an error only when the tree request
    fails.  Whatever analyses a successful [GetRepositoryContents]
    returns for a selected repository with commits, that turn of the
    loop leaves [ReposWithErrors] as it was, and the result of the
    audit has the repository's name in [ReposAnalyzedForCode] and its
    record marked with [IncludeAnalysis].  On the mixed script, [lib]
    is analysed with one analysis for its two code files, below the
    sample count of three. *)
Theorem file_failures_are_silent (username : string) :
  (forall repoName acc file (w0 : World) reply r',
      Repositories_GetContents username repoName (github.Path file) (remote w0)
      = (reply, r') ->
      fileFails reply ->
      analyzeInto username repoName acc file w0
      = Done acc {| remote := r'; rng := rng w0 |}) /\
  (forall repoName (w0 w0' : World) e,
      GetRepositoryContents config username repoName w0 = Done (Err e) w0' ->
      exists e0, fst (Git_GetTree username repoName "HEAD" true (remote w0)) = Err e0) /\
  (LawfulPlatform ->
   forall fuel (w w1 w3 w4 w' : World) records pre p post st commits files r,
     reaches config fuel username w records pre p post st w1 ->
     commitFetch config username (Name (deref records p)) w1 (Ok commits) w3 ->
     commits <> [] ->
     GetRepositoryContents config username (Name (deref records p)) w3
     = Done (Ok files) w4 ->
     PerformFullAudit config fuel username w = Done (Ok r) w' ->
     (exists st1,
         auditRepo config username st p w1 = Done st1 w4 /\
         reposWithErrors st1 = reposWithErrors st /\
         allFileAnalyses st1 = (allFileAnalyses st ++ files)%list) /\
     In (Name (deref records p))
        (ReposAnalyzedForCode (AuditResult_AnalysisSummary r)) /\
     exists repo,
       In repo (RepoStats_OriginalRepos (AuditResult_RepoStats r) ++
                RepoStats_ForkedRepos (AuditResult_RepoStats r))%list /\
       Name repo = Name (deref records p) /\
       IncludeAnalysis repo = true) /\
  (exists r w',
      runAudit mixedScript demoConfig = Done (Ok r) w' /\
      length (List.filter (@isCodeBlob refPlatform)
                          [blob "main.go"; blob "README.md"; blob "tool.py"]) = 2%nat /\
      SampleFileCount demoConfig = 3 /\
      In "lib" (ReposAnalyzedForCode (AuditResult_AnalysisSummary r)) /\
      ~ In "lib" (ReposWithErrors (AuditResult_AnalysisSummary r)) /\
      length (List.filter (fun a => String.eqb (Repo a) "lib")
                          (AuditResult_FileAnalysis r)) = 1%nat).
Proof.
  split; [|split; [|split]].
  - intros repoName acc file w0 reply r' Hreply Hfails.
    unfold analyzeInto, analyzeFile, bind, call. rewrite Hreply.
    destruct reply as [[content|]|e]; simpl in *; [|contradiction|reflexivity].
    destruct (github.Content content) as [encoded|]; [|reflexivity].
    destruct Hfails as [e ->]. reflexivity.
  - intros repoName w0 w0' e Hrun.
    apply GetRepositoryContents_Err in Hrun as (e0 & Htree & _).
    exists e0. rewrite Htree. reflexivity.
  - intros lawful fuel w w1 w3 w4 w' records pre p post st commits files r
           Hreach Hfetch Hne Hfiles Hrun.
    destruct (reached_turn _ _ _ _ _ _ _ _ _ _ _ Hreach Hrun)
      as (userInfo & wa & wb & st1 & w2 & stf & Hu & Hl & Hsel & Hpre & Hstep & Hpost & Hev & Hr).
    injection Hr as ->.
    rewrite <- (store_keeps_names _ _ Hev p) in Hfetch, Hfiles.
    destruct (auditRepo_analysed _ _ _ _ _ _ _ _ Hfetch Hne Hfiles)
      as (st1' & Hstep' & Herr & Han & _ & Hfa & Hflag).
    rewrite Hstep in Hstep'. injection Hstep' as Hst Hw. subst st1' w2.
    destruct (selected_is_listed records (cutoffAt config wb) (pre ++ p :: post)%list p Hsel)
      as [Hrange Hlisted]; [apply in_or_app; right; left; reflexivity|].
    destruct Hev as [Hlen0 Hev0].
    destruct (Hflag ltac:(simpl in Hlen0; lia)) as [Hinc _].
    apply analysis_loop_grows in Hpost
      as ((Hlen2 & Hev2) & _ & names & _ & _ & _ & Hn2 & _).
    pose proof (ListRepositories_UserCommits _ _ _ _ _ Hl) as Hzero.
    destruct (tally_without_commit_counts (seq 0 (length records)) (store stf) 0 0)
      as [Hstore _].
    { intros q. destruct (Hev2 q) as (_ & HU & _).
      pose proof (auditRepo_step _ _ _ _ _ _ Hstep) as [[_ Hev1] _].
      destruct (Hev1 q) as (_ & HU1 & _). destruct (Hev0 q) as (_ & HU0 & _).
      simpl in HU0. rewrite HU, HU1, HU0. apply Hzero. }
    split; [|split].
    + exists st1. auto.
    + simpl. rewrite Hn2, Han. destruct (Hev0 p) as (HN0 & _). rewrite HN0.
      apply in_or_app. left. apply in_or_app. right. left. reflexivity.
    + simpl. rewrite Hstore, <- map_app.
      exists (deref (store stf) p). split; [apply in_map; exact Hlisted|].
      destruct (Hev2 p) as (HN2 & _ & _ & _ & _ & _ & Hkeep).
      pose proof (auditRepo_step _ _ _ _ _ _ Hstep) as [[_ Hev1] _].
      destruct (Hev1 p) as (HN1 & _). destruct (Hev0 p) as (HN0 & _).
      split; [congruence|]. apply Hkeep. exact Hinc.
  - remember (runAudit mixedScript demoConfig) as out eqn:Eout.
    vm_compute in Eout. subst out.
    eexists. eexists. split; [reflexivity|].
    split; [vm_compute; reflexivity|].
    split; [reflexivity|].
    split; [simpl; auto|].
    split; [|vm_compute; reflexivity].
    simpl. intros [E|[E|[]]]; discriminate E.
Qed.

(** ** File sampling *)

Lemma sameOutcome_bind {A B : Type} (m : M World A) (k : A -> M World B) (w1 w2 : World) :
  sameOutcome (m w1) (m w2) ->
  (forall a (v1 v2 : World), remote v1 = remote v2 -> sameOutcome (k a v1) (k a v2)) ->
  sameOutcome (bind m k w1) (bind m k w2).
Proof.
  unfold bind. intros Hm Hk.
  destruct (m w1) as [a v1| |], (m w2) as [b v2| |]; simpl in Hm; try contradiction; auto.
  destruct Hm as [<- Hv]. apply Hk. exact Hv.
Qed.

Lemma sameOutcome_call {A : Type} (f : R -> A * R) (w1 w2 : World) :
  remote w1 = remote w2 -> sameOutcome (call f w1) (call f w2).
Proof.
  intros Hr. unfold call. rewrite Hr.
  destruct (f (remote w2)) as [a r']. simpl. auto.
Qed.

Lemma sameOutcome_ret {A : Type} (a : A) (w1 w2 : World) :
  remote w1 = remote w2 -> sameOutcome (ret a w1) (ret a w2).
Proof. intros Hr. simpl. auto. Qed.

Lemma sameOutcome_analyzeInto (username name : string) (acc : list FileAnalysis)
      (file : github.TreeEntry) (w1 w2 : World) :
  remote w1 = remote w2 ->
  sameOutcome (analyzeInto username name acc file w1)
              (analyzeInto username name acc file w2).
Proof.
  intros Hr. unfold analyzeInto, analyzeFile.
  apply sameOutcome_bind.
  - apply sameOutcome_bind; [apply sameOutcome_call; exact Hr|].
    intros [[content|]|e] v1 v2 Hv; [|simpl; auto|apply sameOutcome_ret; exact Hv].
    destruct (github.Content content) as [encoded|];
      [|apply sameOutcome_ret; exact Hv].
    destruct (base64_DecodeString encoded); apply sameOutcome_ret; exact Hv.
  - intros [a|] v1 v2 Hv; apply sameOutcome_ret; exact Hv.
Qed.

Lemma sameOutcome_file_loop (username name : string) (files : list github.TreeEntry)
      (acc : list FileAnalysis) (w1 w2 : World) :
  remote w1 = remote w2 ->
  sameOutcome (forRange (analyzeInto username name) files acc w1)
              (forRange (analyzeInto username name) files acc w2).
Proof.
  revert acc w1 w2. induction files as [|file files IH]; intros acc w1 w2 Hr; simpl.
  - auto.
  - apply sameOutcome_bind; [apply sameOutcome_analyzeInto; exact Hr|].
    intros acc' v1 v2 Hv. apply IH. exact Hv.
Qed.

Lemma sameOutcome_sampleCodeFiles (codeFiles : list github.TreeEntry) (w1 w2 : World) :
  remote w1 = remote w2 ->
  sameOutcome (sampleCodeFiles config codeFiles w1)
              (sampleCodeFiles config codeFiles w2).
Proof.
  intros Hr. unfold sampleCodeFiles.
  destruct (SampleFileCount config <? Z.of_nat (length codeFiles)); [|simpl; auto].
  destruct (Shuffle codeFiles (rand_Seed (RandomSeed config))) as [[shuffled g']|];
    [|simpl; auto].
  destruct (slicePrefix shuffled (SampleFileCount config)); simpl; auto.
Qed.

(** C6.  The files [GetRepositoryContents] samples depend on the seed,
    the sample count and the ordered list of code files only: two runs
    with the same seed and count select the same files in the same
    order, whatever state the generator and the world are in.  With no
    more code files than the sample count, the list is returned as it
    is and the generator is not touched.  Two runs of
    [GetRepositoryContents] that differ in the state of the generator
    only end the same way.  On a lawful platform with a non-negative
    sample count the sampling returns, with as many files as the
    smaller of the sample count and the number of code files. *)
Theorem file_sampling_is_deterministic (codeFiles : list github.TreeEntry) :
  (forall (config' : GitHubConfig) (w1 w2 : World),
      RandomSeed config' = RandomSeed config ->
      SampleFileCount config' = SampleFileCount config ->
      value (sampleCodeFiles config codeFiles w1)
      = value (sampleCodeFiles config' codeFiles w2)) /\
  (forall w : World,
      Z.of_nat (length codeFiles) <= SampleFileCount config ->
      sampleCodeFiles config codeFiles w = Done codeFiles w) /\
  (forall (username repoName : string) (w1 w2 : World),
      remote w1 = remote w2 ->
      sameOutcome (GetRepositoryContents config username repoName w1)
                  (GetRepositoryContents config username repoName w2)) /\
  (LawfulPlatform ->
   0 <= SampleFileCount config ->
   forall w : World,
   exists sampled w',
     sampleCodeFiles config codeFiles w = Done sampled w' /\
     Z.of_nat (length sampled)
     = Z.min (Z.of_nat (length codeFiles)) (SampleFileCount config)).
Proof.
  split; [|split; [|split]].
  - intros config' w1 w2 Hseed Hcount. unfold sampleCodeFiles.
    rewrite Hseed, Hcount.
    destruct (SampleFileCount config <? Z.of_nat (length codeFiles)); [|reflexivity].
    destruct (Shuffle codeFiles (rand_Seed (RandomSeed config))) as [[shuffled g']|];
      [|reflexivity].
    destruct (slicePrefix shuffled (SampleFileCount config)); reflexivity.
  - intros w Hle. unfold sampleCodeFiles.
    destruct (SampleFileCount config <? Z.of_nat (length codeFiles)) eqn:E;
      [apply Z.ltb_lt in E; lia|reflexivity].
  - intros username repoName w1 w2 Hr. unfold GetRepositoryContents.
    apply sameOutcome_bind; [apply sameOutcome_call; exact Hr|].
    intros [entries|e] v1 v2 Hv; [|apply sameOutcome_ret; exact Hv].
    apply sameOutcome_bind; [apply sameOutcome_sampleCodeFiles; exact Hv|].
    intros sampled u1 u2 Hu.
    apply sameOutcome_bind; [apply sameOutcome_file_loop; exact Hu|].
    intros analyses t1 t2 Ht. apply sameOutcome_ret. exact Ht.
  - intros lawful Hk w.
    destruct (sampleCodeFiles_returns codeFiles w Hk) as (sampled & w' & Hrun & _ & Hlen).
    eauto.
Qed.

(** ** Selection of the repositories to analyse *)

Lemma moreRecent_strictWeakOrder (records : list Repository) :
  strictWeakOrder (moreRecent records).
Proof.
  unfold strictWeakOrder, moreRecent, After. split.
  - intros a b Hab. apply Z.ltb_lt in Hab. apply Z.ltb_ge. lia.
  - intros a b c Hab Hbc. apply Z.ltb_ge in Hab, Hbc. apply Z.ltb_ge. lia.
Qed.

Lemma StronglySorted_weaken {A : Type} (P Q : A -> A -> Prop) (l : list A) :
  (forall a b, P a b -> Q a b) -> StronglySorted P l -> StronglySorted Q l.
Proof.
  intros HPQ Hl. induction Hl as [|a l Hl IH Hall]; constructor; [exact IH|].
  eapply Forall_impl; [exact Hall|]. intros b. apply HPQ.
Qed.

(** C5.  When more repositories pass the recency filter than
    [SampledRepoCount], the repositories selected for analysis are
    [SampledRepoCount] of them, ordered by last update from the most
    recent on, and each was updated no earlier than each repository
    left out.  The selection does not read the seed and leaves the
    generator as it was.  (With a negative [SampledRepoCount] the
    slice expression panics and nothing is selected.) *)
Theorem recent_repositories_are_selected (records : list Repository) (candidates : list nat) :
  LawfulPlatform ->
  SampledRepoCount config < Z.of_nat (length candidates) ->
  (SampledRepoCount config < 0 -> selectRecent config records candidates = None) /\
  (0 <= SampledRepoCount config ->
   exists selected dropped,
     selectRecent config records candidates = Some selected /\
     Z.of_nat (length selected) = SampledRepoCount config /\
     Permutation (selected ++ dropped) candidates /\
     StronglySorted
       (fun p q => UpdatedAt (deref records q) <= UpdatedAt (deref records p))
       selected /\
     (forall p q,
         In p selected -> In q dropped ->
         UpdatedAt (deref records q) <= UpdatedAt (deref records p)) /\
     (forall seed,
         selectRecent (withRandomSeed seed config) records candidates = Some selected) /\
     (forall w : World,
         fromOption (selectRecent config records candidates) w = Done selected w)).
Proof.
  intros lawful Hlt. split.
  { intros Hneg. unfold selectRecent, slicePrefix.
    apply Z.ltb_lt in Hlt, Hneg. rewrite Hlt, Hneg. reflexivity. }
  intros Hk.
  pose proof (sort_Slice_perm _ (moreRecent records) candidates) as Hperm.
  pose proof (sort_Slice_sorted _ (moreRecent records) candidates
                (moreRecent_strictWeakOrder records)) as Hsorted.
  apply (StronglySorted_weaken _
           (fun p q => UpdatedAt (deref records q) <= UpdatedAt (deref records p)))
    in Hsorted.
  2:{ intros a b Hab. unfold moreRecent, After in Hab. apply Z.ltb_ge in Hab. exact Hab. }
  set (sorted := sort_Slice (moreRecent records) candidates) in *.
  set (k := Z.to_nat (SampledRepoCount config)).
  assert (Hsel : selectRecent config records candidates = Some (take k sorted)).
  { unfold selectRecent, slicePrefix. fold sorted.
    apply Z.ltb_lt in Hlt. rewrite Hlt.
    apply Permutation_length in Hperm. apply Z.ltb_lt in Hlt.
    destruct (SampledRepoCount config <? 0) eqn:E1; [apply Z.ltb_lt in E1; lia|].
    destruct (Z.of_nat (length sorted) <? SampledRepoCount config) eqn:E2;
      [apply Z.ltb_lt in E2; lia|].
    reflexivity. }
  rewrite <- (take_drop k sorted) in Hsorted, Hperm.
  exists (take k sorted), (drop k sorted).
  split; [exact Hsel|]. split; [|split; [exact Hperm|split; [|split; [|split]]]].
  - rewrite length_take. apply Permutation_length in Hperm.
    rewrite take_drop in Hperm. subst k. lia.
  - eapply StronglySorted_app_1_l. exact Hsorted.
  - intros p q Hp Hq.
    apply (StronglySorted_app_1_elem_of _ _ _ p q Hsorted); apply list_elem_of_In; assumption.
  - intros seed. rewrite <- Hsel. reflexivity.
  - intros w. rewrite Hsel. reflexivity.
Qed.

End Pipeline.

(** ** The reference platform is lawful *)

Lemma insertBy_perm {A : Type} (less : A -> A -> bool) (x : A) (l : list A) :
  Permutation (insertBy less x l) (x :: l).
Proof.
  induction l as [|y l IH]; simpl; [reflexivity|].
  destruct (less x y); [reflexivity|].
  rewrite IH. apply perm_swap.
Qed.

Lemma insertionSort_perm {A : Type} (less : A -> A -> bool) (l : list A) :
  Permutation (insertionSort less l) l.
Proof.
  induction l as [|x l IH]; simpl; [reflexivity|].
  rewrite insertBy_perm. apply perm_skip. exact IH.
Qed.

Lemma insertBy_sorted {A : Type} (less : A -> A -> bool) (x : A) (l : list A) :
  strictWeakOrder less ->
  StronglySorted (fun a b => less b a = false) l ->
  StronglySorted (fun a b => less b a = false) (insertBy less x l).
Proof.
  intros [Hasym Hneg] Hl.
  induction Hl as [|y l Hl IH Hall]; simpl.
  - constructor; constructor.
  - destruct (less x y) eqn:E.
    + constructor; [constructor; assumption|].
      constructor; [apply Hasym; exact E|].
      eapply Forall_impl; [exact Hall|]. intros z Hz. simpl in *.
      eapply Hneg; [exact Hz|]. apply Hasym. exact E.
    + constructor; [exact IH|].
      eapply Permutation_Forall; [symmetry; apply insertBy_perm|].
      constructor; assumption.
Qed.

Lemma insertionSort_sorted {A : Type} (less : A -> A -> bool) (l : list A) :
  strictWeakOrder less ->
  StronglySorted (fun a b => less b a = false) (insertionSort less l).
Proof.
  intros Hless. induction l as [|x l IH]; simpl; [constructor|].
  apply insertBy_sorted; assumption.
Qed.

#[export] Instance refPlatform_lawful : @LawfulPlatform refPlatform.
Proof.
  split.
  - intros A less l. apply insertionSort_perm.
  - intros A less l. apply insertionSort_sorted.
  - intros n g Hn. simpl. apply Z.mod_pos_bound. exact Hn.
Qed.

(** ** The audit on scripted environments *)

(** C1.  On an account whose only recent repository holds no commit of
    the user, the audit succeeds with one repository attempted, none
    analysed and none in error: the total is not the sum of the two
    lists.  In general the total is at least that sum, a repository
    without commits of the user being counted in the total only. *)
Theorem quiet_repository_breaks_the_total :
  (exists r w,
      runAudit quietScript demoConfig = Done (Ok r) w /\
      TotalReposAttempted (AuditResult_AnalysisSummary r) = 1 /\
      ReposAnalyzedForCode (AuditResult_AnalysisSummary r) = [] /\
      ReposWithErrors (AuditResult_AnalysisSummary r) = []) /\
  (forall (P : Platform) (R : Type) (E : Environment R) (config : GitHubConfig)
          (fuel : nat) (username : string) (w w' : World R Rng) (r : AuditResult),
      PerformFullAudit config fuel username w = Done (Ok r) w' ->
      Z.of_nat (length (ReposAnalyzedForCode (AuditResult_AnalysisSummary r))) +
      Z.of_nat (length (ReposWithErrors (AuditResult_AnalysisSummary r)))
      <= TotalReposAttempted (AuditResult_AnalysisSummary r)).
Proof.
  split.
  - eexists. eexists. split; [vm_compute; reflexivity|].
    split; [reflexivity|]. split; reflexivity.
  - intros P R E config fuel username w w' r Hrun.
    eapply attempted_bounds_recorded. exact Hrun.
Qed.

(** ** The properties at work on the scripts *)

Lemma repository_counts_witness :
  exists r w',
    runAudit mixedScript demoConfig = Done (Ok r) w' /\
    (let stats := Statistics (AuditResult_RepoStats r) in
     OriginalRepos stats + ForkedRepos stats = TotalRepos stats /\
     AnalysisRepos stats <= TotalRepos stats /\
     Z.of_nat (length (ReposAnalyzedForCode (AuditResult_AnalysisSummary r)))
     <= AnalysisRepos stats /\
     TotalRepos stats = 5 /\
     AnalysisRepos stats = 4 /\
     length (ReposAnalyzedForCode (AuditResult_AnalysisSummary r)) = 1%nat).
Proof.
  destruct (runAudit mixedScript demoConfig) as [[r|e] w'| |] eqn:Hrun;
    [|vm_compute in Hrun; discriminate Hrun..].
  exists r, w'. split; [reflexivity|].
  destruct (@repository_counts refPlatform nat (scripted mixedScript) demoConfig
              10 "octo" startWorld w' r Hrun) as (Hsum & Hle & Hana & _).
  split; [exact Hsum|]. split; [exact Hle|]. split; [exact Hana|].
  vm_compute in Hrun. injection Hrun as <- _. repeat split.
Defined.

Lemma no_significant_forks_witness :
  exists r w',
    runAudit mixedScript demoConfig = Done (Ok r) w' /\
    ForkedRepos (Statistics (AuditResult_RepoStats r)) = 2 /\
    SignificantForks (Statistics (AuditResult_RepoStats r)) = 0.
Proof.
  destruct (runAudit mixedScript demoConfig) as [[r|e] w'| |] eqn:Hrun;
    [|vm_compute in Hrun; discriminate Hrun..].
  exists r, w'. split; [reflexivity|].
  destruct (@no_significant_forks refPlatform nat (scripted mixedScript) demoConfig
              10 "octo" startWorld w' r Hrun) as [Hzero _].
  split; [|exact Hzero].
  vm_compute in Hrun. injection Hrun as <- _. reflexivity.
Defined.

Lemma recent_repositories_are_selected_witness :
  SampledRepoCount (withSampledRepoCount 2 demoConfig)
  < Z.of_nat (length [0; 1; 2; 3; 4]%nat) /\
  0 <= SampledRepoCount (withSampledRepoCount 2 demoConfig) /\
  exists dropped,
    @selectRecent refPlatform (withSampledRepoCount 2 demoConfig) fiveRecords
                  [0; 1; 2; 3; 4]%nat = Some [3; 1]%nat /\
    Permutation ([3; 1]%nat ++ dropped)%list [0; 1; 2; 3; 4]%nat /\
    (forall q, In q dropped ->
               UpdatedAt (deref fiveRecords q) <= UpdatedAt (deref fiveRecords 1)).
Proof.
  split; [vm_compute; reflexivity|]. split; [vm_compute; discriminate|].
  destruct (@recent_repositories_are_selected refPlatform nat
              (withSampledRepoCount 2 demoConfig) fiveRecords [0; 1; 2; 3; 4]%nat
              refPlatform_lawful ltac:(vm_compute; reflexivity))
    as [_ Hsome].
  destruct (Hsome ltac:(vm_compute; discriminate))
    as (selected & dropped & Hsel & _ & Hperm & _ & Hcross & _).
  assert (Hsel' : @selectRecent refPlatform (withSampledRepoCount 2 demoConfig)
                    fiveRecords [0; 1; 2; 3; 4]%nat = Some [3; 1]%nat)
    by (vm_compute; reflexivity).
  rewrite Hsel' in Hsel. injection Hsel as <-.
  exists dropped. split; [reflexivity|]. split; [exact Hperm|].
  intros q Hq. apply Hcross; [right; left; reflexivity|exact Hq].
Defined.

Lemma file_sampling_is_deterministic_witness :
  exists sampled,
    length sampled = 3%nat /\
    value (@sampleCodeFiles refPlatform nat demoConfig fiveFiles
             {| remote := 0%nat; rng := 0 |}) = Some sampled /\
    value (@sampleCodeFiles refPlatform nat (withSampledRepoCount 2 demoConfig)
             fiveFiles {| remote := 7%nat; rng := 99 |}) = Some sampled.
Proof.
  destruct (@file_sampling_is_deterministic refPlatform nat (scripted quietScript)
              demoConfig fiveFiles) as (Hsame & _ & _ & Hreturns).
  destruct (Hreturns refPlatform_lawful ltac:(vm_compute; discriminate)
              {| remote := 0%nat; rng := 0 |}) as (sampled & w' & Hrun & Hlen).
  exists sampled. split; [|split].
  - change (Z.of_nat (length sampled) = 3) in Hlen. lia.
  - rewrite Hrun. reflexivity.
  - rewrite <- (Hsame (withSampledRepoCount 2 demoConfig)
                      {| remote := 0%nat; rng := 0 |} {| remote := 7%nat; rng := 99 |}
                      eq_refl eq_refl).
    rewrite Hrun. reflexivity.
Defined.

Lemma mixedScript_answersFiles : @answersFiles nat (scripted mixedScript).
Proof.
  intros owner repo path n. simpl.
  destruct (String.eqb path "main.go"); discriminate.
Defined.

Lemma fatal_fetches_and_recorded_failures_witness :
  exists r w',
    runAudit mixedScript demoConfig = Done (Ok r) w' /\
    In "api" (ReposWithErrors (AuditResult_AnalysisSummary r)).
Proof.
  destruct (@fatal_fetches_and_recorded_failures refPlatform nat
              (scripted mixedScript) demoConfig 10 "octo" startWorld)
    as (_ & Hrecorded & Hreturns).
  edestruct Hreturns as (r & w' & Hrun).
  - exact refPlatform_lawful.
  - vm_compute. discriminate.
  - vm_compute. discriminate.
  - exact mixedScript_answersFiles.
  - vm_compute. reflexivity.
  - vm_compute. reflexivity.
  - exists r, w'. split; [exact Hrun|].
    edestruct Hrecorded with (pre := @nil nat) (p := 0%nat) (post := [1; 2; 3]%nat)
      as (r0 & Hr0 & Hin); [| |exact Hrun|].
    + unfold reaches. eexists _, _, _.
      split; [vm_compute; reflexivity|].
      split; [vm_compute; reflexivity|].
      split; [vm_compute; reflexivity|].
      reflexivity.
    + left. unfold commitFetch. eexists _, _, _, _.
      split; vm_compute; reflexivity.
    + injection Hr0 as <-. exact Hin.
Defined.

Lemma tree_failure_keeps_commits_witness :
  exists r w',
    runAudit mixedScript demoConfig = Done (Ok r) w' /\
    In "web" (ReposWithErrors (AuditResult_AnalysisSummary r)) /\
    ~ In "web" (ReposAnalyzedForCode (AuditResult_AnalysisSummary r)) /\
    exists before after commits,
      length commits = 2%nat /\
      CommitDetails r = (before ++ commits ++ after)%list.
Proof.
  destruct (runAudit mixedScript demoConfig) as [[r|e] w'| |] eqn:Hrun;
    [|vm_compute in Hrun; discriminate Hrun..].
  exists r, w'. split; [reflexivity|].
  unfold runAudit in Hrun.
  edestruct (@tree_failure_keeps_commits refPlatform nat (scripted mixedScript)
               demoConfig 10 "octo" startWorld)
    with (pre := [0]%nat) (p := 1%nat) (post := [2; 3]%nat)
    as (Hin & (before & after & Hcommits) & _ & Habsent);
    [| | | |exact Hrun|].
  - unfold reaches. eexists _, _, _.
    split; [vm_compute; reflexivity|].
    split; [vm_compute; reflexivity|].
    split; [vm_compute; reflexivity|].
    vm_compute. reflexivity.
  - unfold commitFetch. eexists _, _. split; vm_compute; reflexivity.
  - discriminate.
  - vm_compute. reflexivity.
  - split; [exact Hin|]. split.
    + apply Habsent. intros q [<-|[<-|[<-|[]]]]; vm_compute; discriminate.
    + eexists before, after, _. split; [|exact Hcommits]. reflexivity.
Defined.

Lemma file_failures_are_silent_witness :
  exists r w',
    runAudit mixedScript demoConfig = Done (Ok r) w' /\
    In "lib" (ReposAnalyzedForCode (AuditResult_AnalysisSummary r)) /\
    exists repo,
      In repo (RepoStats_OriginalRepos (AuditResult_RepoStats r) ++
               RepoStats_ForkedRepos (AuditResult_RepoStats r))%list /\
      Name repo = "lib" /\
      IncludeAnalysis repo = true.
Proof.
  destruct (runAudit mixedScript demoConfig) as [[r|e] w'| |] eqn:Hrun;
    [|vm_compute in Hrun; discriminate Hrun..].
  exists r, w'. split; [reflexivity|].
  unfold runAudit in Hrun.
  destruct (@file_failures_are_silent refPlatform nat (scripted mixedScript)
              demoConfig "octo") as (_ & _ & Hturn & _).
  edestruct (Hturn refPlatform_lawful 10%nat startWorld)
    with (pre := [0; 1]%nat) (p := 2%nat) (post := [3]%nat)
    as (_ & Hin & repo & Hrepo & Hname & Hflag);
    [| | | |exact Hrun|].
  - unfold reaches. eexists _, _, _.
    split; [vm_compute; reflexivity|].
    split; [vm_compute; reflexivity|].
    split; [vm_compute; reflexivity|].
    vm_compute. reflexivity.
  - unfold commitFetch. eexists _, _. split; vm_compute; reflexivity.
  - discriminate.
  - vm_compute. reflexivity.
  - split; [exact Hin|]. exists repo. auto.
Defined.

(** C8, as stated, fails on the twin script: the tree fetch of the
    first repository fails after its commit fetch returned a commit,
    and its name is in [ReposAnalyzedForCode] all the same, put there
    by the second repository of that name. *)
Lemma twin_repository_is_listed_as_analysed :
  exists records st w1 commits w3 e w4 r w',
    @reaches refPlatform nat (scripted twinScript) demoConfig 10 "octo" startWorld
             records [] 0%nat [1]%nat st w1 /\
    @commitFetch refPlatform nat (scripted twinScript) demoConfig "octo"
                 (Name (deref records 0)) w1 (Ok commits) w3 /\
    commits <> [] /\
    @GetRepositoryContents refPlatform nat (scripted twinScript) demoConfig "octo"
                           (Name (deref records 0)) w3 = Done (Err e) w4 /\
    runAudit twinScript demoConfig = Done (Ok r) w' /\
    In (Name (deref records 0))
       (ReposAnalyzedForCode (AuditResult_AnalysisSummary r)).
Proof.
  eexists _, _, _, _, _, _, _, _, _.
  split.
  { unfold reaches. eexists _, _, _.
    split; [vm_compute; reflexivity|].
    split; [vm_compute; reflexivity|].
    split; [vm_compute; reflexivity|].
    reflexivity. }
  split.
  { unfold commitFetch. eexists _, _. split; vm_compute; reflexivity. }
  split; [discriminate|].
  split; [vm_compute; reflexivity|].
  split; [vm_compute; reflexivity|].
  vm_compute. left. reflexivity.
Qed.

(** * Further properties of the classifier and the scorers *)

(** ** Strings *)

Lemma append_cons (c : ascii) (s t : string) :
  (String c s ++ t)%string = String c (s ++ t).
Proof. reflexivity. Qed.

Lemma append_nil_r (s : string) : (s ++ "")%string = s.
Proof.
  induction s as [|c s IH]; [reflexivity|]. rewrite append_cons, IH. reflexivity.
Qed.

Lemma append_assoc (a b c : string) :
  ((a ++ b) ++ c)%string = (a ++ (b ++ c))%string.
Proof.
  induction a as [|x a IH]; [reflexivity|]. rewrite !append_cons, IH. reflexivity.
Qed.

Lemma list_ascii_of_string_app (a b : string) :
  list_ascii_of_string (a ++ b)
  = (list_ascii_of_string a ++ list_ascii_of_string b)%list.
Proof.
  induction a as [|x a IH]; [reflexivity|]. rewrite append_cons. simpl.
  rewrite IH. reflexivity.
Qed.

Lemma HasPrefix_byte (c b : ascii) (r : string) :
  HasPrefix (String c r) (String b "") = Ascii.eqb c b.
Proof.
  unfold HasPrefix. simpl. destruct (ascii_dec b c) as [<-|Hne].
  - rewrite Ascii.eqb_refl. destruct r; reflexivity.
  - symmetry. apply Ascii.eqb_neq. congruence.
Qed.

Lemma hasByte_Forall (b : ascii) (s : string) :
  hasByte b s = false <->
  Forall (fun c => Ascii.eqb c b = false) (list_ascii_of_string s).
Proof.
  induction s as [|c s IH]; simpl.
  - split; [constructor|reflexivity].
  - rewrite orb_false_iff, IH. split.
    + intros [Hc Hs]. constructor; assumption.
    + intros Hall. inversion Hall; subst. auto.
Qed.

Lemma hasByte_Exists (b : ascii) (s : string) :
  hasByte b s = true ->
  Exists (fun c => Ascii.eqb c b = true) (list_ascii_of_string s).
Proof.
  induction s as [|c s IH]; simpl; [discriminate|].
  intros Hs. apply orb_true_iff in Hs as [Hc|Hs].
  - apply Exists_cons_hd. exact Hc.
  - apply Exists_cons_tl. apply IH. exact Hs.
Qed.

Lemma hasByte_app (b : ascii) (s t : string) :
  hasByte b (s ++ t) = hasByte b s || hasByte b t.
Proof.
  induction s as [|c s IH]; [reflexivity|]. rewrite append_cons. simpl.
  rewrite IH, orb_assoc. reflexivity.
Qed.

(** A string has no dot, or a last one. *)
Lemma last_dot (s : string) :
  hasByte "." s = false \/
  exists pre suf, s = (pre ++ "." ++ suf)%string /\ hasByte "." suf = false.
Proof.
  induction s as [|c s [IH|(pre & suf & -> & Hsuf)]].
  - left. reflexivity.
  - simpl. destruct (Ascii.eqb c ".") eqn:E.
    + right. apply Ascii.eqb_eq in E as ->. exists "", s. auto.
    + left. exact IH.
  - right. exists (String c pre), suf. auto.
Qed.

(** ** Splitting at dots and [filepath.Ext] *)

Lemma Split_noDot (s cur : string) :
  hasByte "." s = false -> Split_from "." s 0 cur = [(cur ++ s)%string].
Proof.
  revert cur. induction s as [|c s IH]; intros cur Hs; cbn [Split_from].
  - rewrite append_nil_r. reflexivity.
  - simpl in Hs. apply orb_false_iff in Hs as [Hc Hs].
    rewrite HasPrefix_byte, Hc, IH by exact Hs.
    rewrite append_assoc. reflexivity.
Qed.

Lemma Split_dot (pre suf cur : string) :
  hasByte "." suf = false ->
  exists init,
    init <> [] /\
    Split_from "." (pre ++ "." ++ suf) 0 cur = (init ++ [suf])%list.
Proof.
  intros Hsuf. revert cur. induction pre as [|c pre IH]; intros cur.
  - exists [cur]. split; [discriminate|].
    change ("" ++ "." ++ suf)%string with (String "." suf).
    cbn [Split_from]. rewrite HasPrefix_byte, Ascii.eqb_refl.
    cbn [String.length Nat.sub]. rewrite Split_noDot by exact Hsuf. reflexivity.
  - change (String c pre ++ "." ++ suf)%string with (String c (pre ++ "." ++ suf)).
    cbn [Split_from]. rewrite HasPrefix_byte.
    destruct (Ascii.eqb c ".").
    + cbn [String.length Nat.sub]. destruct (IH "") as (init & _ & ->).
      exists (cur :: init). split; [discriminate|reflexivity].
    + apply IH.
Qed.

Lemma Ext_loop_pass (a rest acc : list ascii) :
  Forall (fun c => Ascii.eqb c "/" = false) a ->
  Forall (fun c => Ascii.eqb c "." = false) a ->
  Ext_loop (a ++ rest) acc = Ext_loop rest (rev a ++ acc).
Proof.
  revert acc. induction a as [|c a IH]; intros acc Hslash Hdot; [reflexivity|].
  pose proof (Forall_inv Hslash) as Hc1. pose proof (Forall_inv Hdot) as Hc2.
  apply Forall_inv_tail in Hslash, Hdot. simpl.
  rewrite Hc1, Hc2, IH by assumption. rewrite <- app_assoc. reflexivity.
Qed.

Lemma Ext_loop_stopped (a rest acc : list ascii) :
  Forall (fun c => Ascii.eqb c "." = false) a ->
  Exists (fun c => Ascii.eqb c "/" = true) a ->
  Ext_loop (a ++ rest) acc = "".
Proof.
  revert acc. induction a as [|c a IH]; intros acc Hdot Hslash;
    [inversion Hslash|].
  pose proof (Forall_inv Hdot) as Hc. apply Forall_inv_tail in Hdot. simpl.
  destruct (Ascii.eqb c "/") eqn:E; [reflexivity|].
  rewrite Hc. apply IH; [assumption|].
  apply Exists_cons in Hslash as [Hslash|Hslash]; [congruence|assumption].
Qed.

Lemma Ext_loop_noDot (a acc : list ascii) :
  Forall (fun c => Ascii.eqb c "." = false) a -> Ext_loop a acc = "".
Proof.
  revert acc. induction a as [|c a IH]; intros acc Hdot; [reflexivity|].
  pose proof (Forall_inv Hdot) as Hc. apply Forall_inv_tail in Hdot. simpl.
  rewrite Hc. destruct (Ascii.eqb c "/"); [reflexivity|]. apply IH. assumption.
Qed.

Lemma Ext_noDot (path : string) : hasByte "." path = false -> Ext path = "".
Proof.
  intros Hs. unfold Ext. apply Ext_loop_noDot.
  apply Forall_rev. apply hasByte_Forall. exact Hs.
Qed.

Lemma rev_path (pre suf : string) :
  rev (list_ascii_of_string (pre ++ "." ++ suf))
  = (rev (list_ascii_of_string suf) ++ "."%char :: rev (list_ascii_of_string pre))%list.
Proof.
  rewrite list_ascii_of_string_app. simpl. rewrite rev_app_distr. simpl.
  rewrite <- app_assoc. reflexivity.
Qed.

Lemma Ext_dot (pre suf : string) :
  hasByte "." suf = false ->
  Ext (pre ++ "." ++ suf)
  = if hasByte "/" suf then "" else String "." suf.
Proof.
  intros Hdot. unfold Ext. rewrite rev_path.
  apply hasByte_Forall in Hdot. apply Forall_rev in Hdot.
  destruct (hasByte "/" suf) eqn:Hslash.
  - apply Ext_loop_stopped; [exact Hdot|].
    apply hasByte_Exists in Hslash. apply List.Exists_exists in Hslash as (c & Hin & Hc).
    apply List.Exists_exists. exists c. split; [apply in_rev in Hin; exact Hin|exact Hc].
  - apply hasByte_Forall in Hslash. apply Forall_rev in Hslash.
    rewrite Ext_loop_pass by assumption. simpl.
    rewrite rev_involutive, app_nil_r, string_of_list_ascii_of_string. reflexivity.
Qed.

Section Classifier.

Context `{Platform}.

(** ** Lower case *)

Lemma isASCII_app (s t : string) : isASCII (s ++ t) = isASCII s && isASCII t.
Proof.
  induction s as [|c s IH]; [reflexivity|]. rewrite append_cons. simpl.
  rewrite IH, andb_assoc. reflexivity.
Qed.

Lemma ToLower_ascii (s : string) : isASCII s = true -> ToLower s = mapBytes lowerByte s.
Proof. intros Hs. unfold ToLower. rewrite Hs. reflexivity. Qed.

Lemma lowerByte_slash (c : ascii) :
  Ascii.eqb (lowerByte c) "/" = Ascii.eqb c "/".
Proof. destruct c as [[] [] [] [] [] [] [] []]; reflexivity. Qed.

Lemma hasByte_lower (s : string) :
  hasByte "/" (mapBytes lowerByte s) = hasByte "/" s.
Proof.
  induction s as [|c s IH]; simpl; [reflexivity|].
  rewrite lowerByte_slash, IH. reflexivity.
Qed.

(** ** The two tables *)

Lemma codeExtensions_keys (ext : string) (b : bool) :
  codeExtensions !! ext = Some b ->
  b = true /\ hasByte "/" ext = false /\
  (is_Some (languages !! ext) \/ ext = ".cc" \/ ext = ".cxx").
Proof.
  intros Hk. unfold codeExtensions in Hk. apply elem_of_list_to_map_2 in Hk.
  repeat (apply elem_of_cons in Hk as [Hk|Hk];
          [injection Hk as -> ->;
           split; [reflexivity|]; split; [reflexivity|];
           first [ left; vm_compute; eexists; reflexivity
                 | right; left; reflexivity
                 | right; right; reflexivity ]|]).
  apply elem_of_nil in Hk. destruct Hk.
Qed.

Lemma languages_keys (ext lang : string) :
  languages !! ext = Some lang ->
  codeExtensions !! ext = Some true /\ lang <> "Unknown".
Proof.
  intros Hk. unfold languages in Hk. apply elem_of_list_to_map_2 in Hk.
  repeat (apply elem_of_cons in Hk as [Hk|Hk];
          [injection Hk as -> ->; split; [vm_compute; reflexivity|discriminate]|]).
  apply elem_of_nil in Hk. destruct Hk.
Qed.

(** ** [isCodeFile] and [filepath.Ext] *)

Lemma isCodeFile_Ext (path : string) :
  isASCII path = true ->
  isCodeFile path = default false (codeExtensions !! ToLower (Ext path)).
Proof.
  intros Hascii. unfold isCodeFile, Split. cbv zeta.
  destruct (last_dot path) as [Hnone|(pre & suf & -> & Hsuf)].
  - rewrite Split_noDot, Ext_noDot by exact Hnone. reflexivity.
  - destruct (Split_dot pre suf "" Hsuf) as (init & Hinit & ->).
    rewrite length_app, last_last, Ext_dot by exact Hsuf.
    rewrite !isASCII_app in Hascii.
    apply andb_prop in Hascii as [_ Hascii]. apply andb_prop in Hascii as [_ Hascii].
    assert (Hlen : (Z.of_nat (length init + length [suf]) <? 2) = false).
    { apply Z.ltb_ge. destruct init; [congruence|]. simpl. lia. }
    rewrite Hlen.
    assert (Hext : ToLower (String "." suf) = ("." ++ ToLower suf)%string).
    { rewrite !ToLower_ascii; [reflexivity|exact Hascii|simpl; exact Hascii]. }
    destruct (hasByte "/" suf) eqn:Hslash.
    + destruct (codeExtensions !! ("." ++ ToLower suf)%string) as [b|] eqn:Hk;
        [|reflexivity].
      apply codeExtensions_keys in Hk as (_ & Hclean & _).
      rewrite ToLower_ascii in Hclean by exact Hascii.
      rewrite hasByte_app, hasByte_lower, Hslash in Hclean. discriminate Hclean.
    + rewrite Hext. reflexivity.
Qed.

(** X1.  On a path of ASCII bytes [isCodeFile] looks up the lower-cased
    extension that [filepath.Ext] gives, although it finds the
    extension by splitting at dots.  So a path to which
    [detectLanguage] gives a language is a code file, and a code file
    without a language ends in [.cc] or [.cxx]. *)
Theorem classifier_follows_the_extension (path : string) :
  isASCII path = true ->
  isCodeFile path = default false (codeExtensions !! ToLower (Ext path)) /\
  (detectLanguage path <> "Unknown" -> isCodeFile path = true) /\
  (isCodeFile path = true ->
   detectLanguage path = "Unknown" ->
   ToLower (Ext path) = ".cc" \/ ToLower (Ext path) = ".cxx").
Proof.
  intros Hascii. pose proof (isCodeFile_Ext path Hascii) as Hcode.
  split; [exact Hcode|]. rewrite Hcode. unfold detectLanguage. cbv zeta.
  destruct (languages !! ToLower (Ext path)) as [lang|] eqn:Hlang.
  - apply languages_keys in Hlang as [-> Hknown]. split; [reflexivity|].
    intros _ Hunknown. congruence.
  - split; [congruence|]. intros Htrue _.
    destruct (codeExtensions !! ToLower (Ext path)) as [b|] eqn:Hk; [|discriminate].
    apply codeExtensions_keys in Hk as (_ & _ & [[lang Hsome]|Hcc]);
      [congruence|exact Hcc].
Qed.

(** ** Test indicators *)

Lemma HasPrefix_app (s a b : string) :
  HasPrefix s (a ++ b) = true -> HasPrefix s a = true.
Proof.
  unfold HasPrefix. revert s. induction a as [|x a IH]; intros s.
  - intros _. destruct s; reflexivity.
  - rewrite append_cons. destruct s as [|y s]; simpl; [discriminate|].
    destruct (ascii_dec x y); [apply IH|discriminate].
Qed.

Lemma Contains_front (s a b : string) :
  Contains s (a ++ b) = true -> Contains s a = true.
Proof.
  induction s as [|c s IH]; cbn [Contains].
  - rewrite !orb_false_r. apply HasPrefix_app.
  - intros Hc. apply orb_true_iff in Hc as [Hc|Hc].
    + apply HasPrefix_app in Hc. rewrite Hc. reflexivity.
    + rewrite (IH Hc). apply orb_true_r.
Qed.

Lemma Contains_HasPrefix (s b : string) : HasPrefix s b = true -> Contains s b = true.
Proof. intros Hp. destruct s; cbn [Contains]; rewrite Hp; reflexivity. Qed.

Lemma Contains_back (s : string) (c : ascii) (b : string) :
  Contains s (String c b) = true -> Contains s b = true.
Proof.
  induction s as [|d s IH]; cbn [Contains].
  - discriminate.
  - intros Hc. apply orb_true_iff in Hc as [Hc|Hc].
    + unfold HasPrefix in Hc. simpl in Hc.
      destruct (ascii_dec c d); [|discriminate].
      rewrite (Contains_HasPrefix s b Hc). apply orb_true_r.
    + rewrite (IH Hc). apply orb_true_r.
Qed.

(** X2.  [hasTestIndicators] compares in lower case, so that of its
    fifteen indicators only seven matter: the content has a test
    indicator exactly when its lower-cased form contains one of
    [test], [assert], [expect], [should], [describe], [it(] and
    [t.run]. *)
Theorem seven_indicators_decide (content : string) :
  hasTestIndicators content
  = existsb (fun indicator => Contains (ToLower content) indicator)
            [ "test"; "assert"; "expect"; "should"; "describe"; "it("; "t.run" ].
Proof.
  unfold hasTestIndicators. cbv zeta. generalize (ToLower content). intros s.
  assert (Hlower : map ToLower testIndicators
                   = [ "test"; "test"; "test"; "assert"; "assert"; "expect";
                       "expect"; "should"; "should"; "describe"; "it("; "@test";
                       "unittest"; "testing.t"; "t.run" ])
    by (vm_compute; reflexivity).
  transitivity (existsb (Contains s) (map ToLower testIndicators)).
  { generalize testIndicators. intros l.
    induction l as [|x l IH]; simpl; [reflexivity|]. rewrite IH. reflexivity. }
  rewrite Hlower. cbn [existsb].
  destruct (Contains s "test") eqn:Htest; [reflexivity|].
  assert (H1 : Contains s "@test" = false).
  { destruct (Contains s "@test") eqn:E; [|reflexivity].
    apply Contains_back in E. congruence. }
  assert (H2 : Contains s "unittest" = false).
  { destruct (Contains s "unittest") eqn:E; [|reflexivity].
    do 4 apply Contains_back in E. congruence. }
  assert (H3 : Contains s "testing.t" = false).
  { destruct (Contains s "testing.t") eqn:E; [|reflexivity].
    apply (Contains_front s "test" "ing.t") in E. congruence. }
  rewrite H1, H2, H3.
  destruct (Contains s "assert"), (Contains s "expect"), (Contains s "should"),
    (Contains s "describe"), (Contains s "it("), (Contains s "t.run"); reflexivity.
Qed.

(** ** Lines *)

Lemma Split_from_length (sep s : string) (skip : nat) (cur : string) :
  Z.of_nat (length (Split_from sep s skip cur)) = 1 + Count_from sep s skip.
Proof.
  revert skip cur. induction s as [|c s IH]; intros skip cur;
    cbn [Split_from Count_from]; [reflexivity|].
  destruct skip as [|k]; [|apply IH].
  destruct (HasPrefix (String c s) sep); [|apply IH].
  cbn [length]. rewrite Nat2Z.inj_succ, IH. symmetry. apply Z.add_1_l.
Qed.

Lemma Count_from_nonneg (sep s : string) (skip : nat) : 0 <= Count_from sep s skip.
Proof.
  pose proof (Split_from_length sep s skip "") as Hlen.
  pose proof (Split_from_nonempty sep s skip "") as Hne.
  destruct (Split_from sep s skip "") as [|x l]; [congruence|].
  simpl length in Hlen. lia.
Qed.

End Classifier.

(** ** The counters of [assessCodeQuality] *)

Section Counters.

Context `{Platform}.

Lemma countLine_step (acc : lineCounts) (line : string) :
  let acc' := countLine acc line in
  commentLines acc <= commentLines acc' /\
  emptyLines acc <= emptyLines acc' /\
  longLines acc <= longLines acc' <= longLines acc + 1 /\
  commentLines acc' + emptyLines acc' <= commentLines acc + emptyLines acc + 1.
Proof.
  unfold countLine. cbv zeta.
  destruct (String.eqb (TrimSpace line) "");
    [|destruct (HasPrefix (TrimSpace line) "//" || HasPrefix (TrimSpace line) "#"
               || HasPrefix (TrimSpace line) "/*")];
    destruct (120 <? len line); simpl; lia.
Qed.

(** X3.  The loop of [assessCodeQuality] counts a line as empty or
    as a comment, never as both, and as long at most once: none of
    its counters is negative, comment and empty lines together do not
    exceed the number of lines, and neither do the long lines. *)
Theorem line_counters_are_bounded (lines : list string) :
  let counts :=
    fold_left countLine lines
              {| commentLines := 0; emptyLines := 0; longLines := 0 |} in
  0 <= commentLines counts /\
  0 <= emptyLines counts /\
  0 <= longLines counts /\
  commentLines counts + emptyLines counts <= Z.of_nat (length lines) /\
  longLines counts <= Z.of_nat (length lines).
Proof.
  cbv zeta.
  assert (Hgen : forall acc,
             let counts := fold_left countLine lines acc in
             commentLines acc <= commentLines counts /\
             emptyLines acc <= emptyLines counts /\
             longLines acc <= longLines counts /\
             commentLines counts + emptyLines counts
             <= commentLines acc + emptyLines acc + Z.of_nat (length lines) /\
             longLines counts <= longLines acc + Z.of_nat (length lines)).
  { induction lines as [|line lines IH]; intros acc; cbv zeta.
    - simpl. lia.
    - cbn [fold_left length]. rewrite Nat2Z.inj_succ.
      pose proof (countLine_step acc line) as Hstep. cbv zeta in Hstep.
      pose proof (IH (countLine acc line)) as Hrest. cbv zeta in Hrest. lia. }
  pose proof (Hgen {| commentLines := 0; emptyLines := 0; longLines := 0 |}) as Hzero.
  cbv zeta in Hzero. simpl in Hzero. lia.
Qed.

End Counters.

(** * Further properties of the service *)

Section Fetches.

Context `{Platform} {R : Type} `{Environment R}.
Variable config : GitHubConfig.
Abbreviation World := (World R Rng).

(** ** Commits *)

Lemma commit_loop_details (username name : string)
      (commits : list github.RepositoryCommit) (acc : list CommitDetail)
      (w w' : World) (details : list CommitDetail) :
  forRange (commitDetail username name) commits acc w = Done details w' ->
  exists added,
    details = (acc ++ added)%list /\
    map SHA added = map github.SHA commits /\
    map Message added = map github.Message commits /\
    map Author added = map github.AuthorName commits /\
    Forall (fun d => CommitDetail_Repo d = name) added.
Proof.
  revert acc w. induction commits as [|c commits IH]; intros acc w Hrun; simpl in Hrun.
  - injection Hrun as <- _. exists []. rewrite app_nil_r. repeat split; constructor.
  - apply bind_Done in Hrun as (acc1 & w1 & Hstep & Hrest).
    unfold commitDetail in Hstep.
    apply bind_Done in Hstep as (reply & w0 & _ & Hret).
    injection Hret as <- _.
    apply IH in Hrest as (added & -> & Hsha & Hmsg & Hauthor & Hrepo).
    eexists (_ :: added). rewrite <- app_assoc. simpl.
    split; [reflexivity|]. rewrite Hsha, Hmsg, Hauthor.
    repeat split; try reflexivity. constructor; [reflexivity|exact Hrepo].
Qed.

(** X4.  [GetRepositoryCommits] fails exactly when the commit listing
    fails, with the listing's error wrapped once.  Otherwise it
    returns one detail for each listed commit, in the listed order,
    with the commit's hash, message and author and the repository's
    name, whatever the requests for the changed files answer. *)
Theorem commits_follow_the_listing (username name : string) (count : Z) (w : World) :
  match fst (Repositories_ListCommits username name username count (remote w)) with
  | Err e0 =>
      exists w',
        GetRepositoryCommits username name count w
        = Done (Err (Errorf ("failed to get commits for " ++ username ++ "/" ++ name) e0)) w'
  | Ok commits =>
      exists details w',
        GetRepositoryCommits username name count w = Done (Ok details) w' /\
        map SHA details = map github.SHA commits /\
        map Message details = map github.Message commits /\
        map Author details = map github.AuthorName commits /\
        Forall (fun d => CommitDetail_Repo d = name) details
  end.
Proof.
  destruct (Repositories_ListCommits username name username count (remote w))
    as [[commits|e0] r'] eqn:Hreply; simpl.
  - destruct (commit_loop_returns username name commits []
                {| remote := r'; rng := rng w |}) as (details & w2 & Hrun & _).
    exists details, w2. split.
    + unfold GetRepositoryCommits, bind, call. rewrite Hreply, Hrun. reflexivity.
    + apply commit_loop_details in Hrun as (added & -> & Hsha & Hmsg & Hauthor & Hrepo).
      change ([] ++ added)%list with added. repeat split; assumption.
  - eexists. unfold GetRepositoryCommits, bind, call. rewrite Hreply. reflexivity.
Qed.

(** ** The sampler *)

Lemma insert_found_perm {A : Type} (l : list A) (j : nat) (b x : A) :
  l !! j = Some b -> Permutation (b :: <[j := x]> l) (x :: l).
Proof.
  revert j. induction l as [|y l IH]; intros j Hj; [destruct j; discriminate|].
  destruct j as [|j]; simpl in *.
  - injection Hj as ->. apply perm_swap.
  - etransitivity; [apply perm_swap|].
    etransitivity; [apply perm_skip, IH, Hj|]. apply perm_swap.
Qed.

Lemma swap_perm {A : Type} (xs xs' : list A) (i j : Z) :
  swap xs i j = Some xs' -> Permutation xs' xs.
Proof.
  unfold swap, index.
  destruct (i <? 0); [simpl; discriminate|].
  destruct (j <? 0); [destruct (xs !! Z.to_nat i); discriminate|].
  generalize (Z.to_nat i) (Z.to_nat j). clear i j. intros i j.
  destruct (xs !! i) as [a|] eqn:Hi; [|discriminate].
  destruct (xs !! j) as [b|] eqn:Hj; [|discriminate].
  intros Heq. injection Heq as <-.
  revert i j Hi Hj. induction xs as [|y xs IH]; intros i j Hi Hj;
    [destruct i; discriminate|].
  destruct i as [|i], j as [|j]; simpl in *.
  - injection Hi as ->. injection Hj as ->. reflexivity.
  - injection Hi as ->. apply insert_found_perm. exact Hj.
  - injection Hj as ->.
    etransitivity; [apply perm_skip|]; [|apply insert_found_perm; exact Hi].
    reflexivity.
  - apply perm_skip. apply IH; assumption.
Qed.

Lemma Shuffle_from_perm {A : Type} (i : nat) (xs xs' : list A) (g g' : Rng) :
  Shuffle_from i xs g = Some (xs', g') -> Permutation xs' xs.
Proof.
  revert xs g. induction i as [|i IH]; intros xs g; simpl.
  - intros Heq. injection Heq as <- _. reflexivity.
  - destruct (rand_Intn (Z.of_nat (S i) + 1) g) as [j g1].
    destruct (swap xs (Z.of_nat (S i)) j) as [xs1|] eqn:Hswap; [|discriminate].
    intros Hrest. apply IH in Hrest. apply swap_perm in Hswap.
    etransitivity; eassumption.
Qed.

Lemma sampleCodeFiles_take (codeFiles sampled : list github.TreeEntry) (w w' : World) :
  sampleCodeFiles config codeFiles w = Done sampled w' ->
  exists shuffled,
    Permutation shuffled codeFiles /\
    sampled = take (Z.to_nat (SampleFileCount config)) shuffled /\
    0 <= SampleFileCount config /\
    remote w' = remote w.
Proof.
  unfold sampleCodeFiles.
  destruct (SampleFileCount config <? Z.of_nat (length codeFiles)) eqn:E.
  - unfold Shuffle.
    destruct (Shuffle_from _ _ _) as [[shuffled g']|] eqn:Hshuffle; [|discriminate].
    unfold slicePrefix.
    destruct (SampleFileCount config <? 0) eqn:E1; [discriminate|].
    destruct (Z.of_nat (length shuffled) <? SampleFileCount config) eqn:E2;
      [discriminate|].
    simpl. intros Heq. injection Heq as <- <-. simpl.
    apply Shuffle_from_perm in Hshuffle. apply Z.ltb_ge in E1.
    exists shuffled. auto.
  - intros Heq. injection Heq as <- <-. apply Z.ltb_ge in E.
    exists codeFiles. split; [reflexivity|].
    split; [symmetry; apply take_ge; lia|]. split; [lia|reflexivity].
Qed.

(** X5.  Whatever the generator draws, the files the sampler returns
    are files of the candidate list, each as often as it is listed at
    most; sampling sends no request; and the number of files returned
    is the smaller of the number of candidates and [SampleFileCount]. *)
Theorem sample_is_drawn_from_the_candidates (codeFiles sampled : list github.TreeEntry)
        (w w' : World) :
  sampleCodeFiles config codeFiles w = Done sampled w' ->
  (exists rest, Permutation (sampled ++ rest) codeFiles) /\
  remote w' = remote w /\
  Z.of_nat (length sampled)
  = Z.min (Z.of_nat (length codeFiles)) (SampleFileCount config).
Proof.
  intros Hrun.
  apply sampleCodeFiles_take in Hrun as (shuffled & Hperm & -> & Hk & Hremote).
  split; [|split; [exact Hremote|]].
  - exists (drop (Z.to_nat (SampleFileCount config)) shuffled).
    rewrite take_drop. exact Hperm.
  - rewrite length_take, <- (Permutation_length Hperm). lia.
Qed.

(** ** File contents *)

(** What [analyzeFile] records about a file of repository [name]. *)
Lemma analyzeFile_Some (username name : string) (file : github.TreeEntry)
      (w w' : World) (a : FileAnalysis) :
  analyzeFile username name file w = Done (Some a) w' ->
  Repo a = name /\
  Path a = github.Path file /\
  Language a = detectLanguage (github.Path file) /\
  Size a = len (Content a) /\
  Lines a = 1 + Count (Content a) LF /\
  HasTests a = hasTestIndicators (Content a).
Proof.
  unfold analyzeFile, bind, call.
  destruct (Repositories_GetContents username name (github.Path file) (remote w))
    as [[[content|]|e] r']; simpl; try discriminate.
  destruct (github.Content content) as [encoded|]; [|discriminate].
  destruct (base64_DecodeString encoded) as [decoded|e]; [|discriminate].
  unfold ret. intros Heq. injection Heq as <- _. simpl.
  repeat split; try reflexivity.
  unfold Split, Count. apply Split_from_length.
Qed.

Lemma file_loop_analyses (username name : string) (files : list github.TreeEntry)
      (acc out : list FileAnalysis) (w w' : World) :
  forRange (analyzeInto username name) files acc w = Done out w' ->
  exists added,
    out = (acc ++ added)%list /\
    (length added <= length files)%nat /\
    Forall (fun a =>
              Repo a = name /\
              (exists file, In file files /\ Path a = github.Path file) /\
              Language a = detectLanguage (Path a) /\
              Size a = len (Content a) /\
              Lines a = 1 + Count (Content a) LF /\
              HasTests a = hasTestIndicators (Content a)) added.
Proof.
  revert acc w. induction files as [|file files IH]; intros acc w Hrun; simpl in Hrun.
  - injection Hrun as <- _. exists []. rewrite app_nil_r.
    split; [reflexivity|]. split; [simpl; lia|constructor].
  - apply bind_Done in Hrun as (acc1 & w1 & Hstep & Hrest).
    unfold analyzeInto in Hstep.
    apply bind_Done in Hstep as (analysis & w0 & Hfile & Hret).
    apply IH in Hrest as (added & -> & Hlen & Hall).
    assert (Hall' : Forall (fun a =>
              Repo a = name /\
              (exists f, In f (file :: files) /\ Path a = github.Path f) /\
              Language a = detectLanguage (Path a) /\
              Size a = len (Content a) /\
              Lines a = 1 + Count (Content a) LF /\
              HasTests a = hasTestIndicators (Content a)) added).
    { eapply Forall_impl; [exact Hall|].
      intros a (HR & (f & Hf & HP) & Hrest). split; [exact HR|].
      split; [exists f; split; [right; exact Hf|exact HP]|exact Hrest]. }
    destruct analysis as [a|]; injection Hret as <- _.
    + exists (a :: added). rewrite <- app_assoc. split; [reflexivity|].
      split; [simpl; lia|]. constructor; [|exact Hall'].
      apply analyzeFile_Some in Hfile as (HR & HP & HL & HS & HLines & HT).
      split; [exact HR|]. split; [exists file; split; [left; reflexivity|exact HP]|].
      rewrite HP. auto.
    + exists added. split; [reflexivity|]. split; [simpl; lia|exact Hall'].
Qed.

(** X6.  Every analysis [GetRepositoryContents] returns is for the
    repository asked for and for a blob of its tree that [isCodeFile]
    accepts; it carries the language [detectLanguage] gives the path,
    the byte size of the decoded content, a line count one more than
    the number of line feeds in it, and the test flag of the content.  There are no more analyses
    than code blobs in the tree, nor than [SampleFileCount]. *)
Theorem analyses_are_of_code_blobs (username name : string) (w w' : World)
        (analyses : list FileAnalysis) :
  GetRepositoryContents config username name w = Done (Ok analyses) w' ->
  exists entries,
    fst (Git_GetTree username name "HEAD" true (remote w)) = Ok entries /\
    Forall (fun a =>
              Repo a = name /\
              (exists entry,
                  In entry entries /\
                  github.Type_ entry = "blob" /\
                  isCodeFile (github.Path entry) = true /\
                  Path a = github.Path entry) /\
              Language a = detectLanguage (Path a) /\
              Size a = len (Content a) /\
              Lines a = 1 + Count (Content a) LF /\
              HasTests a = hasTestIndicators (Content a)) analyses /\
    Z.of_nat (length analyses)
    <= Z.min (Z.of_nat (length (List.filter isCodeBlob entries)))
             (SampleFileCount config).
Proof.
  unfold GetRepositoryContents. intros Hrun.
  apply bind_Done in Hrun as (reply & w0 & Hcall & Hrun).
  unfold call in Hcall.
  destruct (Git_GetTree username name "HEAD" true (remote w)) as [reply' r'].
  injection Hcall as -> <-.
  destruct reply as [entries|e]; [|discriminate].
  apply bind_Done in Hrun as (sampled & w1 & Hsample & Hrun).
  apply bind_Done in Hrun as (out & w2 & Hloop & Hret).
  injection Hret as <- _.
  exists entries. split; [reflexivity|].
  apply file_loop_analyses in Hloop as (added & -> & Hlen & Hall).
  change ([] ++ added)%list with added.
  apply sampleCodeFiles_take in Hsample as (shuffled & Hperm & -> & Hk & _).
  split.
  - eapply Forall_impl; [exact Hall|].
    intros a (HR & (file & Hfile & HP) & Hrest). split; [exact HR|].
    split; [|exact Hrest].
    assert (Hin : In file (List.filter isCodeBlob entries)).
    { eapply Permutation_in; [exact Hperm|].
      apply list_elem_of_In. eapply subseteq_take. apply list_elem_of_In. exact Hfile. }
    apply filter_In in Hin as [Hin Hblob]. unfold isCodeBlob in Hblob.
    apply andb_prop in Hblob as [Htype Hcode]. apply String.eqb_eq in Htype.
    exists file. auto.
  - rewrite length_take, (Permutation_length Hperm) in Hlen. lia.
Qed.

(** ** Languages *)

Lemma moreBytes_strictWeakOrder (languages : gmap string Z) :
  strictWeakOrder
    (fun a b => default 0 (languages !! b) <? default 0 (languages !! a)).
Proof.
  split.
  - intros a b Hab. apply Z.ltb_lt in Hab. apply Z.ltb_ge. lia.
  - intros a b c Hab Hbc. apply Z.ltb_ge in Hab, Hbc. apply Z.ltb_ge. lia.
Qed.

(** X7.  [GetRepositoryLanguages] fails exactly when the language
    request fails, with the request's error wrapped once.  Otherwise,
    on a lawful platform, it returns the languages the iteration over
    the reply visits, each once, ordered by byte count with the largest
    first. *)
Theorem languages_are_ordered_by_bytes {lawful : LawfulPlatform}
        (username name : string) (w : World) :
  match fst (Repositories_ListLanguages username name (remote w)) with
  | Err e0 =>
      exists w',
        GetRepositoryLanguages username name w
        = Done (Err (Errorf ("failed to get languages for " ++ username ++ "/" ++ name) e0)) w'
  | Ok languages =>
      exists langs w',
        GetRepositoryLanguages username name w = Done (Ok langs) w' /\
        Permutation langs (range_keys languages) /\
        StronglySorted
          (fun a b => default 0 (languages !! b) <= default 0 (languages !! a))
          langs
  end.
Proof.
  unfold GetRepositoryLanguages, bind, call.
  destruct (Repositories_ListLanguages username name (remote w))
    as [[languages|e0] r']; simpl.
  - eexists _, _. split; [reflexivity|]. split; [apply sort_Slice_perm|].
    eapply StronglySorted_weaken;
      [|apply sort_Slice_sorted, moreBytes_strictWeakOrder].
    intros a b Hab. apply Z.ltb_ge in Hab. exact Hab.
  - eexists. reflexivity.
Qed.

(** ** The listing *)



(** ** A listing without a last page *)

Lemma listPages_endless (fuel : nat) (username : string) (page : Z)
      (allRepos : list github.Repository) (w : World) :
  (forall page r,
      exists repos next,
        fst (Repositories_List username page r) = Ok (repos, next) /\ next <> 0) ->
  listPages fuel username page allRepos w = OutOfFuel.
Proof.
  intros Hmore. revert page allRepos w.
  induction fuel as [|fuel IH]; intros page allRepos w; simpl; [reflexivity|].
  unfold bind, call.
  destruct (Hmore page (remote w)) as (repos & next & Hreply & Hnext).
  destruct (Repositories_List username page (remote w)) as [reply r'].
  simpl in Hreply. subst reply.
  apply Z.eqb_neq in Hnext. rewrite Hnext. apply IH.
Qed.

(** X9.  The paging loop of [ListRepositories] has no bound of its
    own: against a remote whose every page names a next page it does
    not return, whatever the fuel, and neither does an audit whose
    profile fetch has succeeded. *)
Theorem endless_listing_never_returns (username : string) :
  (forall page r,
      exists repos next,
        fst (Repositories_List username page r) = Ok (repos, next) /\ next <> 0) ->
  forall fuel w,
    ListRepositories fuel username w = OutOfFuel /\
    (forall userInfo wa,
        GetUser username w = Done (Ok userInfo) wa ->
        PerformFullAudit config fuel username w = OutOfFuel).
Proof.
  intros Hmore fuel w.
  assert (Hlist : forall w0, ListRepositories fuel username w0 = OutOfFuel).
  { intros w0. unfold ListRepositories, bind.
    rewrite listPages_endless by exact Hmore. reflexivity. }
  split; [apply Hlist|].
  intros userInfo wa Hu. unfold PerformFullAudit, bind. rewrite Hu, Hlist. reflexivity.
Qed.

End Fetches.

(** * Further properties of the audit *)

Section Audit.

Context `{Platform} {R : Type} `{Environment R}.
Variable config : GitHubConfig.
Abbreviation World := (World R Rng).

(** ** Attribution *)

Lemma GetRepositoryCommits_Repo (username name : string) (count : Z) (w w' : World)
      (details : list CommitDetail) :
  GetRepositoryCommits username name count w = Done (Ok details) w' ->
  Forall (fun d => CommitDetail_Repo d = name) details.
Proof.
  unfold GetRepositoryCommits. intros Hrun.
  apply bind_Done in Hrun as ([commits|e] & w1 & _ & Hrun); [|discriminate].
  apply bind_Done in Hrun as (out & w2 & Hloop & Hret). injection Hret as <- _.
  apply commit_loop_details in Hloop as (added & -> & _ & _ & _ & Hall). exact Hall.
Qed.

Lemma GetRepositoryContents_Repo (username name : string) (w w' : World)
      (analyses : list FileAnalysis) :
  GetRepositoryContents config username name w = Done (Ok analyses) w' ->
  Forall (fun a => Repo a = name) analyses.
Proof.
  unfold GetRepositoryContents. intros Hrun.
  apply bind_Done in Hrun as ([entries|e] & w1 & _ & Hrun); [|discriminate].
  apply bind_Done in Hrun as (sampled & w2 & _ & Hrun).
  apply bind_Done in Hrun as (out & w3 & Hloop & Hret). injection Hret as <- _.
  apply file_loop_analyses in Hloop as (added & -> & _ & Hall).
  eapply Forall_impl; [exact Hall|]. intros a (HR & _). exact HR.
Qed.

Lemma flag_alter (f : Repository -> Repository) (p q : nat) (s : list Repository) :
  (forall r, IncludeAnalysis (f r) = IncludeAnalysis r) ->
  IncludeAnalysis (deref (alter f p s) q) = IncludeAnalysis (deref s q).
Proof.
  intros Hf. rewrite deref_alter. destruct (decide (p = q)); [|reflexivity].
  unfold deref. destruct (s !! q); simpl; [apply Hf|reflexivity].
Qed.

Lemma flag_withLanguages (languages : result (list string)) (p q : nat)
      (s : list Repository) :
  IncludeAnalysis (deref (withLanguages languages p s) q)
  = IncludeAnalysis (deref s q).
Proof.
  destruct languages; simpl; [|reflexivity]. apply flag_alter. reflexivity.
Qed.

Lemma Forall_weaken_In {A B : Type} (f : A -> B) (l : list A) (names more : list B) :
  Forall (fun a => In (f a) names) l ->
  Forall (fun a => In (f a) (names ++ more)) l.
Proof.
  intros Hall. eapply Forall_impl; [exact Hall|].
  intros a Ha. apply in_or_app. left. exact Ha.
Qed.

(** A turn of the analysis loop keeps the lists attributed. *)
Lemma auditRepo_attributed (username : string) (st st' : auditState) (p : nat)
      (w w' : World) :
  auditRepo config username st p w = Done st' w' ->
  attributed st -> attributed st'.
Proof.
  intros Hrun (Hfiles & Hcommits & Hflags).
  pose proof Hrun as Hstep. apply auditRepo_step in Hstep as (Hev & _).
  pose proof (store_keeps_names _ _ Hev) as Hnames.
  revert Hrun Hnames. rewrite auditRepo_unfold. cbv zeta.
  destruct (GetRepositoryLanguages _ _ w) as [languages w2| |]; [|discriminate..].
  destruct (GetRepositoryCommits _ _ _ w2) as [[commits|e] w3| |] eqn:Hc;
    try discriminate.
  - destruct (Z.of_nat (length commits) =? 0).
    + intros Heq Hnames. injection Heq as <- <-. unfold attributed; cbn [store allCommits allFileAnalyses analyzedRepos reposWithErrors] in *.
      split; [exact Hfiles|]. split; [exact Hcommits|].
      intros q. rewrite Hnames, flag_withLanguages. apply Hflags.
    + apply GetRepositoryCommits_Repo in Hc.
      destruct (GetRepositoryContents _ _ _ w3) as [[fa|e] w4| |] eqn:Hf;
        try discriminate.
      * apply GetRepositoryContents_Repo in Hf.
        intros Heq Hnames. injection Heq as <- <-. unfold attributed; cbn [store allCommits allFileAnalyses analyzedRepos reposWithErrors] in *.
        split; [|split].
        -- apply Forall_app. split; [apply Forall_weaken_In; exact Hfiles|].
           eapply Forall_impl; [exact Hf|]. intros a ->.
           apply in_or_app. right. left. reflexivity.
        -- apply Forall_app. split.
           ++ eapply Forall_impl; [exact Hcommits|]. intros c Hin.
              apply in_app_or in Hin as [Hin|Hin]; apply in_or_app; [left|right; exact Hin].
              apply in_or_app. left. exact Hin.
           ++ eapply Forall_impl; [exact Hc|]. intros c ->.
              apply in_or_app. left. apply in_or_app. right. left. reflexivity.
        -- intros q Hq. rewrite Hnames. apply in_or_app.
           rewrite deref_alter in Hq. destruct (decide (p = q)) as [->|Hne].
           ++ right. left. reflexivity.
           ++ left. apply Hflags.
              rewrite !flag_alter, flag_withLanguages in Hq by reflexivity. exact Hq.
      * intros Heq Hnames. injection Heq as <- <-. unfold attributed; cbn [store allCommits allFileAnalyses analyzedRepos reposWithErrors] in *.
        split; [exact Hfiles|]. split.
        -- apply Forall_app. split.
           ++ eapply Forall_impl; [exact Hcommits|]. intros c Hin.
              apply in_app_or in Hin as [Hin|Hin]; apply in_or_app; [left; exact Hin|right].
              apply in_or_app. left. exact Hin.
           ++ eapply Forall_impl; [exact Hc|]. intros c ->.
              apply in_or_app. right. apply in_or_app. right. left. reflexivity.
        -- intros q. rewrite Hnames, flag_alter, flag_withLanguages by reflexivity.
           apply Hflags.
  - intros Heq Hnames. injection Heq as <- <-. unfold attributed; cbn [store allCommits allFileAnalyses analyzedRepos reposWithErrors] in *.
    split; [exact Hfiles|]. split.
    + eapply Forall_impl; [exact Hcommits|]. intros c Hin.
      apply in_app_or in Hin as [Hin|Hin]; apply in_or_app; [left; exact Hin|right].
      apply in_or_app. left. exact Hin.
    + intros q. rewrite Hnames, flag_withLanguages. apply Hflags.
Qed.

Lemma analysis_loop_attributed (username : string) (l : list nat)
      (st st' : auditState) (w w' : World) :
  forRange (auditRepo config username) l st w = Done st' w' ->
  attributed st -> attributed st'.
Proof.
  revert st w. induction l as [|p l IH]; intros st w Hrun Hinv.
  - injection Hrun as <- _. exact Hinv.
  - simpl in Hrun. apply bind_Done in Hrun as (st1 & w1 & Hstep & Hrest).
    eapply IH; [exact Hrest|]. eapply auditRepo_attributed; eassumption.
Qed.

(** The records [ListRepositories] allocates are not marked for
    inclusion. *)
Lemma ListRepositories_unmarked (fuel : nat) (username : string) (w w' : World)
      (records : list Repository) :
  ListRepositories fuel username w = Done (Ok records) w' ->
  forall q, IncludeAnalysis (deref records q) = false.
Proof.
  unfold ListRepositories. intros Hrun q.
  apply bind_Done in Hrun as ([allRepos|e] & w1 & _ & Hret); [|discriminate].
  injection Hret as <- _.
  apply (deref_Forall (fun r => IncludeAnalysis r = false)); [|reflexivity].
  apply List.Forall_forall. intros r Hr. apply in_map_iff in Hr as (x & <- & _).
  reflexivity.
Qed.

(** An audit that returns a result went through an attributed loop,
    and the statistics loop left the store as the analysis loop left
    it. *)
Lemma audit_attributed (fuel : nat) (username : string) (w w' : World) (r : AuditResult) :
  PerformFullAudit config fuel username w = Done (Ok r) w' ->
  exists userInfo wa records wb selected st,
    GetUser username w = Done (Ok userInfo) wa /\
    ListRepositories fuel username wa = Done (Ok records) wb /\
    selectRecent config records
      (analysisRepos
         (partitionRepos records (cutoffAt config wb) (seq 0 (length records))))
    = Some selected /\
    forRange (auditRepo config username) selected (initialState records) wb
    = Done st w' /\
    storeEvolves records (store st) /\
    attributed st /\
    r = buildResult config userInfo (seq 0 (length records))
          (partitionRepos records (cutoffAt config wb) (seq 0 (length records)))
          selected st
          (fold_left countRepo (seq 0 (length records))
             {| tally_store := store st; totalStars := 0; significantForks := 0 |}) /\
    tally_store
      (fold_left countRepo (seq 0 (length records))
         {| tally_store := store st; totalStars := 0; significantForks := 0 |})
    = store st.
Proof.
  intros Hrun.
  apply PerformFullAudit_Ok in Hrun
    as (userInfo & wa & records & wb & selected & st & Hu & Hl & Hs & Hloop & ->).
  pose proof Hloop as Hgrow. apply analysis_loop_grows in Hgrow as (Hev & _).
  exists userInfo, wa, records, wb, selected, st.
  split; [exact Hu|]. split; [exact Hl|]. split; [exact Hs|]. split; [exact Hloop|].
  split; [exact Hev|]. split; [|split].
  - eapply analysis_loop_attributed; [exact Hloop|].
    split; [constructor|]. split; [constructor|].
    intros q. simpl. erewrite ListRepositories_unmarked by exact Hl. discriminate.
  - reflexivity.
  - apply tally_without_commit_counts. intros q.
    destruct Hev as [_ Hev]. destruct (Hev q) as (_ & HU & _). simpl in HU.
    rewrite HU. eapply ListRepositories_UserCommits. exact Hl.
Qed.

(** X10.  In the result of an audit every file analysis belongs to a
    repository listed in [ReposAnalyzedForCode], and every commit
    detail to a repository listed in [ReposAnalyzedForCode] or in
    [ReposWithErrors]: a repository whose commit fetch failed or came
    back empty contributes neither commits nor analyses. *)
Theorem analyses_and_commits_are_attributed (fuel : nat) (username : string)
        (w w' : World) (r : AuditResult) :
  PerformFullAudit config fuel username w = Done (Ok r) w' ->
  Forall (fun a => In (Repo a) (ReposAnalyzedForCode (AuditResult_AnalysisSummary r)))
         (AuditResult_FileAnalysis r) /\
  Forall (fun c => In (CommitDetail_Repo c)
                      (ReposAnalyzedForCode (AuditResult_AnalysisSummary r) ++
                       ReposWithErrors (AuditResult_AnalysisSummary r)))
         (CommitDetails r).
Proof.
  intros Hrun.
  apply audit_attributed in Hrun
    as (userInfo & wa & records & wb & selected & st & _ & _ & _ & _ & _ & Hinv & -> & _).
  destruct Hinv as (Hfiles & Hcommits & _). split; assumption.
Qed.

(** X11.  A repository record of the result that is marked with
    [IncludeAnalysis] has its name in [ReposAnalyzedForCode]. *)
Theorem marked_records_are_analysed (fuel : nat) (username : string)
        (w w' : World) (r : AuditResult) :
  PerformFullAudit config fuel username w = Done (Ok r) w' ->
  Forall (fun repo =>
            IncludeAnalysis repo = true ->
            In (Name repo) (ReposAnalyzedForCode (AuditResult_AnalysisSummary r)))
         (RepoStats_OriginalRepos (AuditResult_RepoStats r) ++
          RepoStats_ForkedRepos (AuditResult_RepoStats r)).
Proof.
  intros Hrun.
  apply audit_attributed in Hrun
    as (userInfo & wa & records & wb & selected & st & _ & _ & _ & _ & _ & Hinv & -> & Hstore).
  destruct Hinv as (_ & _ & Hflags). simpl.
  rewrite Hstore, <- map_app. apply List.Forall_forall.
  intros repo Hrepo. apply in_map_iff in Hrepo as (q & <- & _). apply Hflags.
Qed.

(** ** The statistics *)

Lemma wrap64_add_l (a b : Z) : wrap64 (wrap64 a + b) = wrap64 (a + b).
Proof.
  unfold wrap64.
  replace ((a + 2 ^ 63) mod 2 ^ 64 - 2 ^ 63 + b + 2 ^ 63)
    with ((a + 2 ^ 63) mod 2 ^ 64 + b) by lia.
  rewrite Zplus_mod_idemp_l. do 2 f_equal. lia.
Qed.

Lemma wrap64_small (z : Z) : - 2 ^ 63 <= z < 2 ^ 63 -> wrap64 z = z.
Proof. intros Hz. unfold wrap64. rewrite Z.mod_small; lia. Qed.

Lemma tally_stars (l : list nat) (s : list Repository) (t n : Z) :
  (forall q, UserCommits (deref s q) = 0) ->
  totalStars
    (fold_left countRepo l
       {| tally_store := s; totalStars := wrap64 t; significantForks := n |})
  = wrap64 (t + sumStars (map (deref s) l)).
Proof.
  intros Hzero. revert t. induction l as [|p l IH]; intros t; simpl.
  - f_equal. lia.
  - unfold countRepo at 2. simpl. rewrite Hzero. simpl. rewrite andb_false_r.
    rewrite wrap64_add_l, IH. f_equal. lia.
Qed.

Lemma sumStars_split (g : nat -> Repository) (f : nat -> bool) (l : list nat) :
  sumStars (map g (List.filter (fun p => negb (f p)) l)) +
  sumStars (map g (List.filter f l))
  = sumStars (map g l).
Proof.
  induction l as [|p l IH]; simpl; [reflexivity|].
  destruct (f p); simpl; lia.
Qed.

(** X12.  [TotalStars] is the sum of the stars of the records in the
    two repository lists of the result, wrapped to the range of [int];
    when the sum is in that range it is the sum. *)
Theorem total_stars_is_the_wrapped_sum (fuel : nat) (username : string)
        (w w' : World) (r : AuditResult) :
  PerformFullAudit config fuel username w = Done (Ok r) w' ->
  let stats := AuditResult_RepoStats r in
  let sum := sumStars (RepoStats_OriginalRepos stats) +
             sumStars (RepoStats_ForkedRepos stats) in
  TotalStars (Statistics stats) = wrap64 sum /\
  (- 2 ^ 63 <= sum < 2 ^ 63 -> TotalStars (Statistics stats) = sum).
Proof.
  intros Hrun.
  apply audit_attributed in Hrun
    as (userInfo & wa & records & wb & selected & st & _ & Hl & _ & _ & Hev & _ & -> & Hstore).
  cbv zeta. cbn [AuditResult_RepoStats buildResult Statistics TotalStars
                 RepoStats_OriginalRepos RepoStats_ForkedRepos].
  rewrite Hstore, partitionRepos_spec. cbn [originalRepos forkedRepos].
  rewrite (sumStars_split (deref (store st)) (fun p => Fork (deref records p))).
  assert (Htotal :
            totalStars
              (fold_left countRepo (seq 0 (length records))
                 {| tally_store := store st; totalStars := 0; significantForks := 0 |})
            = wrap64 (sumStars (map (deref (store st)) (seq 0 (length records))))).
  { apply (tally_stars (seq 0 (length records)) (store st) 0 0).
    intros q. destruct Hev as [_ Hev]. destruct (Hev q) as (_ & HU & _).
    rewrite HU. eapply ListRepositories_UserCommits. exact Hl. }
  rewrite Htotal. split; [reflexivity|]. apply wrap64_small.
Qed.

Lemma Forall2_evolves (s s' : list Repository) (l : list nat) :
  storeEvolves s s' -> Forall2 evolves (map (deref s) l) (map (deref s') l).
Proof.
  intros [_ Hev]. induction l as [|q l IH]; simpl; constructor; auto.
Qed.

Lemma filter_deref_seq (f : Repository -> bool) (records : list Repository) :
  map (deref records)
      (List.filter (fun p => f (deref records p)) (seq 0 (length records)))
  = List.filter f records.
Proof.
  rewrite <- (map_deref_seq records) at 3. rewrite filter_map_swap. reflexivity.
Qed.

(** X13.  The two repository lists of the result are the listed
    repositories that are not forks and those that are, each in the
    order of the listing; between the listing and the result a record
    keeps its name, fork flag, stars and update time. *)
Theorem repository_lists_split_the_listing (fuel : nat) (username : string)
        (w w' : World) (r : AuditResult) :
  PerformFullAudit config fuel username w = Done (Ok r) w' ->
  exists userInfo wa records wb,
    GetUser username w = Done (Ok userInfo) wa /\
    ListRepositories fuel username wa = Done (Ok records) wb /\
    Forall2 evolves (List.filter (fun repo => negb (Fork repo)) records)
            (RepoStats_OriginalRepos (AuditResult_RepoStats r)) /\
    Forall2 evolves (List.filter Fork records)
            (RepoStats_ForkedRepos (AuditResult_RepoStats r)) /\
    Forall (fun repo => Fork repo = false)
           (RepoStats_OriginalRepos (AuditResult_RepoStats r)) /\
    Forall (fun repo => Fork repo = true)
           (RepoStats_ForkedRepos (AuditResult_RepoStats r)).
Proof.
  intros Hrun.
  apply audit_attributed in Hrun
    as (userInfo & wa & records & wb & selected & st & Hu & Hl & _ & _ & Hev & _ & -> & Hstore).
  exists userInfo, wa, records, wb. split; [exact Hu|]. split; [exact Hl|].
  cbn [AuditResult_RepoStats buildResult RepoStats_OriginalRepos RepoStats_ForkedRepos].
  rewrite Hstore, partitionRepos_spec. cbn [originalRepos forkedRepos].
  assert (Horig : Forall2 evolves (List.filter (fun repo => negb (Fork repo)) records)
            (map (deref (store st))
               (List.filter (fun p => negb (Fork (deref records p)))
                  (seq 0 (length records))))).
  { rewrite <- (filter_deref_seq (fun repo => negb (Fork repo))).
    apply Forall2_evolves. exact Hev. }
  assert (Hfork : Forall2 evolves (List.filter Fork records)
            (map (deref (store st))
               (List.filter (fun p => Fork (deref records p))
                  (seq 0 (length records))))).
  { rewrite <- (filter_deref_seq Fork). apply Forall2_evolves. exact Hev. }
  split; [exact Horig|]. split; [exact Hfork|]. split.
  - apply List.Forall_forall. intros repo Hrepo.
    apply in_map_iff in Hrepo as (q & <- & Hq). apply filter_In in Hq as [_ Hq].
    destruct Hev as [_ Hev]. destruct (Hev q) as (_ & _ & HF & _). rewrite HF.
    apply negb_true_iff. exact Hq.
  - apply List.Forall_forall. intros repo Hrepo.
    apply in_map_iff in Hrepo as (q & <- & Hq). apply filter_In in Hq as [_ Hq].
    destruct Hev as [_ Hev]. destruct (Hev q) as (_ & _ & HF & _). rewrite HF.
    exact Hq.
Qed.

(** ** The counters of a record *)

Lemma alter_alter (f g : Repository -> Repository) (p : nat) (s : list Repository) :
  alter f p (alter g p s) = alter (fun r => f (g r)) p s.
Proof.
  revert p. induction s as [|x s IH]; intros [|p]; simpl; try reflexivity.
  f_equal. apply IH.
Qed.

Lemma consistent_alter (f : Repository -> Repository) (p q : nat) (s : list Repository) :
  (forall r, consistent r -> consistent (f r)) ->
  consistent (deref s q) -> consistent (deref (alter f p s) q).
Proof.
  intros Hf Hq. rewrite deref_alter. destruct (decide (p = q)); [|exact Hq].
  unfold deref in Hq. destruct (s !! q); simpl in Hq; [apply Hf; exact Hq|].
  unfold consistent. simpl. repeat split; try lia; try discriminate; congruence.
Qed.

Lemma consistent_withLanguages (languages : result (list string)) (p q : nat)
      (s : list Repository) :
  consistent (deref s q) -> consistent (deref (withLanguages languages p s) q).
Proof.
  destruct languages; simpl; [|auto]. apply consistent_alter.
  intros r Hr. exact Hr.
Qed.

(** A turn of the analysis loop keeps the counters of every record
    consistent. *)
Lemma auditRepo_consistent (username : string) (st st' : auditState) (p : nat)
      (w w' : World) :
  auditRepo config username st p w = Done st' w' ->
  (forall q, consistent (deref (store st) q)) ->
  forall q, consistent (deref (store st') q).
Proof.
  rewrite auditRepo_unfold. cbv zeta.
  destruct (GetRepositoryLanguages _ _ w) as [languages w2| |]; [|discriminate..].
  destruct (GetRepositoryCommits _ _ _ w2) as [[commits|e] w3| |]; try discriminate.
  - destruct (Z.of_nat (length commits) =? 0) eqn:Hlen.
    + intros Heq Hinv q. injection Heq as <- _. cbn [store].
      apply consistent_withLanguages, Hinv.
    + apply Z.eqb_neq in Hlen.
      destruct (GetRepositoryContents _ _ _ w3) as [[fa|e] w4| |]; try discriminate.
      * intros Heq Hinv q. injection Heq as <- _. cbn [store].
        rewrite !alter_alter. apply consistent_alter.
        -- intros r (HC & HF & HI & HN). unfold consistent. simpl.
           repeat split; try lia; auto.
        -- apply consistent_withLanguages, Hinv.
      * intros Heq Hinv q. injection Heq as <- _. cbn [store].
        apply consistent_alter.
        -- intros r (HC & HF & HI & HN). unfold consistent. simpl.
           repeat split; try lia; auto; try (intros _; lia).
        -- apply consistent_withLanguages, Hinv.
  - intros Heq Hinv q. injection Heq as <- _. cbn [store].
    apply consistent_withLanguages, Hinv.
Qed.

Lemma analysis_loop_consistent (username : string) (l : list nat)
      (st st' : auditState) (w w' : World) :
  forRange (auditRepo config username) l st w = Done st' w' ->
  (forall q, consistent (deref (store st) q)) ->
  forall q, consistent (deref (store st') q).
Proof.
  revert st w. induction l as [|p l IH]; intros st w Hrun Hinv.
  - injection Hrun as <- _. exact Hinv.
  - simpl in Hrun. apply bind_Done in Hrun as (st1 & w1 & Hstep & Hrest).
    eapply IH; [exact Hrest|]. eapply auditRepo_consistent; eassumption.
Qed.

Lemma ListRepositories_consistent (fuel : nat) (username : string) (w w' : World)
      (records : list Repository) :
  ListRepositories fuel username w = Done (Ok records) w' ->
  forall q, consistent (deref records q).
Proof.
  unfold ListRepositories. intros Hrun q.
  apply bind_Done in Hrun as ([allRepos|e] & w1 & _ & Hret); [|discriminate].
  injection Hret as <- _.
  assert (Hfresh : forall r, CommitCount r = 0 -> FileCount r = 0 ->
                             IncludeAnalysis r = false -> consistent r).
  { intros r HC HF HI. unfold consistent. rewrite HC, HF, HI.
    repeat split; try lia; try discriminate; congruence. }
  apply (deref_Forall consistent); [|apply Hfresh; reflexivity].
  apply List.Forall_forall. intros r Hr. apply in_map_iff in Hr as (x & <- & _).
  apply Hfresh; reflexivity.
Qed.

(** X14.  The counters of every repository record of the result agree
    with its analysis flag: a record marked with [IncludeAnalysis] has
    a positive [CommitCount], a record with a [FileCount] other than
    zero is marked, and neither counter is negative. *)
Theorem record_counters_are_consistent (fuel : nat) (username : string)
        (w w' : World) (r : AuditResult) :
  PerformFullAudit config fuel username w = Done (Ok r) w' ->
  Forall consistent
         (RepoStats_OriginalRepos (AuditResult_RepoStats r) ++
          RepoStats_ForkedRepos (AuditResult_RepoStats r)).
Proof.
  intros Hrun.
  apply audit_attributed in Hrun
    as (userInfo & wa & records & wb & selected & st & _ & Hl & _ & Hloop & _ & _ & -> & Hstore).
  cbn [AuditResult_RepoStats buildResult RepoStats_OriginalRepos RepoStats_ForkedRepos].
  rewrite Hstore, <- map_app. apply List.Forall_forall.
  intros repo Hrepo. apply in_map_iff in Hrepo as (q & <- & _).
  eapply analysis_loop_consistent; [exact Hloop|].
  cbn [store initialState]. eapply ListRepositories_consistent. exact Hl.
Qed.

(** ** The names in the summary *)

(** A turn of the loop records no name but that of its repository. *)
Lemma auditRepo_names (username : string) (st st' : auditState) (p : nat)
      (w w' : World) (n : string) :
  auditRepo config username st p w = Done st' w' ->
  In n (analyzedRepos st' ++ reposWithErrors st') ->
  In n (analyzedRepos st ++ reposWithErrors st) \/ n = Name (deref (store st) p).
Proof.
  rewrite auditRepo_unfold. cbv zeta.
  destruct (GetRepositoryLanguages _ _ w) as [languages w2| |]; [|discriminate..].
  destruct (GetRepositoryCommits _ _ _ w2) as [[commits|e] w3| |]; try discriminate.
  - destruct (Z.of_nat (length commits) =? 0).
    + intros Heq. injection Heq as <- _. cbn [analyzedRepos reposWithErrors]. auto.
    + destruct (GetRepositoryContents _ _ _ w3) as [[fa|e] w4| |]; try discriminate;
        intros Heq; injection Heq as <- _; cbn [analyzedRepos reposWithErrors];
        rewrite !in_app_iff; simpl; intuition auto.
  - intros Heq. injection Heq as <- _. cbn [analyzedRepos reposWithErrors].
    rewrite !in_app_iff. simpl. intuition auto.
Qed.

Lemma analysis_loop_names (username : string) (l : list nat)
      (st st' : auditState) (w w' : World) (n : string) :
  forRange (auditRepo config username) l st w = Done st' w' ->
  In n (analyzedRepos st' ++ reposWithErrors st') ->
  In n (analyzedRepos st ++ reposWithErrors st) \/
  exists q, In q l /\ n = Name (deref (store st) q).
Proof.
  revert st w. induction l as [|p l IH]; intros st w Hrun Hn.
  - injection Hrun as <- _. left. exact Hn.
  - simpl in Hrun. apply bind_Done in Hrun as (st1 & w1 & Hstep & Hrest).
    destruct (IH _ _ Hrest Hn) as [Hold|(q & Hq & ->)].
    + destruct (auditRepo_names _ _ _ _ _ _ _ Hstep Hold) as [Hold'| ->];
        [left; exact Hold'|].
      right. exists p. split; [left; reflexivity|reflexivity].
    + right. exists q. split; [right; exact Hq|].
      apply auditRepo_step in Hstep as (Hev & _).
      apply store_keeps_names. exact Hev.
Qed.

(** A turn of the loop over a record of the store keeps the analysed
    names marked. *)
Lemma auditRepo_marked (username : string) (st st' : auditState) (p : nat)
      (w w' : World) :
  (p < length (store st))%nat ->
  auditRepo config username st p w = Done st' w' ->
  marked st -> marked st'.
Proof.
  intros Hp Hrun Hinv.
  pose proof Hrun as Hstep. apply auditRepo_step in Hstep as (Hev & _).
  assert (Hkept : forall n, In n (analyzedRepos st) ->
            exists q, (q < length (store st'))%nat /\
                      Name (deref (store st') q) = n /\
                      IncludeAnalysis (deref (store st') q) = true).
  { intros n Hn. destruct (Hinv n Hn) as (q & Hq & HN & HI).
    destruct Hev as [Hlen Hev]. destruct (Hev q) as (HN' & _ & _ & _ & _ & _ & HI').
    exists q. split; [lia|]. split; [congruence|auto]. }
  revert Hrun Hev Hkept. rewrite auditRepo_unfold. cbv zeta.
  destruct (GetRepositoryLanguages _ _ w) as [languages w2| |]; [|discriminate..].
  destruct (GetRepositoryCommits _ _ _ w2) as [[commits|e] w3| |]; try discriminate.
  - destruct (Z.of_nat (length commits) =? 0).
    + intros Heq. injection Heq as <- _. intros _ Hkept. exact Hkept.
    + destruct (GetRepositoryContents _ _ _ w3) as [[fa|e] w4| |]; try discriminate.
      * intros Heq. injection Heq as <- _. intros Hev Hkept n Hn.
        cbn [store analyzedRepos] in *.
        apply in_app_or in Hn as [Hn|[<-|[]]]; [apply Hkept; exact Hn|].
        exists p. destruct Hev as [Hlen Hev]. split; [lia|].
        split; [destruct (Hev p) as (HN & _); exact HN|].
        pose proof (storeEvolves_withLanguages languages p (store st)) as [Hlen' _].
        rewrite deref_alter_same by (rewrite !length_alter, Hlen'; exact Hp).
        reflexivity.
      * intros Heq. injection Heq as <- _. intros _ Hkept. exact Hkept.
  - intros Heq. injection Heq as <- _. intros _ Hkept. exact Hkept.
Qed.

Lemma analysis_loop_marked (username : string) (l : list nat)
      (st st' : auditState) (w w' : World) :
  (forall q, In q l -> (q < length (store st))%nat) ->
  forRange (auditRepo config username) l st w = Done st' w' ->
  marked st -> marked st'.
Proof.
  revert st w. induction l as [|p l IH]; intros st w Hl Hrun Hinv.
  - injection Hrun as <- _. exact Hinv.
  - simpl in Hrun. apply bind_Done in Hrun as (st1 & w1 & Hstep & Hrest).
    eapply IH; [|exact Hrest|].
    + intros q Hq. pose proof Hstep as Hev.
      apply auditRepo_step in Hev as ((Hlen & _) & _).
      rewrite Hlen. apply Hl. right. exact Hq.
    + eapply auditRepo_marked; [|exact Hstep|exact Hinv]. apply Hl. left. reflexivity.
Qed.

(** ** Accounting for the repositories attempted *)

(** A turn of the loop adds one name to one list, or is a turn for a
    repository without commits. *)
Lemma auditRepo_accounts (username : string) (st st' : auditState) (p : nat)
      (w w' : World) :
  auditRepo config username st p w = Done st' w' ->
  (length (analyzedRepos st') + length (reposWithErrors st')
   + (if quietTurn config username st p w then 1 else 0)
   = length (analyzedRepos st) + length (reposWithErrors st) + 1)%nat.
Proof.
  rewrite auditRepo_unfold. unfold quietTurn. cbv zeta.
  destruct (GetRepositoryLanguages _ _ w) as [languages w2| |]; [|discriminate..].
  destruct (GetRepositoryCommits _ _ _ w2) as [[commits|e] w3| |]; try discriminate.
  - destruct (Z.of_nat (length commits) =? 0).
    + intros Heq. injection Heq as <- _. simpl. lia.
    + destruct (GetRepositoryContents _ _ _ w3) as [[fa|e] w4| |]; try discriminate;
        intros Heq; injection Heq as <- _; simpl; rewrite length_app; simpl; lia.
  - intros Heq. injection Heq as <- _. simpl. rewrite length_app. simpl. lia.
Qed.

Lemma analysis_loop_accounts (username : string) (l : list nat)
      (st st' : auditState) (w w' : World) :
  forRange (auditRepo config username) l st w = Done st' w' ->
  (length (analyzedRepos st') + length (reposWithErrors st')
   + quietTurns config username l st w
   = length (analyzedRepos st) + length (reposWithErrors st) + length l)%nat.
Proof.
  revert st w. induction l as [|p l IH]; intros st w Hrun.
  - injection Hrun as <- _. simpl. lia.
  - simpl in Hrun. apply bind_Done in Hrun as (st1 & w1 & Hstep & Hrest).
    simpl. rewrite Hstep.
    apply auditRepo_accounts in Hstep. apply IH in Hrest. lia.
Qed.

(** X15.  [TotalReposAttempted] counts the repositories recorded as
    analysed, those recorded in error, and the selected repositories
    whose commit fetch returned no commit, which are recorded
    nowhere. *)
Theorem attempts_are_accounted_for (fuel : nat) (username : string)
        (w w' : World) (r : AuditResult) :
  PerformFullAudit config fuel username w = Done (Ok r) w' ->
  exists userInfo wa records wb selected,
    GetUser username w = Done (Ok userInfo) wa /\
    ListRepositories fuel username wa = Done (Ok records) wb /\
    selectRecent config records
      (analysisRepos
         (partitionRepos records (cutoffAt config wb) (seq 0 (length records))))
    = Some selected /\
    TotalReposAttempted (AuditResult_AnalysisSummary r)
    = Z.of_nat (length (ReposAnalyzedForCode (AuditResult_AnalysisSummary r)))
      + Z.of_nat (length (ReposWithErrors (AuditResult_AnalysisSummary r)))
      + Z.of_nat (quietTurns config username selected (initialState records) wb).
Proof.
  intros Hrun.
  apply audit_attributed in Hrun
    as (userInfo & wa & records & wb & selected & st & Hu & Hl & Hs & Hloop & _ & _ & -> & _).
  exists userInfo, wa, records, wb, selected.
  split; [exact Hu|]. split; [exact Hl|]. split; [exact Hs|].
  apply analysis_loop_accounts in Hloop. simpl in Hloop |- *. lia.
Qed.

(** ** The configuration in the result *)


(** ** The number of analyses *)

Lemma GetRepositoryContents_count (username name : string) (w w' : World)
      (analyses : list FileAnalysis) :
  GetRepositoryContents config username name w = Done (Ok analyses) w' ->
  0 <= Z.of_nat (length analyses) <= SampleFileCount config.
Proof.
  unfold GetRepositoryContents. intros Hrun.
  apply bind_Done in Hrun as ([entries|e] & w1 & _ & Hrun); [|discriminate].
  apply bind_Done in Hrun as (sampled & w2 & Hsample & Hrun).
  apply bind_Done in Hrun as (out & w3 & Hloop & Hret). injection Hret as <- _.
  apply file_loop_analyses in Hloop as (added & -> & Hlen & _).
  apply sampleCodeFiles_take in Hsample as (shuffled & _ & -> & Hk & _).
  rewrite length_take in Hlen. simpl. lia.
Qed.

Lemma auditRepo_file_bound (username : string) (st st' : auditState) (p : nat)
      (w w' : World) :
  auditRepo config username st p w = Done st' w' ->
  Z.of_nat (length (allFileAnalyses st))
  <= SampleFileCount config * Z.of_nat (length (analyzedRepos st)) ->
  Z.of_nat (length (allFileAnalyses st'))
  <= SampleFileCount config * Z.of_nat (length (analyzedRepos st')).
Proof.
  rewrite auditRepo_unfold. cbv zeta.
  destruct (GetRepositoryLanguages _ _ w) as [languages w2| |]; [|discriminate..].
  destruct (GetRepositoryCommits _ _ _ w2) as [[commits|e] w3| |]; try discriminate.
  - destruct (Z.of_nat (length commits) =? 0).
    + intros Heq. injection Heq as <- _. auto.
    + destruct (GetRepositoryContents _ _ _ w3) as [[fa|e] w4| |] eqn:Hf;
        try discriminate.
      * apply GetRepositoryContents_count in Hf.
        intros Heq. injection Heq as <- _. simpl. rewrite !length_app. simpl.
        rewrite !Nat2Z.inj_add, Z.mul_add_distr_l. simpl. lia.
      * intros Heq. injection Heq as <- _. auto.
  - intros Heq. injection Heq as <- _. auto.
Qed.

Lemma analysis_loop_file_bound (username : string) (l : list nat)
      (st st' : auditState) (w w' : World) :
  forRange (auditRepo config username) l st w = Done st' w' ->
  Z.of_nat (length (allFileAnalyses st))
  <= SampleFileCount config * Z.of_nat (length (analyzedRepos st)) ->
  Z.of_nat (length (allFileAnalyses st'))
  <= SampleFileCount config * Z.of_nat (length (analyzedRepos st')).
Proof.
  revert st w. induction l as [|p l IH]; intros st w Hrun Hinv.
  - injection Hrun as <- _. exact Hinv.
  - simpl in Hrun. apply bind_Done in Hrun as (st1 & w1 & Hstep & Hrest).
    eapply IH; [exact Hrest|]. eapply auditRepo_file_bound; eassumption.
Qed.

(** X17.  The result of an audit holds at most [SampleFileCount] file
    analyses for each repository in [ReposAnalyzedForCode]. *)
Theorem analyses_are_bounded_by_the_sample (fuel : nat) (username : string)
        (w w' : World) (r : AuditResult) :
  PerformFullAudit config fuel username w = Done (Ok r) w' ->
  Z.of_nat (length (AuditResult_FileAnalysis r))
  <= SampleFileCount config
     * SuccessfulAnalysisCount (AuditResult_AnalysisSummary r).
Proof.
  intros Hrun.
  apply audit_attributed in Hrun
    as (userInfo & wa & records & wb & selected & st & _ & _ & _ & Hloop & _ & _ & -> & _).
  apply analysis_loop_file_bound in Hloop; [exact Hloop|]. simpl. lia.
Qed.

(** ** Edge cases of the sample counts *)

(** X18.  When no repository is selected for analysis, because none
    was updated after the cut-off date or because [SampledRepoCount]
    is zero, the audit sends no request after the listing, and its
    result holds no commit, no analysis and no name. *)
Theorem nothing_selected_nothing_fetched (fuel : nat) (username : string)
        (w w' : World) (r : AuditResult) :
  PerformFullAudit config fuel username w = Done (Ok r) w' ->
  AnalysisRepos (Statistics (AuditResult_RepoStats r)) = 0 ->
  (exists userInfo wa records,
      GetUser username w = Done (Ok userInfo) wa /\
      ListRepositories fuel username wa = Done (Ok records) w') /\
  CommitDetails r = [] /\
  AuditResult_FileAnalysis r = [] /\
  ReposAnalyzedForCode (AuditResult_AnalysisSummary r) = [] /\
  ReposWithErrors (AuditResult_AnalysisSummary r) = [] /\
  TotalReposAttempted (AuditResult_AnalysisSummary r) = 0.
Proof.
  intros Hrun.
  apply audit_attributed in Hrun
    as (userInfo & wa & records & wb & selected & st & Hu & Hl & _ & Hloop & _ & _ & -> & _).
  simpl. intros Hnone.
  destruct selected as [|p selected]; [|simpl in Hnone; lia].
  simpl in Hloop. injection Hloop as <- <-.
  split; [exists userInfo, wa, records; auto|]. simpl. auto.
Qed.

(** X19.  A negative sample count makes the service panic where it
    cuts the slice: the audit panics once the profile and the listing
    have been fetched if [SampledRepoCount] is negative, and
    [GetRepositoryContents] panics once the tree has been fetched if
    [SampleFileCount] is negative. *)
Theorem negative_counts_panic (fuel : nat) (username name : string) (w : World) :
  (SampledRepoCount config < 0 ->
   forall userInfo wa records wb,
     GetUser username w = Done (Ok userInfo) wa ->
     ListRepositories fuel username wa = Done (Ok records) wb ->
     PerformFullAudit config fuel username w = Panic) /\
  (SampleFileCount config < 0 ->
   forall entries,
     fst (Git_GetTree username name "HEAD" true (remote w)) = Ok entries ->
     GetRepositoryContents config username name w = Panic).
Proof.
  split.
  - intros Hneg userInfo wa records wb Hu Hl.
    unfold PerformFullAudit, bind. rewrite Hu, Hl.
    unfold auditRepositories, bind, Now, selectRecent, slicePrefix.
    assert (Hlt : forall n : nat, (SampledRepoCount config <? Z.of_nat n) = true)
      by (intros n; apply Z.ltb_lt; lia).
    assert (Hz : (SampledRepoCount config <? 0) = true) by (apply Z.ltb_lt; lia).
    rewrite Hlt, Hz. reflexivity.
  - intros Hneg entries Hentries.
    unfold GetRepositoryContents, bind, call.
    destruct (Git_GetTree username name "HEAD" true (remote w)) as [reply r'].
    simpl in Hentries. subst reply.
    unfold sampleCodeFiles, slicePrefix.
    assert (Hlt : forall n : nat, (SampleFileCount config <? Z.of_nat n) = true)
      by (intros n; apply Z.ltb_lt; lia).
    assert (Hz : (SampleFileCount config <? 0) = true) by (apply Z.ltb_lt; lia).
    rewrite Hlt. destruct (Shuffle _ _) as [[shuffled g']|]; [|reflexivity].
    rewrite Hz. reflexivity.
Qed.

(** ** The generator *)










(** ** What a turn writes to the store *)

Lemma deref_alter_other (f : Repository -> Repository) (p q : nat) (s : list Repository) :
  p <> q -> deref (alter f p s) q = deref s q.
Proof.
  intros Hne. rewrite deref_alter. destruct (decide (p = q)); [congruence|reflexivity].
Qed.

Lemma deref_withLanguages_other (languages : result (list string)) (p q : nat)
      (s : list Repository) :
  p <> q -> deref (withLanguages languages p s) q = deref s q.
Proof.
  intros Hne. destruct languages; simpl; [|reflexivity].
  apply deref_alter_other. exact Hne.
Qed.

Lemma deref_withLanguages_same (languages : result (list string)) (p : nat)
      (s : list Repository) :
  (p < length s)%nat ->
  deref (withLanguages languages p s) p =
  match languages with
  | Ok ls => set_LanguagesUsed ls (deref s p)
  | Err _ => deref s p
  end.
Proof.
  intros Hp. destruct languages; simpl; [|reflexivity].
  apply deref_alter_same. exact Hp.
Qed.

(** X21.  A turn of the analysis loop writes to the record of its
    repository only.  It stores the languages whenever the language
    fetch succeeds, whatever happens to the commits and the tree, and
    leaves them as they were when it fails; it stores the number of
    commits whenever the commit fetch returns at least one, also when
    the tree fetch then fails. *)
Theorem turn_writes_its_record (username : string) (st st' : auditState) (p : nat)
        (w w2 w3 w' : World) (languages : result (list string))
        (commits : result (list CommitDetail)) :
  (p < length (store st))%nat ->
  GetRepositoryLanguages username (Name (deref (store st) p)) w = Done languages w2 ->
  GetRepositoryCommits username (Name (deref (store st) p)) (CommitsPerRepo config) w2
  = Done commits w3 ->
  auditRepo config username st p w = Done st' w' ->
  LanguagesUsed (deref (store st') p)
  = match languages with
    | Ok ls => ls
    | Err _ => LanguagesUsed (deref (store st) p)
    end /\
  CommitCount (deref (store st') p)
  = match commits with
    | Ok (c :: cs) => Z.of_nat (length (c :: cs))
    | _ => CommitCount (deref (store st) p)
    end /\
  forall q, q <> p -> deref (store st') q = deref (store st) q.
Proof.
  intros Hp Hlangs Hcommits. rewrite auditRepo_unfold. cbv zeta.
  rewrite Hlangs, Hcommits.
  pose proof (storeEvolves_withLanguages languages p (store st)) as [Hlen _].
  assert (Hstored : LanguagesUsed (deref (withLanguages languages p (store st)) p)
                    = match languages with
                      | Ok ls => ls
                      | Err _ => LanguagesUsed (deref (store st) p)
                      end).
  { rewrite deref_withLanguages_same by exact Hp. destruct languages; reflexivity. }
  assert (Hcount : CommitCount (deref (withLanguages languages p (store st)) p)
                   = CommitCount (deref (store st) p)).
  { rewrite deref_withLanguages_same by exact Hp. destruct languages; reflexivity. }
  destruct commits as [[|c cs]|e].
  - simpl. intros Heq. injection Heq as <- _. cbn [store].
    split; [exact Hstored|]. split; [exact Hcount|].
    intros q Hq. apply deref_withLanguages_other. congruence.
  - rewrite nonempty_length by discriminate.
    destruct (GetRepositoryContents _ _ _ w3) as [[fa|e] w4| |]; try discriminate;
      intros Heq; injection Heq as <- _; cbn [store].
    + split; [|split].
      * rewrite !deref_alter_same by (rewrite ?length_alter, Hlen; exact Hp).
        simpl. exact Hstored.
      * rewrite !deref_alter_same by (rewrite ?length_alter, Hlen; exact Hp).
        reflexivity.
      * intros q Hq. rewrite !deref_alter_other by congruence.
        apply deref_withLanguages_other. congruence.
    + split; [|split].
      * rewrite deref_alter_same by (rewrite Hlen; exact Hp). simpl. exact Hstored.
      * rewrite deref_alter_same by (rewrite Hlen; exact Hp). reflexivity.
      * intros q Hq. rewrite deref_alter_other by congruence.
        apply deref_withLanguages_other. congruence.
  - intros Heq. injection Heq as <- _. cbn [store].
    split; [exact Hstored|]. split; [exact Hcount|].
    intros q Hq. apply deref_withLanguages_other. congruence.
Qed.

Lemma auditRepo_untouched (username : string) (st st' : auditState) (p q : nat)
      (w w' : World) :
  auditRepo config username st p w = Done st' w' ->
  q <> p -> deref (store st') q = deref (store st) q.
Proof.
  rewrite auditRepo_unfold. cbv zeta.
  destruct (GetRepositoryLanguages _ _ w) as [languages w2| |]; [|discriminate..].
  destruct (GetRepositoryCommits _ _ _ w2) as [[commits|e] w3| |]; try discriminate.
  - destruct (Z.of_nat (length commits) =? 0).
    + intros Heq Hq. injection Heq as <- _. cbn [store].
      apply deref_withLanguages_other. congruence.
    + destruct (GetRepositoryContents _ _ _ w3) as [[fa|e] w4| |]; try discriminate;
        intros Heq Hq; injection Heq as <- _; cbn [store];
        rewrite !deref_alter_other by congruence;
        apply deref_withLanguages_other; congruence.
  - intros Heq Hq. injection Heq as <- _. cbn [store].
    apply deref_withLanguages_other. congruence.
Qed.

Lemma analysis_loop_untouched (username : string) (l : list nat)
      (st st' : auditState) (q : nat) (w w' : World) :
  forRange (auditRepo config username) l st w = Done st' w' ->
  ~ In q l -> deref (store st') q = deref (store st) q.
Proof.
  revert st w. induction l as [|p l IH]; intros st w Hrun Hq.
  - injection Hrun as <- _. reflexivity.
  - simpl in Hrun. apply bind_Done in Hrun as (st1 & w1 & Hstep & Hrest).
    rewrite (IH _ _ Hrest) by (intros Hin; apply Hq; right; exact Hin).
    eapply auditRepo_untouched; [exact Hstep|].
    intros ->. apply Hq. left. reflexivity.
Qed.

(** X22.  A repository that is not selected for analysis is reported
    as it was listed: every record of the result is a record of the
    listing, unchanged, or carries the name of a selected
    repository. *)
Theorem unselected_records_are_untouched (fuel : nat) (username : string)
        (w w' : World) (r : AuditResult) :
  PerformFullAudit config fuel username w = Done (Ok r) w' ->
  exists userInfo wa records wb selected,
    GetUser username w = Done (Ok userInfo) wa /\
    ListRepositories fuel username wa = Done (Ok records) wb /\
    selectRecent config records
      (analysisRepos
         (partitionRepos records (cutoffAt config wb) (seq 0 (length records))))
    = Some selected /\
    Forall (fun repo =>
              In repo records \/
              exists q, In q selected /\ Name repo = Name (deref records q))
           (RepoStats_OriginalRepos (AuditResult_RepoStats r) ++
            RepoStats_ForkedRepos (AuditResult_RepoStats r)).
Proof.
  intros Hrun.
  apply audit_attributed in Hrun
    as (userInfo & wa & records & wb & selected & st & Hu & Hl & Hs & Hloop & Hev & _ & -> & Hstore).
  exists userInfo, wa, records, wb, selected.
  split; [exact Hu|]. split; [exact Hl|]. split; [exact Hs|].
  cbn [AuditResult_RepoStats buildResult RepoStats_OriginalRepos RepoStats_ForkedRepos].
  rewrite Hstore, <- map_app, partitionRepos_spec. cbn [originalRepos forkedRepos].
  apply List.Forall_forall. intros repo Hrepo.
  apply in_map_iff in Hrepo as (q & <- & Hq).
  assert (Hseq : In q (seq 0 (length records))).
  { apply in_app_or in Hq as [Hq|Hq]; apply filter_In in Hq as [Hq _]; exact Hq. }
  apply in_seq in Hseq.
  destruct (in_dec Nat.eq_dec q selected) as [Hin|Hout].
  - right. exists q. split; [exact Hin|]. apply store_keeps_names. exact Hev.
  - left. rewrite (analysis_loop_untouched _ _ _ _ _ _ _ Hloop Hout).
    cbn [store initialState]. unfold deref.
    destruct (records !! q) as [repo|] eqn:E.
    + simpl. apply list_elem_of_In. eapply list_elem_of_lookup_2. exact E.
    + apply lookup_ge_None in E. lia.
Qed.

(** ** The analyses in the result *)

Lemma GetRepositoryContents_describes (username name : string) (w w' : World)
      (analyses : list FileAnalysis) :
  GetRepositoryContents config username name w = Done (Ok analyses) w' ->
  Forall describesItsFile analyses.
Proof.
  unfold GetRepositoryContents. intros Hrun.
  apply bind_Done in Hrun as ([entries|e] & w1 & _ & Hrun); [|discriminate].
  apply bind_Done in Hrun as (sampled & w2 & Hsample & Hrun).
  apply bind_Done in Hrun as (out & w3 & Hloop & Hret). injection Hret as <- _.
  apply file_loop_analyses in Hloop as (added & -> & _ & Hall).
  apply sampleCodeFiles_take in Hsample as (shuffled & Hperm & -> & _ & _).
  eapply Forall_impl; [exact Hall|].
  intros a (_ & (file & Hfile & HP) & HL & HS & HLines & HT).
  split; [|auto].
  assert (Hin : In file (List.filter isCodeBlob entries)).
  { eapply Permutation_in; [exact Hperm|].
    apply list_elem_of_In. eapply subseteq_take. apply list_elem_of_In. exact Hfile. }
  apply filter_In in Hin as [_ Hblob]. unfold isCodeBlob in Hblob.
  apply andb_prop in Hblob as [_ Hcode]. rewrite HP. exact Hcode.
Qed.

Lemma analysis_loop_describes (username : string) (l : list nat)
      (st st' : auditState) (w w' : World) :
  forRange (auditRepo config username) l st w = Done st' w' ->
  Forall describesItsFile (allFileAnalyses st) ->
  Forall describesItsFile (allFileAnalyses st').
Proof.
  revert st w. induction l as [|p l IH]; intros st w Hrun Hinv.
  - injection Hrun as <- _. exact Hinv.
  - simpl in Hrun. apply bind_Done in Hrun as (st1 & w1 & Hstep & Hrest).
    eapply IH; [exact Hrest|]. clear Hrest IH.
    revert Hstep. rewrite auditRepo_unfold. cbv zeta.
    destruct (GetRepositoryLanguages _ _ w) as [languages w2| |]; [|discriminate..].
    destruct (GetRepositoryCommits _ _ _ w2) as [[commits|e] w3| |]; try discriminate.
    + destruct (Z.of_nat (length commits) =? 0).
      * intros Heq. injection Heq as <- _. exact Hinv.
      * destruct (GetRepositoryContents _ _ _ w3) as [[fa|e] w4| |] eqn:Hf;
          try discriminate; intros Heq; injection Heq as <- _; [|exact Hinv].
        cbn [allFileAnalyses]. apply Forall_app. split; [exact Hinv|].
        eapply GetRepositoryContents_describes. exact Hf.
    + intros Heq. injection Heq as <- _. exact Hinv.
Qed.

(** X23.  Every file analysis in the result of an audit is of a path
    that [isCodeFile] accepts; its language is the one
    [detectLanguage] gives the path, its size the byte length of its
    content, its line count one more than the number of line feeds in
    the content, and its test flag that of the content. *)
Theorem reported_analyses_describe_code_files (fuel : nat) (username : string)
        (w w' : World) (r : AuditResult) :
  PerformFullAudit config fuel username w = Done (Ok r) w' ->
  Forall describesItsFile (AuditResult_FileAnalysis r).
Proof.
  intros Hrun.
  apply audit_attributed in Hrun
    as (userInfo & wa & records & wb & selected & st & _ & _ & _ & Hloop & _ & _ & -> & _).
  cbn [AuditResult_FileAnalysis buildResult].
  eapply analysis_loop_describes; [exact Hloop|]. constructor.
Qed.

Section LawfulAudit.

Context {lawful : LawfulPlatform}.

(** X24.  On a lawful platform every name in [ReposAnalyzedForCode] or
    [ReposWithErrors] is the name of a listed repository that was
    updated after the cut-off date. *)
Theorem attempted_repositories_are_recent (fuel : nat) (username : string)
        (w w' : World) (r : AuditResult) :
  PerformFullAudit config fuel username w = Done (Ok r) w' ->
  exists userInfo wa records wb,
    GetUser username w = Done (Ok userInfo) wa /\
    ListRepositories fuel username wa = Done (Ok records) wb /\
    Forall (fun n =>
              exists repo,
                In repo records /\
                Name repo = n /\
                After (UpdatedAt repo) (cutoffAt config wb) = true)
           (ReposAnalyzedForCode (AuditResult_AnalysisSummary r) ++
            ReposWithErrors (AuditResult_AnalysisSummary r)).
Proof.
  intros Hrun.
  apply audit_attributed in Hrun
    as (userInfo & wa & records & wb & selected & st & Hu & Hl & Hs & Hloop & _ & _ & -> & _).
  exists userInfo, wa, records, wb. split; [exact Hu|]. split; [exact Hl|].
  cbn [AuditResult_AnalysisSummary buildResult ReposAnalyzedForCode ReposWithErrors].
  apply List.Forall_forall. intros n Hn.
  destruct (analysis_loop_names _ _ _ _ _ _ _ Hloop Hn) as [[]|(q & Hq & ->)].
  cbn [store initialState].
  apply (selectRecent_subset config _ _ _ _ Hs) in Hq.
  rewrite partitionRepos_spec in Hq. cbn [analysisRepos] in Hq.
  apply filter_In in Hq as [Hseq Hafter]. apply in_seq in Hseq.
  exists (deref records q). split; [|split; [reflexivity|exact Hafter]].
  unfold deref. destruct (records !! q) as [repo|] eqn:E.
  - simpl. apply list_elem_of_In. eapply list_elem_of_lookup_2. exact E.
  - apply lookup_ge_None in E. lia.
Qed.

(** X25.  On a lawful platform every name in [ReposAnalyzedForCode] is
    the name of a repository record of the result that is marked with
    [IncludeAnalysis]. *)
Theorem analysed_repositories_are_marked (fuel : nat) (username : string)
        (w w' : World) (r : AuditResult) :
  PerformFullAudit config fuel username w = Done (Ok r) w' ->
  Forall (fun n =>
            exists repo,
              In repo (RepoStats_OriginalRepos (AuditResult_RepoStats r) ++
                       RepoStats_ForkedRepos (AuditResult_RepoStats r)) /\
              Name repo = n /\
              IncludeAnalysis repo = true)
         (ReposAnalyzedForCode (AuditResult_AnalysisSummary r)).
Proof.
  intros Hrun.
  apply audit_attributed in Hrun
    as (userInfo & wa & records & wb & selected & st & _ & _ & Hs & Hloop & Hev & _ & -> & Hstore).
  cbn [AuditResult_AnalysisSummary AuditResult_RepoStats buildResult ReposAnalyzedForCode
       RepoStats_OriginalRepos RepoStats_ForkedRepos].
  rewrite Hstore, <- map_app, partitionRepos_spec. cbn [originalRepos forkedRepos].
  assert (Hmarked : marked st).
  { eapply analysis_loop_marked; [|exact Hloop|intros n []].
    intros q Hq. cbn [store initialState].
    apply (selected_is_listed config _ _ _ _ Hs) in Hq. apply Hq. }
  apply List.Forall_forall. intros n Hn.
  destruct (Hmarked n Hn) as (q & Hq & HN & HI).
  exists (deref (store st) q). split; [|split; assumption].
  apply in_map. destruct Hev as [Hlen _]. rewrite Hlen in Hq.
  assert (Hseq : In q (seq 0 (length records))) by (apply in_seq; lia).
  apply in_or_app.
  destruct (Fork (deref records q)) eqn:E; [right|left];
    apply filter_In; rewrite E; auto.
Qed.

End LawfulAudit.

End Audit.

(** ** The further properties at work on the scripts *)

Lemma sample_is_drawn_from_the_candidates_witness :
  exists sampled w',
    @sampleCodeFiles refPlatform nat demoConfig fiveFiles startWorld
    = Done sampled w' /\
    (exists rest, Permutation (sampled ++ rest) fiveFiles) /\
    remote w' = 0%nat /\
    length sampled = 3%nat.
Proof.
  destruct (@sampleCodeFiles refPlatform nat demoConfig fiveFiles startWorld)
    as [sampled w'| |] eqn:Hrun; [|vm_compute in Hrun; discriminate Hrun..].
  exists sampled, w'. split; [reflexivity|].
  destruct (@sample_is_drawn_from_the_candidates refPlatform nat demoConfig
              fiveFiles sampled startWorld w' Hrun) as (Hperm & Hremote & Hlen).
  split; [exact Hperm|]. split; [exact Hremote|].
  change (Z.of_nat (length sampled) = 3) in Hlen. lia.
Defined.

Lemma analyses_are_of_code_blobs_witness :
  exists analyses w',
    @GetRepositoryContents refPlatform nat (scripted mixedScript) demoConfig
                           "octo" "lib" startWorld
    = Done (Ok analyses) w' /\
    Forall (fun a =>
              Repo a = "lib" /\
              Language a = @detectLanguage refPlatform (Path a) /\
              Lines a = 1 + Count (Content a) LF) analyses /\
    map Path analyses = ["main.go"].
Proof.
  destruct (@GetRepositoryContents refPlatform nat (scripted mixedScript) demoConfig
              "octo" "lib" startWorld)
    as [[analyses|e] w'| |] eqn:Hrun; [|vm_compute in Hrun; discriminate Hrun..].
  exists analyses, w'. split; [reflexivity|].
  destruct (@analyses_are_of_code_blobs refPlatform nat (scripted mixedScript)
              demoConfig "octo" "lib" startWorld w' analyses Hrun)
    as (entries & _ & Hall & _).
  split.
  - eapply Forall_impl; [exact Hall|].
    intros a (HR & _ & HL & _ & HLines & _). auto.
  - vm_compute in Hrun. injection Hrun as <- _. reflexivity.
Defined.

Lemma languages_are_ordered_by_bytes_witness :
  exists langs w',
    @GetRepositoryLanguages refPlatform nat (scripted mixedScript) "octo" "lib"
                            startWorld
    = Done (Ok langs) w' /\
    Permutation langs
                (@range_keys refPlatform {[ "Go" := 1200; "Python" := 300 ]}) /\
    StronglySorted
      (fun a b =>
         default 0 (({[ "Go" := 1200; "Python" := 300 ]} : gmap string Z) !! b)
         <= default 0 (({[ "Go" := 1200; "Python" := 300 ]} : gmap string Z) !! a))
      langs.
Proof.
  exact (@languages_are_ordered_by_bytes refPlatform nat (scripted mixedScript)
           refPlatform_lawful "octo" "lib" startWorld).
Defined.


Lemma endless_listing_never_returns_witness :
  @ListRepositories refPlatform nat (scripted endlessScript) 1000 "octo" startWorld
  = OutOfFuel /\
  runAudit endlessScript demoConfig = OutOfFuel.
Proof.
  assert (Hmore : forall (page : Z) (r : nat),
             exists repos next,
               fst (@Repositories_List nat (scripted endlessScript) "octo" page r)
               = Ok (repos, next) /\ next <> 0).
  { intros page r. eexists _, _. split; [reflexivity|discriminate]. }
  split.
  - apply (@endless_listing_never_returns refPlatform nat (scripted endlessScript)
             demoConfig "octo" Hmore 1000%nat startWorld).
  - destruct (@endless_listing_never_returns refPlatform nat (scripted endlessScript)
                demoConfig "octo" Hmore 10%nat startWorld) as [_ Haudit].
    eapply Haudit. vm_compute. reflexivity.
Defined.

Lemma classifier_follows_the_extension_witness :
  isASCII "pkg/Util.CC" = true /\
  @isCodeFile refPlatform "pkg/Util.CC" = true /\
  @detectLanguage refPlatform "pkg/Util.CC" = "Unknown" /\
  (@ToLower refPlatform (Ext "pkg/Util.CC") = ".cc" \/
   @ToLower refPlatform (Ext "pkg/Util.CC") = ".cxx").
Proof.
  split; [reflexivity|].
  destruct (@classifier_follows_the_extension refPlatform "pkg/Util.CC" eq_refl)
    as (_ & _ & Hcc).
  split; [vm_compute; reflexivity|]. split; [vm_compute; reflexivity|].
  apply Hcc; vm_compute; reflexivity.
Defined.

Lemma analyses_and_commits_are_attributed_witness :
  exists r w',
    runAudit mixedScript demoConfig = Done (Ok r) w' /\
    Forall (fun a => In (Repo a) ["lib"]) (AuditResult_FileAnalysis r) /\
    Forall (fun c => In (CommitDetail_Repo c) ["lib"; "api"; "web"])
           (CommitDetails r).
Proof.
  destruct (runAudit mixedScript demoConfig) as [[r|e] w'| |] eqn:Hrun;
    [|vm_compute in Hrun; discriminate Hrun..].
  exists r, w'. split; [reflexivity|].
  pose proof (@analyses_and_commits_are_attributed refPlatform nat
                (scripted mixedScript) demoConfig 10 "octo" startWorld w' r Hrun)
    as Hattr.
  vm_compute in Hrun. injection Hrun as <- _. exact Hattr.
Defined.

Lemma marked_records_are_analysed_witness :
  exists r w',
    runAudit mixedScript demoConfig = Done (Ok r) w' /\
    Forall (fun repo =>
              IncludeAnalysis repo = true ->
              In (Name repo)
                 (ReposAnalyzedForCode (AuditResult_AnalysisSummary r)))
           (RepoStats_OriginalRepos (AuditResult_RepoStats r) ++
            RepoStats_ForkedRepos (AuditResult_RepoStats r)).
Proof.
  destruct (runAudit mixedScript demoConfig) as [[r|e] w'| |] eqn:Hrun;
    [|vm_compute in Hrun; discriminate Hrun..].
  exists r, w'. split; [reflexivity|].
  exact (@marked_records_are_analysed refPlatform nat (scripted mixedScript)
           demoConfig 10 "octo" startWorld w' r Hrun).
Defined.

Lemma total_stars_is_the_wrapped_sum_witness :
  exists r w',
    runAudit mixedScript demoConfig = Done (Ok r) w' /\
    TotalStars (Statistics (AuditResult_RepoStats r))
    = sumStars (RepoStats_OriginalRepos (AuditResult_RepoStats r)) +
      sumStars (RepoStats_ForkedRepos (AuditResult_RepoStats r)).
Proof.
  destruct (runAudit mixedScript demoConfig) as [[r|e] w'| |] eqn:Hrun;
    [|vm_compute in Hrun; discriminate Hrun..].
  exists r, w'. split; [reflexivity|].
  destruct (@total_stars_is_the_wrapped_sum refPlatform nat (scripted mixedScript)
              demoConfig 10 "octo" startWorld w' r Hrun) as [_ Hsmall].
  apply Hsmall. vm_compute in Hrun. injection Hrun as <- _.
  vm_compute. split; [discriminate|reflexivity].
Defined.

Lemma repository_lists_split_the_listing_witness :
  exists r w',
    runAudit mixedScript demoConfig = Done (Ok r) w' /\
    Forall (fun repo => Fork repo = false)
           (RepoStats_OriginalRepos (AuditResult_RepoStats r)) /\
    Forall (fun repo => Fork repo = true)
           (RepoStats_ForkedRepos (AuditResult_RepoStats r)) /\
    map Name (RepoStats_OriginalRepos (AuditResult_RepoStats r))
    = ["api"; "lib"; "empty"] /\
    map Name (RepoStats_ForkedRepos (AuditResult_RepoStats r)) = ["web"; "old"].
Proof.
  destruct (runAudit mixedScript demoConfig) as [[r|e] w'| |] eqn:Hrun;
    [|vm_compute in Hrun; discriminate Hrun..].
  exists r, w'. split; [reflexivity|].
  destruct (@repository_lists_split_the_listing refPlatform nat
              (scripted mixedScript) demoConfig 10 "octo" startWorld w' r Hrun)
    as (userInfo & wa & records & wb & _ & _ & _ & _ & Horig & Hfork).
  split; [exact Horig|]. split; [exact Hfork|].
  clear Horig Hfork. vm_compute in Hrun. injection Hrun as <- _. split; reflexivity.
Defined.

Lemma record_counters_are_consistent_witness :
  exists r w',
    runAudit mixedScript demoConfig = Done (Ok r) w' /\
    Forall consistent
           (RepoStats_OriginalRepos (AuditResult_RepoStats r) ++
            RepoStats_ForkedRepos (AuditResult_RepoStats r)).
Proof.
  destruct (runAudit mixedScript demoConfig) as [[r|e] w'| |] eqn:Hrun;
    [|vm_compute in Hrun; discriminate Hrun..].
  exists r, w'. split; [reflexivity|].
  exact (@record_counters_are_consistent refPlatform nat (scripted mixedScript)
           demoConfig 10 "octo" startWorld w' r Hrun).
Defined.

Lemma attempts_are_accounted_for_witness :
  exists r w',
    runAudit mixedScript demoConfig = Done (Ok r) w' /\
    TotalReposAttempted (AuditResult_AnalysisSummary r) = 4 /\
    exists quiet : nat,
      TotalReposAttempted (AuditResult_AnalysisSummary r)
      = Z.of_nat (length (ReposAnalyzedForCode (AuditResult_AnalysisSummary r)))
        + Z.of_nat (length (ReposWithErrors (AuditResult_AnalysisSummary r)))
        + Z.of_nat quiet.
Proof.
  destruct (runAudit mixedScript demoConfig) as [[r|e] w'| |] eqn:Hrun;
    [|vm_compute in Hrun; discriminate Hrun..].
  exists r, w'. split; [reflexivity|].
  destruct (@attempts_are_accounted_for refPlatform nat (scripted mixedScript)
              demoConfig 10 "octo" startWorld w' r Hrun)
    as (userInfo & wa & records & wb & selected & _ & _ & _ & Htotal).
  split; [vm_compute in Hrun; injection Hrun as <- _; reflexivity|].
  eexists. exact Htotal.
Defined.


Lemma analyses_are_bounded_by_the_sample_witness :
  exists r w',
    runAudit mixedScript demoConfig = Done (Ok r) w' /\
    Z.of_nat (length (AuditResult_FileAnalysis r))
    <= 3 * SuccessfulAnalysisCount (AuditResult_AnalysisSummary r).
Proof.
  destruct (runAudit mixedScript demoConfig) as [[r|e] w'| |] eqn:Hrun;
    [|vm_compute in Hrun; discriminate Hrun..].
  exists r, w'. split; [reflexivity|].
  exact (@analyses_are_bounded_by_the_sample refPlatform nat (scripted mixedScript)
           demoConfig 10 "octo" startWorld w' r Hrun).
Defined.

Lemma nothing_selected_nothing_fetched_witness :
  exists r w',
    runAudit mixedScript (withSampledRepoCount 0 demoConfig) = Done (Ok r) w' /\
    remote w' = 2%nat /\
    CommitDetails r = [] /\
    AuditResult_FileAnalysis r = [] /\
    TotalReposAttempted (AuditResult_AnalysisSummary r) = 0.
Proof.
  destruct (runAudit mixedScript (withSampledRepoCount 0 demoConfig))
    as [[r|e] w'| |] eqn:Hrun; [|vm_compute in Hrun; discriminate Hrun..].
  exists r, w'. split; [reflexivity|].
  pose proof Hrun as Hvalue. vm_compute in Hvalue. injection Hvalue as Hr Hw.
  destruct (@nothing_selected_nothing_fetched refPlatform nat (scripted mixedScript)
              (withSampledRepoCount 0 demoConfig) 10 "octo" startWorld w' r Hrun)
    as (_ & Hcommits & Hfiles & _ & _ & Htotal).
  - rewrite <- Hr. reflexivity.
  - split; [rewrite <- Hw; reflexivity|]. auto.
Defined.

Lemma negative_counts_panic_witness :
  runAudit mixedScript (withSampledRepoCount (-1) demoConfig) = Panic /\
  @GetRepositoryContents refPlatform nat (scripted mixedScript)
                         (withSampleFileCount (-1) demoConfig) "octo" "lib"
                         startWorld
  = Panic.
Proof.
  split.
  - destruct (@negative_counts_panic refPlatform nat (scripted mixedScript)
                (withSampledRepoCount (-1) demoConfig) 10 "octo" "lib" startWorld)
      as [Haudit _].
    eapply Haudit; [reflexivity|vm_compute; reflexivity|vm_compute; reflexivity].
  - destruct (@negative_counts_panic refPlatform nat (scripted mixedScript)
                (withSampleFileCount (-1) demoConfig) 10 "octo" "lib" startWorld)
      as [_ Hcontents].
    eapply Hcontents; [reflexivity|reflexivity].
Defined.

Lemma attempted_repositories_are_recent_witness :
  exists r w',
    runAudit mixedScript demoConfig = Done (Ok r) w' /\
    exists records,
      Forall (fun n =>
                exists repo,
                  In repo records /\
                  Name repo = n /\
                  After (UpdatedAt repo) (demoNow - 5 * 365 * nanosPerDay) = true)
             (ReposAnalyzedForCode (AuditResult_AnalysisSummary r) ++
              ReposWithErrors (AuditResult_AnalysisSummary r)).
Proof.
  destruct (runAudit mixedScript demoConfig) as [[r|e] w'| |] eqn:Hrun;
    [|vm_compute in Hrun; discriminate Hrun..].
  exists r, w'. split; [reflexivity|].
  destruct (@attempted_repositories_are_recent refPlatform nat (scripted mixedScript)
              demoConfig refPlatform_lawful 10 "octo" startWorld w' r Hrun)
    as (userInfo & wa & records & wb & _ & _ & Hall).
  exists records. exact Hall.
Defined.

Lemma analysed_repositories_are_marked_witness :
  exists r w',
    runAudit mixedScript demoConfig = Done (Ok r) w' /\
    Forall (fun n =>
              exists repo,
                In repo (RepoStats_OriginalRepos (AuditResult_RepoStats r) ++
                         RepoStats_ForkedRepos (AuditResult_RepoStats r)) /\
                Name repo = n /\
                IncludeAnalysis repo = true)
           (ReposAnalyzedForCode (AuditResult_AnalysisSummary r)).
Proof.
  destruct (runAudit mixedScript demoConfig) as [[r|e] w'| |] eqn:Hrun;
    [|vm_compute in Hrun; discriminate Hrun..].
  exists r, w'. split; [reflexivity|].
  exact (@analysed_repositories_are_marked refPlatform nat (scripted mixedScript)
           demoConfig refPlatform_lawful 10 "octo" startWorld w' r Hrun).
Defined.


Lemma turn_writes_its_record_witness :
  exists st' w',
    @auditRepo refPlatform nat (scripted mixedScript) demoConfig "octo"
               (initialState (map (fun name => set_LanguagesUsed ["C"]
                                     (@toRepository (demoRepo name (daysAgo 2) false)))
                                  ["api"; "web"]))
               1%nat startWorld
    = Done st' w' /\
    LanguagesUsed (deref (store st') 1) = ["Go"; "Python"] /\
    CommitCount (deref (store st') 1) = 2 /\
    LanguagesUsed (deref (store st') 0) = ["C"].
Proof.
  destruct (@auditRepo refPlatform nat (scripted mixedScript) demoConfig "octo"
              (initialState (map (fun name => set_LanguagesUsed ["C"]
                                    (@toRepository (demoRepo name (daysAgo 2) false)))
                                 ["api"; "web"]))
              1%nat startWorld)
    as [st' w'| |] eqn:Hrun; [|vm_compute in Hrun; discriminate Hrun..].
  exists st', w'. split; [reflexivity|].
  edestruct (@turn_writes_its_record refPlatform nat (scripted mixedScript) demoConfig
               "octo") as (Hlangs & Hcount & Hothers);
    [| | |exact Hrun|].
  - vm_compute. lia.
  - vm_compute. reflexivity.
  - vm_compute. reflexivity.
  - split; [exact Hlangs|]. split; [exact Hcount|].
    rewrite (Hothers 0%nat) by discriminate. reflexivity.
Defined.

Lemma unselected_records_are_untouched_witness :
  exists r w' records,
    runAudit mixedScript demoConfig = Done (Ok r) w' /\
    length records = 5%nat /\
    Forall (fun repo =>
              In repo records \/
              exists q, In q [0; 1; 2; 3]%nat /\ Name repo = Name (deref records q))
           (RepoStats_OriginalRepos (AuditResult_RepoStats r) ++
            RepoStats_ForkedRepos (AuditResult_RepoStats r)).
Proof.
  destruct (runAudit mixedScript demoConfig) as [[r|e] w'| |] eqn:Hrun;
    [|vm_compute in Hrun; discriminate Hrun..].
  destruct (@unselected_records_are_untouched refPlatform nat (scripted mixedScript)
              demoConfig 10 "octo" startWorld w' r Hrun)
    as (userInfo & wa & records & wb & selected & Hu & Hl & Hs & Hall).
  exists r, w', records. split; [reflexivity|].
  vm_compute in Hu. injection Hu as _ <-.
  vm_compute in Hl. injection Hl as <- <-.
  vm_compute in Hs. injection Hs as <-.
  split; [reflexivity|]. exact Hall.
Defined.

Lemma reported_analyses_describe_code_files_witness :
  exists r w',
    runAudit mixedScript demoConfig = Done (Ok r) w' /\
    map Path (AuditResult_FileAnalysis r) = ["main.go"] /\
    Forall (@describesItsFile refPlatform) (AuditResult_FileAnalysis r).
Proof.
  destruct (runAudit mixedScript demoConfig) as [[r|e] w'| |] eqn:Hrun;
    [|vm_compute in Hrun; discriminate Hrun..].
  exists r, w'. split; [reflexivity|]. split.
  - vm_compute in Hrun. injection Hrun as <- _. reflexivity.
  - exact (@reported_analyses_describe_code_files refPlatform nat
             (scripted mixedScript) demoConfig 10 "octo" startWorld w' r Hrun).
Defined.
